(** * Accreditation-register loader: the two pipelines, embedded and verified

    The repository holds two variants of one loader for the open-data export
    of the accreditation register:

    - [boba.py]: the simpler schema (organizations and programs), with the
      organization-type classifier, the output filter and the branch/parent
      resolution;
    - [proektMAI.py]: the richer schema (organization, certificate,
      supplements, programs, decisions, individual entrepreneur).

    Both share the field coercions ([safe_date], [safe_bool]), the change
    detector ([check_for_updates]) and the shape of the streaming driver
    ([parse_xml_to_db]).  Definitions come first, theorems after them. *)

From Stdlib Require Import String Ascii NArith ZArith List Bool Lia.
From stdpp Require Import base option list gmap.
Import ListNotations.

Set Warnings "-register-all".
Local Open Scope N_scope.
Local Open Scope list_scope.

(* ===================================================================== *)
(** ** Python strings

    A Python 3 [str] is a sequence of Unicode code points; substring tests,
    [lower] and [strip] work on code points.  Literals of the sources are
    written as UTF-8 text and decoded once by [u]. *)
(* ===================================================================== *)

Definition str := list N.

(** [utf8_decode]: code points of a UTF-8 byte sequence (1 to 4 bytes each);
    used only to write the keyword literals of the sources. *)
Fixpoint utf8_decode (fuel : nat) (bs : list N) : list N :=
  match fuel with
  | O => []
  | S fuel' =>
    match bs with
    | [] => []
    | b0 :: r0 =>
      if b0 <? 128 then b0 :: utf8_decode fuel' r0
      else if b0 <? 224 then
        match r0 with
        | b1 :: r1 => ((b0 mod 32) * 64 + b1 mod 64) :: utf8_decode fuel' r1
        | _ => []
        end
      else if b0 <? 240 then
        match r0 with
        | b1 :: b2 :: r2 =>
            ((b0 mod 16) * 4096 + (b1 mod 64) * 64 + b2 mod 64)
              :: utf8_decode fuel' r2
        | _ => []
        end
      else
        match r0 with
        | b1 :: b2 :: b3 :: r3 =>
            ((b0 mod 8) * 262144 + (b1 mod 64) * 4096 + (b2 mod 64) * 64
             + b3 mod 64) :: utf8_decode fuel' r3
        | _ => []
        end
    end
  end.

Fixpoint bytes_of_string (s : string) : list N :=
  match s with
  | EmptyString => []
  | String a r => N_of_ascii a :: bytes_of_string r
  end.

(** [u "..."]: the Python string written by that literal. *)
Definition u (s : string) : str :=
  utf8_decode (String.length s) (bytes_of_string s).

(** [p in s] on strings: [p] occurs as a contiguous run of [s]. *)
Fixpoint startswith (p s : str) : bool :=
  match p, s with
  | [], _ => true
  | _ :: _, [] => false
  | a :: p', b :: s' => (a =? b) && startswith p' s'
  end.

Fixpoint str_in (p s : str) : bool :=
  startswith p s ||
  match s with
  | [] => false
  | _ :: s' => str_in p s'
  end.

(** [s == t] on strings. *)
Definition str_eqb (s t : str) : bool := bool_decide (s = t).

(** [s.endswith(p)]. *)
Definition endswith (p s : str) : bool := startswith (rev p) (rev s).

(** [any(x in s for x in keys)]. *)
Definition any_in (keys : list str) (s : str) : bool :=
  existsb (fun x => str_in x s) keys.

(** [c.isspace()]: the code points Python counts as whitespace. *)
Definition isspace (c : N) : bool :=
  ((9 <=? c) && (c <=? 13)) || ((28 <=? c) && (c <=? 32))
  || (c =? 133) || (c =? 160) || (c =? 5760)
  || ((8192 <=? c) && (c <=? 8202))
  || (c =? 8232) || (c =? 8233) || (c =? 8239) || (c =? 8287) || (c =? 12288).

Fixpoint lstrip (s : str) : str :=
  match s with
  | [] => []
  | c :: r => if isspace c then lstrip r else s
  end.

Definition rstrip (s : str) : str := rev (lstrip (rev s)).

(** [s.strip()]. *)
Definition strip (s : str) : str := rstrip (lstrip s).

(** [c.lower()] for one code point: the Latin letters (ASCII and Latin-1)
    and the Cyrillic block, the alphabets of the register.  Code points of
    other scripts are left as they are. *)
Definition lower_cp (c : N) : N :=
  if (65 <=? c) && (c <=? 90) then c + 32
  else if (192 <=? c) && (c <=? 222) && negb (c =? 215) then c + 32
  else if (1024 <=? c) && (c <=? 1039) then c + 80
  else if (1040 <=? c) && (c <=? 1071) then c + 32
  else c.

(** [s.lower()]. *)
Definition lower (s : str) : str := map lower_cp s.

(** [s.split(sep)[0]] for a one-character separator: the text before the
    first [sep], all of [s] when there is none. *)
Fixpoint split_head (sep : N) (s : str) : str :=
  match s with
  | [] => []
  | c :: r => if c =? sep then [] else c :: split_head sep r
  end.

(** The code point of ['+']. *)
Definition plus_sign : N := 43.

(* ===================================================================== *)
(** ** XML elements ([xml.etree.ElementTree.Element])

    An element has a tag, an optional text and children in document order.
    [find] and [findall] are given for the path shapes the sources use. *)
(* ===================================================================== *)

Inductive Element : Type :=
  Elem (tag : str) (text : option str) (children : list Element).

Definition tag (e : Element) : str := let 'Elem t _ _ := e in t.
Definition text (e : Element) : option str := let 'Elem _ x _ := e in x.
Definition children (e : Element) : list Element := let 'Elem _ _ c := e in c.

(** [e.find(name)]: the first direct child with that tag, or [None]. *)
Definition find (e : Element) (name : str) : option Element :=
  List.find (fun c => str_eqb (tag c) name) (children e).

(** All proper descendants of [e], in document order. *)
Fixpoint descendants (e : Element) : list Element :=
  match e with
  | Elem _ _ cs =>
      (fix go (l : list Element) : list Element :=
         match l with
         | [] => []
         | c :: r => c :: descendants c ++ go r
         end) cs
  end.

(** [e.findall('.//name')]: every descendant with that tag. *)
Definition findall_desc (e : Element) (name : str) : list Element :=
  filter (fun c => str_eqb (tag c) name = true) (descendants e).

(** [e.findall('.//outer/inner')]: the [inner] children of every [outer]
    descendant. *)
Definition findall_desc_child (e : Element) (outer inner : str)
  : list Element :=
  flat_map (fun d => filter (fun c => str_eqb (tag c) inner = true) (children d))
           (findall_desc e outer).

(* ===================================================================== *)
(** ** Field coercions shared by the two files *)
(* ===================================================================== *)

(** [safe_bool], identical in both files. *)
Definition safe_bool (element : option Element) : option bool :=
  match element with
  | None => None
  | Some e =>
    match text e with
    | None => None
    | Some t =>
        let text := strip t in
        if str_eqb text (u "1") then Some true
        else if str_eqb text (u "0") then Some false
        else None
    end
  end.

(** What [datetime.strptime] builds, and the [date] that [dt.date()] keeps. *)
Record datetime : Type := mk_datetime {
  dt_year : Z; dt_month : Z; dt_day : Z;
  dt_hour : Z; dt_minute : Z; dt_second : Z;
  dt_utcoffset : option Z
}.

Record date : Type := mk_date { year : Z; month : Z; day : Z }.

Definition date_of (dt : datetime) : date :=
  mk_date (dt_year dt) (dt_month dt) (dt_day dt).

(** The default [fmts] of [safe_date], in order. *)
Definition default_fmts : list str :=
  [ u "%Y-%m-%d"; u "%d.%m.%Y"; u "%Y/%m/%d";
    u "%Y-%m-%d %H:%M:%S"; u "%Y-%m-%d %H:%M:%S%z" ].

(** The text [safe_date] hands to [strptime]: trimmed, and cut at the
    first ['+'] when there is one. *)
Definition date_text (t : str) : str :=
  let text := strip t in
  if str_in [plus_sign] text then strip (split_head plus_sign text) else text.

Section SafeDate.
(** [datetime.strptime(text, fmt)] of the Python library: [None] stands
    for its [ValueError]. *)
Variable strptime : str -> str -> option datetime.

(** The [for fmt in fmts] loop: the first format that parses wins. *)
Fixpoint first_parse (text : str) (fmts : list str) : option date :=
  match fmts with
  | [] => None
  | fmt :: rest =>
    match strptime text fmt with
    | Some dt => Some (date_of dt)
    | None => first_parse text rest
    end
  end.

(** [safe_date], identical in both files. *)
Definition safe_date_with (element : option Element) (fmts : list str)
  : option date :=
  match element with
  | None => None
  | Some e =>
    match text e with
    | None => None
    | Some t =>
        let text := strip t in
        let text :=
          if str_in [plus_sign] text
          then strip (split_head plus_sign text) else text in
        first_parse text fmts
    end
  end.

Definition safe_date (element : option Element) : option date :=
  safe_date_with element default_fmts.
End SafeDate.

(* ===================================================================== *)
(** ** The store session

    A SQLAlchemy session over rows of type [Row]: [committed] rows are
    durable, [flushed] rows are written inside the open transaction, [new]
    rows are the pending objects of [session.new].  Every round trip to the
    store (flush, query, commit) is numbered by [ops]; the oracle [fault]
    says which of them raise. *)
(* ===================================================================== *)

Inductive exn : Type :=
| StoreError           (* the store refused a flush, a query or a commit *)
| UnmappedInstance     (* [session.add(None)] *)
| AttributeError       (* an attribute read on [None] *)
| ParseError           (* [ET.iterparse] on a document that is not well formed *)
| OSError.             (* [os.path.getsize] on a file that is not there *)

(** The file at the path [xml_file], as [parse_xml_to_db] meets it.  For a
    file that is not there [os.path.getsize] raises.  Otherwise
    [ET.iterparse] delivers the elements at their end events, in document
    order, and then either ends or, when the document is not well formed
    (a truncated archive member), raises. *)
Inductive XmlFile : Type :=
| NoFile
| Xml (events : list Element) (well_formed : bool).

Inductive outcome (A : Type) : Type :=
| Ok (a : A)
| Raise (e : exn).
Arguments Ok {A} a.
Arguments Raise {A} e.

Section Session.
Context {Row : Type}.

Record Session : Type := mk_session {
  committed : list Row;
  flushed : list Row;
  new : list Row;
  ops : nat;
  rollbacks : nat
}.

(** A computation on the session that may raise. *)
Definition M (A : Type) : Type := Session -> outcome A * Session.

Definition ret {A} (a : A) : M A := fun s => (Ok a, s).

Definition bind {A B} (m : M A) (k : A -> M B) : M B :=
  fun s =>
    match m s with
    | (Ok a, s') => k a s'
    | (Raise e, s') => (Raise e, s')
    end.

Definition raise {A} (e : exn) : M A := fun s => (Raise e, s).

(** [try: body except Exception: handler]. *)
Definition try_except (body : M unit) (handler : M unit) : M unit :=
  fun s =>
    match body s with
    | (Ok tt, s') => (Ok tt, s')
    | (Raise _, s') => handler s'
    end.

Variable fault : nat -> bool.
(** How the store numbers a row it inserts, given the rows it holds. *)
Variable assign_id : list Row -> Row -> Row.

(** One round trip to the store. *)
Definition round_trip : M unit :=
  fun s =>
    let s' := mk_session (committed s) (flushed s) (new s) (S (ops s))
                         (rollbacks s) in
    if fault (ops s) then (Raise StoreError, s') else (Ok tt, s').

(** The rows a query sees: committed ones, then those of the open
    transaction. *)
Definition visible (s : Session) : list Row := committed s ++ flushed s.

(** Writing the pending rows, one after the other, each numbered against
    the rows the store holds by then. *)
Fixpoint write_rows (held pending : list Row) : list Row :=
  match pending with
  | [] => []
  | r :: rest =>
      let r' := assign_id held r in r' :: write_rows (held ++ [r']) rest
  end.

Definition write_pending (s : Session) : Session :=
  mk_session (committed s)
             (flushed s ++ write_rows (visible s) (new s))
             [] (ops s) (rollbacks s).

(** The rows the store holds once everything pending is written: what a
    commit at this point would make durable. *)
Definition written (s : Session) : list Row :=
  visible s ++ write_rows (visible s) (new s).

(** [session.add(obj)]. *)
Definition add (r : Row) : M unit :=
  fun s => (Ok tt, mk_session (committed s) (flushed s) (new s ++ [r])
                              (ops s) (rollbacks s)).

(** [session.flush()]. *)
Definition flush : M unit :=
  bind round_trip (fun _ s => (Ok tt, write_pending s)).

(** [session.query(...)]: the session flushes what is pending, then reads
    the visible rows. *)
Definition query : M (list Row) :=
  bind round_trip (fun _ s => let s' := write_pending s in (Ok (visible s'), s')).

(** [len(session.new)]. *)
Definition len_new : M nat := fun s => (Ok (length (new s)), s).

(** [session.commit()]: flush, then make the transaction durable. *)
Definition commit : M unit :=
  bind round_trip (fun _ s =>
    let s' := write_pending s in
    (Ok tt, mk_session (visible s') [] [] (ops s') (rollbacks s'))).

(** [session.rollback()]: the open transaction and the pending objects
    are dropped; committed rows stay. *)
Definition rollback : M unit :=
  fun s => (Ok tt, mk_session (committed s) [] [] (ops s) (S (rollbacks s))).

(** Changing a flushed row in place ([obj.attr = v] on a persistent
    object): the row of the open transaction is the same object. *)
Definition update_flushed (f : Row -> Row) : M unit :=
  fun s => (Ok tt, mk_session (committed s) (map f (flushed s)) (new s)
                              (ops s) (rollbacks s)).

(** [for x in xs: body x]. *)
Fixpoint for_each {A} (xs : list A) (body : A -> M unit) : M unit :=
  match xs with
  | [] => ret tt
  | x :: rest => bind (body x) (fun _ => for_each rest body)
  end.

(** [os.path.getsize(xml_file)]. *)
Definition getsize (xml_file : XmlFile) : M unit :=
  match xml_file with
  | NoFile => raise OSError
  | Xml _ _ => ret tt
  end.

(** [for event, elem in ET.iterparse(xml_file, events=('end',)): body]:
    the body runs on every element delivered; the error of a document
    that is not well formed comes from the iterator, after them. *)
Definition for_iterparse (xml_file : XmlFile) (body : Element -> M unit)
  : M unit :=
  match xml_file with
  | NoFile => raise OSError
  | Xml events well_formed =>
      bind (for_each events body)
           (fun _ => if well_formed then ret tt else raise ParseError)
  end.
End Session.

Arguments Session : clear implicits.
Arguments M : clear implicits.

Declare Scope session_scope.
Delimit Scope session_scope with session.
Notation "'do' x <- m ; k" := (bind m (fun x => k))
  (at level 10, x name, m at level 100, k at level 200) : session_scope.
Notation "'do_' m ; k" := (bind m (fun _ => k))
  (at level 10, m at level 100, k at level 200) : session_scope.

Local Open Scope session_scope.

(* ===================================================================== *)
(** ** boba.py: organizations and programs *)
(* ===================================================================== *)

Module Boba.

(** *** Tables *)

Record OrganizationType : Type := mk_org_type {
  ot_id : Z; ot_name : str; ot_code : str
}.

Record EducationLevel : Type := mk_level {
  el_id : Z; el_name : str; el_code : str
}.

Record EducationForm : Type := mk_form {
  ef_id : Z; ef_name : str; ef_code : str
}.

Record Organization : Type := mk_org {
  o_id : option Z;
  o_type_id : option Z;
  o_parent_id : option Z;
  o_EduOrgShortName : str;
  o_EduOrgFullName : str;
  o_Phone : str;
  o_Fax : str;
  o_Email : str;
  o_WebSite : str;
  o_PostAddress : str;
  o_INN : str;
  o_KPP : str;
  o_OGRN : str;
  o_HeadPost : str;
  o_HeadName : str;
  o_FormName : str;
  o_KindName : str;
  o_TypeName : str;
  o_RegionName : str;
  o_FederalDistrictName : str;
  o_FederalDistrictShortName : str;
  o_IsBranch : option bool;
  o_HeadEduOrgId : str;
  o_org_type : option OrganizationType
}.

Record EducationalProgram : Type := mk_prog {
  p_id : option Z;
  p_organization_id : option Z;
  p_level_id : option Z;
  p_form_id : option Z;
  p_TypeName : str;
  p_EduLevelName : str;
  p_ProgrammName : str;
  p_ProgrammCode : option str;
  p_UGSName : str;
  p_UGSCode : str;
  p_EduNormativePeriod : str;
  p_Qualification : str;
  p_IsAccredited : option bool;
  p_IsCanceled : option bool;
  p_IsSuspended : option bool;
  p_okso_code : str
}.

(** The reference tables, seeded before the run and only read by it. *)
Record Refs : Type := mk_refs {
  organization_types : list OrganizationType;
  education_levels : list EducationLevel;
  education_forms : list EducationForm
}.

(** The rows the driver writes. *)
Inductive Row : Type :=
| OrgRow (o : Organization)
| ProgRow (p : EducationalProgram).

(** *** Coercion *)

(** [safe_text(element, default='')]. *)
Definition safe_text (element : option Element) (default : str) : str :=
  match element with
  | Some e =>
    match text e with
    | Some t => strip t
    | None => default
    end
  | None => default
  end.

(** *** Classifier *)

Definition school_markers : list str :=
  [ u "школа"; u "лицей"; u "гимназия";
    u "среднее общеобразовательное"; u "средняя общеобразовательная" ].

Definition higher_markers : list str :=
  [ u "вуз"; u "университет"; u "институт"; u "высшее учебное заведение";
    u "академия"; u "федеральное государственное";
    u "государственное образовательное"; u "национальный исследовательский";
    u "технологический университет"; u "высшее образование";
    u "бюджетное образовательное учреждение";
    u "автономное образовательное учреждение";
    u "государственный университет" ].

Definition higher_level_markers : list str :=
  [ u "бакалавриат"; u "магистратура"; u "специалитет"; u "аспирантура" ].

(** [edu_level] of a program element, as the classifier reads it. *)
Definition level_name_of (prog_elem : Element) : str :=
  lower (safe_text (find prog_elem (u "EduLevelName")) []).

(** The [for prog_elem in programs] loop of [process_organization]: the
    code it leaves in [org_type_code]. *)
Fixpoint programs_type_code (programs : list Element) : option str :=
  match programs with
  | [] => None
  | prog_elem :: rest =>
      let edu_level := level_name_of prog_elem in
      if any_in higher_level_markers edu_level
      then Some (u "higher")
      else programs_type_code rest
  end.

(** The type code [process_organization] settles on (its lines 324-354). *)
Definition org_type_code (type_name : str) (programs : list Element) : str :=
  let org_type_code : option str :=
    if any_in school_markers type_name then Some (u "secondary")
    else if any_in higher_markers type_name then Some (u "higher")
    else match programs with
         | [] => None
         | _ :: _ => programs_type_code programs
         end in
  match org_type_code with
  | Some c => c
  | None =>
      if str_in (u "колледж") type_name || str_in (u "техникум") type_name
      then u "secondary_pro" else u "secondary"
  end.

(** The same classification as the specification words it (section 4.3):
    four steps in strict priority order, first match wins, over the
    type-name and the level names of the programs, with the marker sets
    written out. *)
Definition spec_secondary_markers : list str :=
  [ u "школа"; u "лицей"; u "гимназия";
    u "среднее общеобразовательное"; u "средняя общеобразовательная" ].

Definition spec_higher_markers : list str :=
  [ u "вуз"; u "университет"; u "институт"; u "высшее учебное заведение";
    u "академия"; u "федеральное государственное";
    u "государственное образовательное"; u "национальный исследовательский";
    u "технологический университет"; u "высшее образование";
    u "бюджетное образовательное учреждение";
    u "автономное образовательное учреждение";
    u "государственный университет" ].

Definition spec_higher_level_markers : list str :=
  [ u "бакалавриат"; u "магистратура"; u "специалитет"; u "аспирантура" ].

Definition contains_any (markers : list str) (t : str) : bool :=
  existsb (fun m => str_in m t) markers.

Definition spec_org_type (type_name : str) (level_names : list str) : str :=
  if contains_any spec_secondary_markers type_name
  then u "secondary"                                           (* step 1 *)
  else if contains_any spec_higher_markers type_name
  then u "higher"                                              (* step 2 *)
  else if existsb (contains_any spec_higher_level_markers) level_names
  then u "higher"                                              (* step 3 *)
  else if str_in (u "колледж") type_name || str_in (u "техникум") type_name
  then u "secondary_pro"                                       (* step 4 *)
  else u "secondary".

(** [level_code] of [process_program]. *)
Definition level_code (level_name : str) : option str :=
  if str_in (u "бакалавр") level_name then Some (u "bachelor")
  else if str_in (u "магистр") level_name then Some (u "master")
  else if str_in (u "специалист") level_name
          || str_in (u "аспирант") level_name then Some (u "specialist")
  else None.

(** [form_code] of [process_program]. *)
Definition form_code (form_name : str) : option str :=
  if str_in (u "очная") form_name then Some (u "full_time")
  else if str_in (u "заочная") form_name then Some (u "part_time")
  else if str_in (u "очно-заочная") form_name
          || str_in (u "вечерняя") form_name then Some (u "mixed")
  else Some (u "full_time").

(** [dict.get] on the cache built by
    [{ot.code: ot for ot in session.query(OrganizationType).all()}]. *)
Definition build_cache (types : list OrganizationType)
  : gmap str OrganizationType :=
  foldl (fun m ot => <[ot_code ot := ot]> m) ∅ types.

(** *** Entity builder *)

(** [bool(x)] for an optional boolean: [None] and [False] are falsy. *)
Definition truthy (b : option bool) : bool :=
  match b with Some true => true | _ => false end.

Definition process_organization (cert_elem : Element)
    (org_types_cache : gmap str OrganizationType)
    (programs : list Element) : option Organization :=
  match find cert_elem (u "ActualEducationOrganization") with
  | None => None
  | Some org_elem =>
    let type_elem := find org_elem (u "TypeName") in
    let type_name := lower (safe_text type_elem []) in
    let is_branch := safe_bool (find org_elem (u "IsBranch")) in
    let code := org_type_code type_name programs in
    match org_types_cache !! code with
    | None => None
    | Some org_type_obj =>
      Some {|
        o_id := None;
        o_type_id := Some (ot_id org_type_obj);
        o_parent_id := None;
        o_EduOrgShortName := safe_text (find org_elem (u "ShortName")) [];
        o_EduOrgFullName := safe_text (find org_elem (u "FullName")) [];
        o_Phone := safe_text (find org_elem (u "Phone")) [];
        o_Fax := safe_text (find org_elem (u "Fax")) [];
        o_Email := safe_text (find org_elem (u "Email")) [];
        o_WebSite := safe_text (find org_elem (u "WebSite")) [];
        o_PostAddress := safe_text (find org_elem (u "PostAddress")) [];
        o_INN := safe_text (find org_elem (u "INN")) [];
        o_KPP := safe_text (find org_elem (u "KPP")) [];
        o_OGRN := safe_text (find org_elem (u "OGRN")) [];
        o_HeadPost := safe_text (find org_elem (u "HeadPost")) [];
        o_HeadName := safe_text (find org_elem (u "HeadName")) [];
        o_FormName := safe_text (find org_elem (u "FormName")) [];
        o_KindName := safe_text (find org_elem (u "KindName")) [];
        o_TypeName := type_name;
        o_RegionName := safe_text (find org_elem (u "RegionName")) [];
        o_FederalDistrictName :=
          safe_text (find org_elem (u "FederalDistrictName")) [];
        o_FederalDistrictShortName :=
          safe_text (find org_elem (u "FederalDistrictShortName")) [];
        o_IsBranch := is_branch;
        o_HeadEduOrgId := safe_text (find org_elem (u "HeadEduOrgId")) [];
        o_org_type := Some org_type_obj
      |}
    end
  end.

(** *** The store as the driver sees it *)

Definition org_ids (rows : list Row) : list Z :=
  flat_map (fun r => match r with
                     | OrgRow o => match o_id o with Some i => [i] | None => [] end
                     | ProgRow _ => []
                     end) rows.

Definition prog_ids (rows : list Row) : list Z :=
  flat_map (fun r => match r with
                     | ProgRow p => match p_id p with Some i => [i] | None => [] end
                     | OrgRow _ => []
                     end) rows.

(** The key SQLite gives an inserted row: one more than the largest key
    of its table. *)
Definition next_id (ids : list Z) : Z := (1 + fold_right Z.max 0 ids)%Z.

Definition set_org_id (i : Z) (o : Organization) : Organization :=
  mk_org (Some i) (o_type_id o) (o_parent_id o) (o_EduOrgShortName o)
    (o_EduOrgFullName o) (o_Phone o) (o_Fax o) (o_Email o) (o_WebSite o)
    (o_PostAddress o) (o_INN o) (o_KPP o) (o_OGRN o) (o_HeadPost o)
    (o_HeadName o) (o_FormName o) (o_KindName o) (o_TypeName o)
    (o_RegionName o) (o_FederalDistrictName o)
    (o_FederalDistrictShortName o) (o_IsBranch o) (o_HeadEduOrgId o)
    (o_org_type o).

Definition set_parent_id (i : Z) (o : Organization) : Organization :=
  mk_org (o_id o) (o_type_id o) (Some i) (o_EduOrgShortName o)
    (o_EduOrgFullName o) (o_Phone o) (o_Fax o) (o_Email o) (o_WebSite o)
    (o_PostAddress o) (o_INN o) (o_KPP o) (o_OGRN o) (o_HeadPost o)
    (o_HeadName o) (o_FormName o) (o_KindName o) (o_TypeName o)
    (o_RegionName o) (o_FederalDistrictName o)
    (o_FederalDistrictShortName o) (o_IsBranch o) (o_HeadEduOrgId o)
    (o_org_type o).

Definition set_prog_id (i : Z) (p : EducationalProgram) : EducationalProgram :=
  mk_prog (Some i) (p_organization_id p) (p_level_id p) (p_form_id p)
    (p_TypeName p) (p_EduLevelName p) (p_ProgrammName p) (p_ProgrammCode p)
    (p_UGSName p) (p_UGSCode p) (p_EduNormativePeriod p) (p_Qualification p)
    (p_IsAccredited p) (p_IsCanceled p) (p_IsSuspended p) (p_okso_code p).

Definition set_organization_id (i : option Z) (p : EducationalProgram)
  : EducationalProgram :=
  mk_prog (p_id p) i (p_level_id p) (p_form_id p)
    (p_TypeName p) (p_EduLevelName p) (p_ProgrammName p) (p_ProgrammCode p)
    (p_UGSName p) (p_UGSCode p) (p_EduNormativePeriod p) (p_Qualification p)
    (p_IsAccredited p) (p_IsCanceled p) (p_IsSuspended p) (p_okso_code p).

Definition assign_id (held : list Row) (r : Row) : Row :=
  match r with
  | OrgRow o => OrgRow (set_org_id (next_id (org_ids held)) o)
  | ProgRow p => ProgRow (set_prog_id (next_id (prog_ids held)) p)
  end.

(** An organization as the store holds it once it is flushed under key [i]
    and linked to [parent_id]. *)
Definition stored_org (i : Z) (parent_id : option Z) (org : Organization)
  : Organization :=
  match parent_id with
  | Some p => set_parent_id p (set_org_id i org)
  | None => set_org_id i org
  end.

(** The organizations among rows, in row order. *)
Definition orgs_of (rows : list Row) : list Organization :=
  flat_map (fun r => match r with OrgRow o => [o] | ProgRow _ => [] end) rows.

Definition progs_of (rows : list Row) : list EducationalProgram :=
  flat_map (fun r => match r with ProgRow p => [p] | OrgRow _ => [] end) rows.

(** The output filter of [parse_xml_to_db]: an organization goes on when
    [org.org_type.code != 'higher' and not org.IsBranch] is false. *)
Definition kept_by_filter (org : Organization) : bool :=
  match o_org_type org with
  | Some org_type => str_eqb (ot_code org_type) (u "higher")
  | None => false
  end || truthy (o_IsBranch org).

Definition row_kept (r : Row) : bool :=
  match r with
  | OrgRow o => kept_by_filter o
  | ProgRow _ => true
  end.

Section Driver.
Variable fault : nat -> bool.
(** How the store compares the integer key [Organization.id] with the
    text bound for [HeadEduOrgId]. *)
Variable int_eq_text : Z -> str -> bool.
Variable refs : Refs.

Abbreviation M := (M Row).
Abbreviation query := (query fault assign_id).
Abbreviation flush := (flush fault assign_id).
Abbreviation commit := (commit fault assign_id).

(** [session.query(EducationLevel).filter_by(code=c).first()]. *)
Definition first_level (c : str) : M (option EducationLevel) :=
  do _ <- query;
  ret (List.find (fun l => str_eqb (el_code l) c) (education_levels refs)).

(** [session.query(EducationForm).filter_by(code=c).first()]. *)
Definition first_form (c : str) : M (option EducationForm) :=
  do _ <- query;
  ret (List.find (fun f => str_eqb (ef_code f) c) (education_forms refs)).

Definition process_program (prog_elem : Element) : M EducationalProgram :=
  let level_name := lower (safe_text (find prog_elem (u "EduLevelName")) []) in
  let form_name := lower (safe_text (find prog_elem (u "EducationForm")) []) in
  let level_code := level_code level_name in
  let form_code := form_code form_name in
  do level_id <-
    match level_code with
    | Some c => do level <- first_level c; ret (option_map el_id level)
    | None => ret None
    end;
  do form_id <-
    match form_code with
    | Some c => do form <- first_form c; ret (option_map ef_id form)
    | None => ret None
    end;
  ret {|
    p_id := None;
    p_organization_id := None;
    p_level_id := level_id;
    p_form_id := form_id;
    p_TypeName := safe_text (find prog_elem (u "TypeName")) [];
    p_EduLevelName := safe_text (find prog_elem (u "EduLevelName")) [];
    p_ProgrammName := safe_text (find prog_elem (u "ProgrammName")) [];
    p_ProgrammCode := None;
    p_UGSName := safe_text (find prog_elem (u "UGSName")) [];
    p_UGSCode := safe_text (find prog_elem (u "UGSCode")) [];
    p_EduNormativePeriod :=
      safe_text (find prog_elem (u "EduNormativePeriod")) [];
    p_Qualification := safe_text (find prog_elem (u "Qualification")) [];
    p_IsAccredited := safe_bool (find prog_elem (u "IsAccredited"));
    p_IsCanceled := safe_bool (find prog_elem (u "IsCanceled"));
    p_IsSuspended := safe_bool (find prog_elem (u "IsSuspended"));
    p_okso_code := safe_text (find prog_elem (u "ProgrammCode")) []
  |}.

(** The programs of a record: for every [.//Supplement], every
    [.//EducationalProgram] below it. *)
Definition programs_of_record (elem : Element) : list Element :=
  flat_map (fun supp_elem => findall_desc supp_elem (u "EducationalProgram"))
           (findall_desc elem (u "Supplement")).

(** The filter of the parent query:
    [(Organization.id == head) | (Organization.INN == head)]. *)
Definition matches_head (head : str) (o : Organization) : bool :=
  match o_id o with
  | Some i => int_eq_text i head
  | None => false
  end || str_eqb (o_INN o) head.

(** [session.query(Organization).filter(...).first()]. *)
Definition first_parent (head : str) : M (option Organization) :=
  do rows <- query;
  ret (List.find (matches_head head) (orgs_of rows)).

(** The key of the organization just flushed: the object added last. *)
Definition flushed_org_id : M (option Z) :=
  fun s => (Ok (match last (orgs_of (flushed s)) with
                | Some o => o_id o
                | None => None
                end), s).

(** [org.parent_id = parent.id] on the flushed organization. *)
Definition set_parent (org_id parent_id : option Z) : M unit :=
  match parent_id with
  | None => ret tt
  | Some pid =>
    update_flushed (fun r =>
      match r with
      | OrgRow o =>
          if bool_decide (o_id o = org_id) then OrgRow (set_parent_id pid o)
          else r
      | ProgRow _ => r
      end)
  end.

(** The body of the [try] for one [Certificate] element. *)
Definition record_body (org_types_cache : gmap str OrganizationType)
    (elem : Element) : M unit :=
  let programs := programs_of_record elem in
  match process_organization elem org_types_cache programs with
  | None => ret tt
  | Some org =>
    match o_org_type org with
    | None => ret tt
    | Some org_type =>
      if negb (str_eqb (ot_code org_type) (u "higher"))
         && negb (truthy (o_IsBranch org))
      then ret tt
      else
        do_ add (OrgRow org);
        do_ flush;
        do org_id <- flushed_org_id;
        do_ (if truthy (o_IsBranch org)
             then do parent <- first_parent (o_HeadEduOrgId org);
                  match parent with
                  | Some parent => set_parent org_id (o_id parent)
                  | None => ret tt
                  end
             else ret tt);
        do_ for_each (programs_of_record elem) (fun prog_elem =>
              do program <- process_program prog_elem;
              add (ProgRow (set_organization_id org_id program)));
        do n <- len_new;
        if (n mod 100 =? 0)%nat then commit else ret tt
    end
  end.

(** One turn of the [for event, elem in ET.iterparse(...)] loop. *)
Definition record_step (org_types_cache : gmap str OrganizationType)
    (elem : Element) : M unit :=
  if endswith (u "Certificate") (tag elem)
  then try_except (record_body org_types_cache elem) rollback
  else ret tt.

(** The statistics logged after the final commit. *)
Definition log_statistics : M unit :=
  do _ <- query;
  match List.find (fun t => str_eqb (ot_code t) (u "higher"))
                  (organization_types refs) with
  | None => raise AttributeError
  | Some _ => do _ <- query; do _ <- query; ret tt
  end.

(** [parse_xml_to_db(xml_file, session)]: whatever is raised inside the
    outer [try], by the store, by [os.path.getsize] or by the parser, ends
    in the outer handler. *)
Definition parse_xml_to_db (xml_file : XmlFile) : M bool :=
  fun s =>
    let run : M unit :=
      do _ <- query;
      let org_types_cache := build_cache (organization_types refs) in
      do_ getsize xml_file;
      do_ for_iterparse xml_file (record_step org_types_cache);
      do_ commit;
      log_statistics in
    match run s with
    | (Ok tt, s') => (Ok true, s')
    | (Raise _, s') =>
        match rollback s' with
        | (_, s'') => (Ok false, s'')
        end
    end.
End Driver.
End Boba.

(* ===================================================================== *)
(** ** proektMAI.py: the richer schema *)
(* ===================================================================== *)

Module ProektMAI.

Record Organization : Type := mk_org {
  o_EduOrgShortName : option str;
  o_EduOrgFullName : option str;
  o_Phone : option str;
  o_Fax : option str;
  o_Email : option str;
  o_WebSite : option str;
  o_PostAddress : option str;
  o_INN : option str;
  o_KPP : option str;
  o_OGRN : option str;
  o_HeadPost : option str;
  o_HeadName : option str;
  o_FormName : option str;
  o_KindName : option str;
  o_TypeName : option str;
  o_RegionName : option str;
  o_FederalDistrictName : option str;
  o_FederalDistrictShortName : option str;
  o_IsBranch : option bool;
  o_HeadEduOrgId : option str
}.

Record Certificate : Type := mk_cert {
  c_organization : Organization;
  c_IsFederal : option bool;
  c_StatusName : option str;
  c_TypeName : option str;
  c_RegionName : option str;
  c_RegionCode : option str;
  c_FederalDistrictName : option str;
  c_FederalDistrictShortName : option str;
  c_RegNumber : option str;
  c_SerialNumber : option str;
  c_FormNumber : option str;
  c_IssueDate : option date;
  c_EndDate : option date;
  c_ControlOrgan : option str;
  c_EduOrgINN : option str;
  c_EduOrgKPP : option str;
  c_EduOrgOGRN : option str
}.

Record Supplement : Type := mk_supp {
  s_certificate : Certificate;
  s_organization : Organization;
  s_StatusName : option str;
  s_StatusCode : option str;
  s_Number : option str;
  s_SerialNumber : option str;
  s_FormNumber : option str;
  s_IssueDate : option date;
  s_IsForBranch : option bool;
  s_Note : option str;
  s_EduOrgFullName : option str;
  s_EduOrgShortName : option str;
  s_EduOrgAddress : option str;
  s_EduOrgKPP : option str
}.

Record EducationalProgram : Type := mk_prog {
  p_supplement : Supplement;
  p_TypeName : option str;
  p_EduLevelName : option str;
  p_ProgrammName : option str;
  p_ProgrammCode : option str;
  p_UGSName : option str;
  p_UGSCode : option str;
  p_EduNormativePeriod : option str;
  p_Qualification : option str;
  p_IsAccredited : option bool;
  p_IsCanceled : option bool;
  p_IsSuspended : option bool
}.

Record Decision : Type := mk_decision {
  d_certificate : Certificate;
  d_DecisionTypeName : option str;
  d_OrderDocumentNumber : option str;
  d_OrderDocumentKind : option str;
  d_DecisionDate : option date
}.

Record IndividualEntrepreneur : Type := mk_ip {
  ip_certificate : Certificate;
  ip_LastName : option str;
  ip_FirstName : option str;
  ip_MiddleName : option str;
  ip_Address : option str;
  ip_EGRIP : option str;
  ip_INN : option str
}.

(** The objects the driver stages; relationships are held by the object
    they point to. *)
Inductive Entity : Type :=
| EOrg (o : Organization)
| ECert (c : Certificate)
| ESupp (s : Supplement)
| EProg (p : EducationalProgram)
| EDecision (d : Decision)
| EEntrepreneur (i : IndividualEntrepreneur).

(** A row: the object and its primary key, unset until the flush. *)
Record Row : Type := mk_row { key : option Z; entity : Entity }.

Definition same_table (a b : Entity) : bool :=
  match a, b with
  | EOrg _, EOrg _ | ECert _, ECert _ | ESupp _, ESupp _
  | EProg _, EProg _ | EDecision _, EDecision _
  | EEntrepreneur _, EEntrepreneur _ => true
  | _, _ => false
  end.

Definition table_keys (e : Entity) (rows : list Row) : list Z :=
  flat_map (fun r => if same_table e (entity r)
                     then match key r with Some i => [i] | None => [] end
                     else []) rows.

Definition assign_id (held : list Row) (r : Row) : Row :=
  mk_row (Some (1 + fold_right Z.max 0 (table_keys (entity r) held))%Z)
         (entity r).

(** [safe_text(element, default=None)]. *)
Definition safe_text (element : option Element) (default : option str)
  : option str :=
  match element with
  | Some e => text e
  | None => default
  end.

Definition process_organization (cert_elem : Element) : option Organization :=
  match find cert_elem (u "ActualEducationOrganization") with
  | None => None
  | Some org_elem =>
    Some {|
      o_EduOrgShortName := safe_text (find org_elem (u "ShortName")) None;
      o_EduOrgFullName := safe_text (find org_elem (u "FullName")) None;
      o_Phone := safe_text (find org_elem (u "Phone")) None;
      o_Fax := safe_text (find org_elem (u "Fax")) None;
      o_Email := safe_text (find org_elem (u "Email")) None;
      o_WebSite := safe_text (find org_elem (u "Website")) None;
      o_PostAddress := safe_text (find org_elem (u "PostAddress")) None;
      o_INN := safe_text (find org_elem (u "INN")) None;
      o_KPP := safe_text (find org_elem (u "KPP")) None;
      o_OGRN := safe_text (find org_elem (u "OGRN")) None;
      o_HeadPost := safe_text (find org_elem (u "HeadPost")) None;
      o_HeadName := safe_text (find org_elem (u "HeadName")) None;
      o_FormName := safe_text (find org_elem (u "FormName")) None;
      o_KindName := safe_text (find org_elem (u "KindName")) None;
      o_TypeName := safe_text (find org_elem (u "TypeName")) None;
      o_RegionName := safe_text (find org_elem (u "RegionName")) None;
      o_FederalDistrictName :=
        safe_text (find org_elem (u "FederalDistrictName")) None;
      o_FederalDistrictShortName :=
        safe_text (find org_elem (u "FederalDistrictShortName")) None;
      o_IsBranch := safe_bool (find org_elem (u "IsBranch"));
      o_HeadEduOrgId := safe_text (find org_elem (u "HeadEduOrgId")) None
    |}
  end.

Definition process_program (prog_elem : Element) (supplement : Supplement)
  : EducationalProgram :=
  {| p_supplement := supplement;
     p_TypeName := safe_text (find prog_elem (u "TypeName")) None;
     p_EduLevelName := safe_text (find prog_elem (u "EduLevelName")) None;
     p_ProgrammName := safe_text (find prog_elem (u "ProgrammName")) None;
     p_ProgrammCode := safe_text (find prog_elem (u "ProgrammCode")) None;
     p_UGSName := safe_text (find prog_elem (u "UGSName")) None;
     p_UGSCode := safe_text (find prog_elem (u "UGSCode")) None;
     p_EduNormativePeriod :=
       safe_text (find prog_elem (u "EduNormativePeriod")) None;
     p_Qualification := safe_text (find prog_elem (u "Qualification")) None;
     p_IsAccredited := safe_bool (find prog_elem (u "IsAccredited"));
     p_IsCanceled := safe_bool (find prog_elem (u "IsCanceled"));
     p_IsSuspended := safe_bool (find prog_elem (u "IsSuspended")) |}.

Section Builders.
Variable strptime : str -> str -> option datetime.

Abbreviation safe_date := (safe_date strptime).

Definition process_certificate (cert_elem : Element)
    (organization : Organization) : Certificate :=
  {| c_organization := organization;
     c_IsFederal := safe_bool (find cert_elem (u "IsFederal"));
     c_StatusName := safe_text (find cert_elem (u "StatusName")) None;
     c_TypeName := safe_text (find cert_elem (u "TypeName")) None;
     c_RegionName := safe_text (find cert_elem (u "RegionName")) None;
     c_RegionCode := safe_text (find cert_elem (u "RegionCode")) None;
     c_FederalDistrictName :=
       safe_text (find cert_elem (u "FederalDistrictName")) None;
     c_FederalDistrictShortName :=
       safe_text (find cert_elem (u "FederalDistrictShortName")) None;
     c_RegNumber := safe_text (find cert_elem (u "RegNumber")) None;
     c_SerialNumber := safe_text (find cert_elem (u "SerialNumber")) None;
     c_FormNumber := safe_text (find cert_elem (u "FormNumber")) None;
     c_IssueDate := safe_date (find cert_elem (u "IssueDate"));
     c_EndDate := safe_date (find cert_elem (u "EndDate"));
     c_ControlOrgan := safe_text (find cert_elem (u "ControlOrgan")) None;
     c_EduOrgINN := safe_text (find cert_elem (u "EduOrgINN")) None;
     c_EduOrgKPP := safe_text (find cert_elem (u "EduOrgKPP")) None;
     c_EduOrgOGRN := safe_text (find cert_elem (u "EduOrgOGRN")) None |}.

Definition process_supplement (supp_elem : Element) (cert : Certificate)
  : Supplement :=
  {| s_certificate := cert;
     s_organization := c_organization cert;
     s_StatusName := safe_text (find supp_elem (u "StatusName")) None;
     s_StatusCode := safe_text (find supp_elem (u "StatusCode")) None;
     s_Number := safe_text (find supp_elem (u "Number")) None;
     s_SerialNumber := safe_text (find supp_elem (u "SerialNubmer")) None;
     s_FormNumber := safe_text (find supp_elem (u "FormNumber")) None;
     s_IssueDate := safe_date (find supp_elem (u "IssueDate"));
     s_IsForBranch := safe_bool (find supp_elem (u "IsForBranch"));
     s_Note := safe_text (find supp_elem (u "Note")) None;
     s_EduOrgFullName := safe_text (find supp_elem (u "EduOrgFullName")) None;
     s_EduOrgShortName := safe_text (find supp_elem (u "EduOrgShortName")) None;
     s_EduOrgAddress := safe_text (find supp_elem (u "EduOrgAddress")) None;
     s_EduOrgKPP := safe_text (find supp_elem (u "EduOrgKPP")) None |}.

Definition process_decision (decision_elem : Element)
    (certificate : Certificate) : Decision :=
  {| d_certificate := certificate;
     d_DecisionTypeName :=
       safe_text (find decision_elem (u "DecisionTypeName")) None;
     d_OrderDocumentNumber :=
       safe_text (find decision_elem (u "OrderDocumentNumber")) None;
     d_OrderDocumentKind :=
       safe_text (find decision_elem (u "OrderDocumentKind")) None;
     d_DecisionDate := safe_date (find decision_elem (u "DecisionDate")) |}.

Variable fault : nat -> bool.

Abbreviation M := (M Row).
Abbreviation commit := (commit fault assign_id).

(** [session.add(obj)] for a freshly built object. *)
Definition stage (e : Entity) : M unit := add (mk_row None e).

(** [any(value for value in ip_data.values() if value is not None)]. *)
Definition any_value (values : list (option str)) : bool :=
  existsb (fun v => match v with
                    | Some (_ :: _) => true
                    | _ => false
                    end) values.

(** The body of the [try] for one [Certificate] element. *)
Definition record_body (elem : Element) : M unit :=
  match process_organization elem with
  | None => raise UnmappedInstance
  | Some org =>
    do_ stage (EOrg org);
    let cert := process_certificate elem org in
    do_ stage (ECert cert);
    let LastName := safe_text (find elem (u "IndividualEntrepreneurLastName")) None in
    let FirstName := safe_text (find elem (u "IndividualEntrepreneurFirstName")) None in
    let MiddleName := safe_text (find elem (u "IndividualEntrepreneurMiddleName")) None in
    let Address := safe_text (find elem (u "IndividualEntrepreneurAddress")) None in
    let EGRIP := safe_text (find elem (u "IndividualEntrepreneurEGRIP")) None in
    let INN := safe_text (find elem (u "IndividualEntrepreneurINN")) None in
    do_ (if any_value [LastName; FirstName; MiddleName; Address; EGRIP; INN]
         then stage (EEntrepreneur
                (mk_ip cert LastName FirstName MiddleName Address EGRIP INN))
         else ret tt);
    do_ for_each (findall_desc elem (u "Supplement")) (fun supp_elem =>
          let supp := process_supplement supp_elem cert in
          do_ stage (ESupp supp);
          for_each (findall_desc supp_elem (u "EducationalProgram"))
                   (fun prog_elem => stage (EProg (process_program prog_elem supp))));
    do_ for_each (findall_desc_child elem (u "Decisions") (u "Decision"))
          (fun decision_elem =>
             stage (EDecision (process_decision decision_elem cert)));
    do n <- len_new;
    if (n mod 100 =? 0)%nat then commit else ret tt
  end.

(** One turn of the [for event, elem in ET.iterparse(...)] loop. *)
Definition record_step (elem : Element) : M unit :=
  if endswith (u "Certificate") (tag elem)
  then try_except (record_body elem) rollback
  else ret tt.

(** [parse_xml_to_db(xml_file, session)]: whatever is raised inside the
    outer [try], by [os.path.getsize], by the parser or by the final
    commit, ends in the outer handler. *)
Definition parse_xml_to_db (xml_file : XmlFile) : M bool :=
  fun s =>
    match (do_ getsize xml_file;
           do_ for_iterparse xml_file record_step;
           commit) s with
    | (Ok tt, s') => (Ok true, s')
    | (Raise _, s') =>
        match rollback s' with
        | (_, s'') => (Ok false, s'')
        end
    end.
End Builders.
End ProektMAI.

(* ===================================================================== *)
(** ** The change detector and the gate of [main] (identical in both files)

    The state file of [CONFIG['state_file']] holds a JSON object from file
    paths to digests.  [file_hash] stands for [get_file_hash] on a readable
    file, the one [find_xml_file] hands to [main]. *)
(* ===================================================================== *)

(** What is on disk under the state file's name. *)
Inductive StateFile : Type :=
| Absent                          (* no such file *)
| Unreadable                      (* [json.load] raises on it *)
| Stored (m : gmap str str).

(** How the file system answers [save_state]'s write. *)
Inductive WriteOutcome : Type :=
| Written          (* the object is dumped in full *)
| OpenFails        (* [open(..., 'w')] raises: the file stays as it was *)
| DumpFails.       (* the write raises after the file was truncated *)

Section ChangeDetector.
Context {Store : Type}.

Record World : Type := mk_world {
  state_file : StateFile;
  write_outcome : WriteOutcome;
  state_writes : nat;        (* completed writes of the state file *)
  store : Store
}.

Variable file_hash : str -> str.

(** [load_state()]: the stored object, or [{}] when the file is missing or
    cannot be loaded. *)
Definition load_state (w : World) : gmap str str :=
  match state_file w with
  | Stored m => m
  | Absent | Unreadable => ∅
  end.

(** [save_state(state)]: the error of a failed write is logged, not
    raised. *)
Definition save_state (state : gmap str str) (w : World) : World :=
  match write_outcome w with
  | Written =>
      mk_world (Stored state) (write_outcome w) (S (state_writes w)) (store w)
  | OpenFails => w
  | DumpFails =>
      mk_world Unreadable (write_outcome w) (state_writes w) (store w)
  end.

(** [check_for_updates(file_path)]. *)
Definition check_for_updates (file_path : str) (w : World) : bool * World :=
  let state := load_state w in
  let current_hash := file_hash file_path in
  match state !! file_path with
  | Some h =>
      if str_eqb h current_hash then (false, w)
      else (true, save_state (<[file_path := current_hash]> state) w)
  | None => (true, save_state (<[file_path := current_hash]> state) w)
  end.

(** Everything [main] does to the store once the gate let the file
    through: the seeding of the reference tables, [parse_xml_to_db] and
    the statistics. *)
Variable ingest : str -> Store -> Store.

(** [main()] from the point where the archive is unpacked: [xml_file] is
    what [find_xml_file] returned. *)
Definition main (xml_file : option str) (w : World) : World :=
  match xml_file with
  | None => w
  | Some f =>
    match check_for_updates f w with
    | (false, w') => w'
    | (true, w') =>
        mk_world (state_file w') (write_outcome w') (state_writes w')
                 (ingest f (store w'))
    end
  end.
End ChangeDetector.

Arguments World : clear implicits.

(* ===================================================================== *)
(** ** [datetime.strptime] for the formats of [safe_date]

    Modelled on the Python library: [datetime.strptime] is not code of the
    repository.  The model follows the library's translation of a format
    into a pattern for the directives [%Y %m %d %H %M %S %z], a single blank
    and literal characters, on ASCII digits: alternatives are tried in the
    library's order, the first match must use up the whole text, and the
    fields must form a date and time that exist.  It serves to run
    [safe_date] on concrete texts; the general results hold for any
    [strptime]. *)
(* ===================================================================== *)

Module Strptime.

Record fields : Type := mk_fields {
  f_Y : Z; f_m : Z; f_d : Z; f_H : Z; f_M : Z; f_S : Z;
  f_z : option Z;         (* seconds east of UTC *)
  f_z_ok : bool           (* the colons of the offset are consistent *)
}.

(** What the library starts from: 1900-01-01 00:00:00, no offset. *)
Definition initial : fields := mk_fields 1900 1 1 0 0 0 None true.

(** Matching a prefix of the text: every way to match, best first. *)
Definition matcher (A : Type) : Type := str -> list (A * str).

Definition pure {A} (a : A) : matcher A := fun s => [(a, s)].

Definition then_ {A B} (p : matcher A) (k : A -> matcher B) : matcher B :=
  fun s => flat_map (fun '(a, r) => k a r) (p s).

Definition or_else {A} (p q : matcher A) : matcher A := fun s => p s ++ q s.

Definition no_match {A} : matcher A := fun _ => [].

(** One ASCII digit between [lo] and [hi]. *)
Definition digit (lo hi : N) : matcher Z :=
  fun s =>
    match s with
    | c :: r =>
        if (48 + lo <=? c) && (c <=? 48 + hi) then [(Z.of_N (c - 48), r)] else []
    | [] => []
    end.

Definition two_digits (lo1 hi1 lo2 hi2 : N) : matcher Z :=
  then_ (digit lo1 hi1) (fun a =>
  then_ (digit lo2 hi2) (fun b => pure (10 * a + b)%Z)).

(** One given character. *)
Definition char (c : N) : matcher unit :=
  fun s =>
    match s with
    | x :: r => if x =? c then [(tt, r)] else []
    | [] => []
    end.

(** [c?]: with the character first, then without. *)
Definition optional_char (c : N) : matcher bool :=
  or_else (then_ (char c) (fun _ => pure true)) (pure false).

(** [\s+]: the longest run of blanks first. *)
Fixpoint blanks (s : str) : list (unit * str) :=
  match s with
  | c :: r => if isspace c then blanks r ++ [(tt, r)] else []
  | [] => []
  end.

(** [\d{1,6}], longest first, the value dropped. *)
Fixpoint some_digits (n : nat) : matcher unit :=
  match n with
  | O => no_match
  | S n' => then_ (digit 0 9) (fun _ => or_else (some_digits n') (pure tt))
  end.

Definition directive_Y : matcher Z :=
  then_ (two_digits 0 9 0 9) (fun hi =>
  then_ (two_digits 0 9 0 9) (fun lo => pure (100 * hi + lo)%Z)).

Definition directive_m : matcher Z :=
  or_else (two_digits 1 1 0 2) (or_else (two_digits 0 0 1 9) (digit 1 9)).

Definition directive_d : matcher Z :=
  or_else (two_digits 3 3 0 1)
 (or_else (two_digits 1 2 0 9)
 (or_else (two_digits 0 0 1 9)
 (or_else (digit 1 9)
          (then_ (char 32) (fun _ => digit 1 9))))).

Definition directive_H : matcher Z :=
  or_else (two_digits 2 2 0 3) (or_else (two_digits 0 1 0 9) (digit 0 9)).

Definition directive_M : matcher Z :=
  or_else (two_digits 0 5 0 9) (digit 0 9).

Definition directive_S : matcher Z :=
  or_else (two_digits 6 6 0 1) (or_else (two_digits 0 5 0 9) (digit 0 9)).

(** The seconds part of an offset: [(:?[0-5]\d(\.\d{1,6})?)?], with
    whether a colon stands before the seconds. *)
Definition offset_seconds : matcher (Z * option bool) :=
  or_else
    (then_ (optional_char 58) (fun colon2 =>
     then_ (two_digits 0 5 0 9) (fun ss =>
     then_ (or_else (then_ (char 46) (fun _ => some_digits 6)) (pure tt))
           (fun _ => pure (ss, Some colon2)))))
    (pure (0%Z, None)).

(** [%z]: [[+-]\d\d:?[0-5]\d(...)?] or [Z].  The library refuses an offset
    with a colon after the hours and none before the seconds. *)
Definition directive_z : matcher (Z * bool) :=
  or_else
    (then_ (or_else (then_ (char 43) (fun _ => pure 1%Z))
                    (then_ (char 45) (fun _ => pure (-1)%Z))) (fun sign =>
     then_ (two_digits 0 9 0 9) (fun hh =>
     then_ (optional_char 58) (fun colon1 =>
     then_ (two_digits 0 5 0 9) (fun mm =>
     then_ offset_seconds (fun '(ss, colon2) =>
     pure ((sign * (hh * 3600 + mm * 60 + ss))%Z,
           match colon2 with
           | Some false => negb colon1
           | _ => true
           end)))))))
    (then_ (char 90) (fun _ => pure (0%Z, true))).

(** The fields after one directive; an unknown directive matches nothing. *)
Definition directive (d : N) (f : fields) : matcher fields :=
  let 'mk_fields yy mo dd hh mi ss z ok := f in
  if d =? 89 then
    then_ directive_Y (fun v => pure (mk_fields v mo dd hh mi ss z ok))
  else if d =? 109 then
    then_ directive_m (fun v => pure (mk_fields yy v dd hh mi ss z ok))
  else if d =? 100 then
    then_ directive_d (fun v => pure (mk_fields yy mo v hh mi ss z ok))
  else if d =? 72 then
    then_ directive_H (fun v => pure (mk_fields yy mo dd v mi ss z ok))
  else if d =? 77 then
    then_ directive_M (fun v => pure (mk_fields yy mo dd hh v ss z ok))
  else if d =? 83 then
    then_ directive_S (fun v => pure (mk_fields yy mo dd hh mi v z ok))
  else if d =? 122 then
    then_ directive_z (fun '(off, ok') =>
      pure (mk_fields yy mo dd hh mi ss (Some off) ok'))
  else no_match.

(** The pattern of a format, run on the text. *)
Fixpoint run_format (fmt : str) (f : fields) : matcher fields :=
  match fmt with
  | [] => pure f
  | c :: rest =>
    if c =? 37 then
      match rest with
      | d :: rest' => then_ (directive d f) (run_format rest')
      | [] => no_match
      end
    else if isspace c then then_ blanks (fun _ => run_format rest f)
    else then_ (char c) (fun _ => run_format rest f)
  end.

Definition is_leap (y : Z) : bool :=
  ((y mod 4 =? 0) && (negb (y mod 100 =? 0) || (y mod 400 =? 0)))%Z.

Definition days_in_month (y m : Z) : Z :=
  (if m =? 2 then (if is_leap y then 29 else 28)
   else if (m =? 4) || (m =? 6) || (m =? 9) || (m =? 11) then 30
   else 31)%Z.

(** The fields name a date and time that exist. *)
Definition valid (f : fields) : bool :=
  (f_z_ok f
   && (1 <=? f_Y f) && (f_Y f <=? 9999)
   && (1 <=? f_d f) && (f_d f <=? days_in_month (f_Y f) (f_m f))
   && (f_S f <=? 59)
   && match f_z f with
      | Some off => (-86400 <? off) && (off <? 86400)
      | None => true
      end)%Z.

(** [datetime.strptime(text, fmt)]; [None] for [ValueError]. *)
Definition strptime (text fmt : str) : option datetime :=
  match run_format fmt initial text with
  | (f, []) :: _ =>
      if valid f
      then Some (mk_datetime (f_Y f) (f_m f) (f_d f) (f_H f) (f_M f) (f_S f)
                             (f_z f))
      else None
  | _ => None
  end.

End Strptime.

(* ===================================================================== *)
(** ** [find_xml_file] (identical in both files)

    The cache directory as [os.walk] sees it: the file names of a directory
    in listing order, and its subdirectories in listing order.  A directory
    that does not exist is walked as nothing. *)
(* ===================================================================== *)

Inductive Dir : Type :=
  mk_dir (files : list str) (dirs : list (str * Dir)).

(** The code point of ['/']. *)
Definition slash : N := 47.

(** [os.path.join(a, b)] on POSIX paths. *)
Definition path_join (a b : str) : str :=
  if startswith [slash] b then b
  else match a with
       | [] => b
       | _ :: _ => if endswith [slash] a then a ++ b else a ++ slash :: b
       end.

(** [os.walk(top)], top down: each directory with its file names, the
    directory itself before its subdirectories. *)
Fixpoint walk (top : str) (d : Dir) : list (str * list str) :=
  match d with
  | mk_dir files dirs =>
      (top, files)
        :: (fix below (l : list (str * Dir)) : list (str * list str) :=
              match l with
              | [] => []
              | (name, sub) :: rest => walk (path_join top name) sub ++ below rest
              end) dirs
  end.

(** The inner loop: the first file name of [root] that ends in [.xml]. *)
Fixpoint first_xml (root : str) (files : list str) : option str :=
  match files with
  | [] => None
  | file :: rest =>
      if endswith (u ".xml") file then Some (path_join root file)
      else first_xml root rest
  end.

(** The outer loop over what [os.walk] yields. *)
Fixpoint first_xml_of_walk (yielded : list (str * list str)) : option str :=
  match yielded with
  | [] => None
  | (root, files) :: rest =>
      match first_xml root files with
      | Some path => Some path
      | None => first_xml_of_walk rest
      end
  end.

(** [find_xml_file(directory)], on the directory found under that name. *)
Definition find_xml_file (directory : str) (found : option Dir) : option str :=
  match found with
  | None => None
  | Some d => first_xml_of_walk (walk directory d)
  end.

(* ===================================================================== *)
(** ** boba.py: [initialize_database] and the ingestion of [main] *)
(* ===================================================================== *)

Module BobaRun.

(** The seeds of [initialize_database], as (name, code). *)
Definition org_types : list (str * str) :=
  [ (u "высшее образование", u "higher");
    (u "среднее профессиональное", u "secondary_pro");
    (u "среднее общее", u "secondary") ].

Definition edu_levels : list (str * str) :=
  [ (u "Бакалавриат", u "bachelor");
    (u "Магистратура", u "master");
    (u "Специалитет", u "specialist");
    (u "Аспирантура", u "postgraduate") ].

Definition edu_forms : list (str * str) :=
  [ (u "Очная", u "full_time");
    (u "Заочная", u "part_time");
    (u "Очно-заочная", u "mixed");
    (u "Дистанционная", u "remote") ].

(** [name] and [code] of [organization_types] are declared [unique=True]:
    the store refuses a row whose name or code is taken. *)
Definition taken (types : list Boba.OrganizationType) (seed : str * str)
  : bool :=
  existsb (fun t => str_eqb (Boba.ot_name t) (fst seed)
                    || str_eqb (Boba.ot_code t) (snd seed)) types.

(** The INSERTs that [session.merge] of an object with no key leads to. *)
Fixpoint insert_org_types (types : list Boba.OrganizationType)
    (seeds : list (str * str)) : option (list Boba.OrganizationType) :=
  match seeds with
  | [] => Some types
  | seed :: rest =>
      if taken types seed then None
      else insert_org_types
             (types ++ [Boba.mk_org_type
                          (Boba.next_id (map Boba.ot_id types))
                          (fst seed) (snd seed)])
             rest
  end.

Fixpoint insert_levels (levels : list Boba.EducationLevel)
    (seeds : list (str * str)) : list Boba.EducationLevel :=
  match seeds with
  | [] => levels
  | seed :: rest =>
      insert_levels
        (levels ++ [Boba.mk_level (Boba.next_id (map Boba.el_id levels))
                                  (fst seed) (snd seed)])
        rest
  end.

Fixpoint insert_forms (forms : list Boba.EducationForm)
    (seeds : list (str * str)) : list Boba.EducationForm :=
  match seeds with
  | [] => forms
  | seed :: rest =>
      insert_forms
        (forms ++ [Boba.mk_form (Boba.next_id (map Boba.ef_id forms))
                                (fst seed) (snd seed)])
        rest
  end.

(** The reference tables once all the seeds are inserted, when the store
    accepts them. *)
Definition seeded (refs : Boba.Refs) : option Boba.Refs :=
  match insert_org_types (Boba.organization_types refs) org_types with
  | None => None
  | Some types =>
      Some (Boba.mk_refs types
              (insert_levels (Boba.education_levels refs) edu_levels)
              (insert_forms (Boba.education_forms refs) edu_forms))
  end.

(** Whether the reference tables hold one of the three seeded types, by
    name or by code. *)
Definition already_seeded (refs : Boba.Refs) : bool :=
  existsb (taken (Boba.organization_types refs)) org_types.

Section Run.
Variable fault : nat -> bool.
Variable int_eq_text : Z -> str -> bool.
(** The file at a path, as [parse_xml_to_db] meets it. *)
Variable file_at : str -> XmlFile.

(** [initialize_database(session)]: the merges, then one commit that
    either takes all the seeds or fails as a whole. *)
Definition initialize_database (refs : Boba.Refs) : M Boba.Row Boba.Refs :=
  match seeded refs with
  | None => do_ round_trip fault; raise StoreError
  | Some refs' => do_ commit fault Boba.assign_id; ret refs'
  end.

(** The three counts of the statistics of [main]. *)
Definition count_rows : M Boba.Row unit :=
  do _ <- query fault Boba.assign_id;
  do _ <- query fault Boba.assign_id;
  do _ <- query fault Boba.assign_id;
  ret tt.

(** What [main] does to the database after the gate: a session of its own,
    the [try] with [initialize_database], [parse_xml_to_db] and the
    statistics, [rollback] in the [except], and [close] at the end, which
    leaves the committed rows. *)
Definition ingest (xml_file : str) (db : Boba.Refs * list Boba.Row)
  : Boba.Refs * list Boba.Row :=
  let (refs, rows) := db in
  let session := mk_session rows [] [] 0 0 in
  match initialize_database refs session with
  | (Raise _, s1) => (refs, committed (snd (rollback s1)))
  | (Ok refs', s1) =>
    match Boba.parse_xml_to_db fault int_eq_text refs' (file_at xml_file) s1 with
    | (Ok true, s2) =>
      match count_rows s2 with
      | (Ok _, s3) => (refs', committed s3)
      | (Raise _, s3) => (refs', committed (snd (rollback s3)))
      end
    | (Ok false, s2) => (refs', committed s2)
    | (Raise _, s2) => (refs', committed (snd (rollback s2)))
    end
  end.
End Run.
End BobaRun.

(* ===================================================================== *)
(** ** boba.py: the foreign key of a program *)
(* ===================================================================== *)

(** A program row is linked when its [organization_id] is the key of an
    organization among [rows]. *)
Definition linked (rows : list Boba.Row) (p : Boba.EducationalProgram) : bool :=
  match Boba.p_organization_id p with
  | Some i => bool_decide (i ∈ Boba.org_ids rows)
  | None => false
  end.

(** Referential integrity of the session: committed programs point to
    committed organizations, and programs of the open transaction to
    organizations the session sees. *)
Definition programs_linked (s : Session Boba.Row) : Prop :=
  Forall (fun p => linked (committed s) p = true)
         (Boba.progs_of (committed s))
  /\ Forall (fun p => linked (visible s) p = true)
            (Boba.progs_of (flushed s ++ new s)).

(* ===================================================================== *)
(** ** What one element adds to the store *)
(* ===================================================================== *)

(** proektMAI.py, for one end event: the objects the body stages, in the
    order of its [session.add] calls.  Nothing unless the tag ends in
    'Certificate'; then the organization and the certificate, the
    entrepreneur when one of its six texts is not empty, each supplement
    followed by its programs, and the decisions. *)
Definition proekt_rows_of_record (strptime : str -> str -> option datetime)
    (elem : Element) : list ProektMAI.Row :=
  if endswith (u "Certificate") (tag elem)
  then
    match ProektMAI.process_organization elem with
    | None => []
    | Some org =>
      let cert := ProektMAI.process_certificate strptime elem org in
      let LastName :=
        ProektMAI.safe_text
          (find elem (u "IndividualEntrepreneurLastName")) None in
      let FirstName :=
        ProektMAI.safe_text
          (find elem (u "IndividualEntrepreneurFirstName")) None in
      let MiddleName :=
        ProektMAI.safe_text
          (find elem (u "IndividualEntrepreneurMiddleName")) None in
      let Address :=
        ProektMAI.safe_text
          (find elem (u "IndividualEntrepreneurAddress")) None in
      let EGRIP :=
        ProektMAI.safe_text (find elem (u "IndividualEntrepreneurEGRIP")) None in
      let INN :=
        ProektMAI.safe_text (find elem (u "IndividualEntrepreneurINN")) None in
      [ ProektMAI.mk_row None (ProektMAI.EOrg org);
        ProektMAI.mk_row None (ProektMAI.ECert cert) ]
      ++ (if ProektMAI.any_value
               [LastName; FirstName; MiddleName; Address; EGRIP; INN]
          then [ ProektMAI.mk_row None
                   (ProektMAI.EEntrepreneur
                      (ProektMAI.mk_ip cert LastName FirstName MiddleName
                                       Address EGRIP INN)) ]
          else [])
      ++ flat_map
           (fun supp_elem =>
              let supp := ProektMAI.process_supplement strptime supp_elem cert in
              ProektMAI.mk_row None (ProektMAI.ESupp supp)
              :: map (fun prog_elem =>
                        ProektMAI.mk_row None
                          (ProektMAI.EProg
                             (ProektMAI.process_program prog_elem supp)))
                     (findall_desc supp_elem (u "EducationalProgram")))
           (findall_desc elem (u "Supplement"))
      ++ map (fun decision_elem =>
                ProektMAI.mk_row None
                  (ProektMAI.EDecision
                     (ProektMAI.process_decision strptime decision_elem cert)))
             (findall_desc_child elem (u "Decisions") (u "Decision"))
    end
  else [].

(** boba.py, for one end event: the organization the body adds, when the
    tag ends in 'Certificate' and the organization is built and passes the
    filter. *)
Definition boba_org_of_record (org_types_cache : gmap str Boba.OrganizationType)
    (elem : Element) : option Boba.Organization :=
  if endswith (u "Certificate") (tag elem)
  then
    match Boba.process_organization elem org_types_cache
            (Boba.programs_of_record elem) with
    | Some org => if Boba.kept_by_filter org then Some org else None
    | None => None
    end
  else None.

(** The rows it adds: the organization and each of its programs. *)
Definition boba_rows_of_record (org_types_cache : gmap str Boba.OrganizationType)
    (elem : Element) : nat :=
  match boba_org_of_record org_types_cache elem with
  | Some _ => S (length (Boba.programs_of_record elem))
  | None => 0%nat
  end.

(** The keys of organizations. *)
Definition org_keys (orgs : list Boba.Organization) : list Z :=
  flat_map (fun o => match Boba.o_id o with Some i => [i] | None => [] end)
           orgs.

(** The link a new organization gets, stored under key [i] after the
    organizations [orgs]: for a branch, the key of the first organization,
    itself included, that the parent query matches. *)
Definition parent_link (int_eq_text : Z -> str -> bool)
    (orgs : list Boba.Organization) (i : Z) (org : Boba.Organization)
  : option Z :=
  if Boba.truthy (Boba.o_IsBranch org)
  then List.find (Boba.matches_head int_eq_text (Boba.o_HeadEduOrgId org))
                 (orgs ++ [Boba.set_org_id i org])
       ≫= Boba.o_id
  else None.

(** The organizations of the store after one end event. *)
Definition boba_store_org (int_eq_text : Z -> str -> bool)
    (org_types_cache : gmap str Boba.OrganizationType)
    (orgs : list Boba.Organization) (elem : Element)
  : list Boba.Organization :=
  match boba_org_of_record org_types_cache elem with
  | Some org =>
      let i := Boba.next_id (org_keys orgs) in
      orgs ++ [Boba.stored_org i (parent_link int_eq_text orgs i org) org]
  | None => orgs
  end.

(** The program that [process_program] builds from an element when its
    look-ups of the level and of the form go through. *)
Definition boba_program_of (refs : Boba.Refs) (prog_elem : Element)
  : Boba.EducationalProgram :=
  let level_name :=
    lower (Boba.safe_text (find prog_elem (u "EduLevelName")) []) in
  let form_name :=
    lower (Boba.safe_text (find prog_elem (u "EducationForm")) []) in
  {|
    Boba.p_id := None;
    Boba.p_organization_id := None;
    Boba.p_level_id :=
      Boba.level_code level_name ≫= (fun c =>
        option_map Boba.el_id
          (List.find (fun l => str_eqb (Boba.el_code l) c)
                     (Boba.education_levels refs)));
    Boba.p_form_id :=
      Boba.form_code form_name ≫= (fun c =>
        option_map Boba.ef_id
          (List.find (fun f => str_eqb (Boba.ef_code f) c)
                     (Boba.education_forms refs)));
    Boba.p_TypeName := Boba.safe_text (find prog_elem (u "TypeName")) [];
    Boba.p_EduLevelName :=
      Boba.safe_text (find prog_elem (u "EduLevelName")) [];
    Boba.p_ProgrammName :=
      Boba.safe_text (find prog_elem (u "ProgrammName")) [];
    Boba.p_ProgrammCode := None;
    Boba.p_UGSName := Boba.safe_text (find prog_elem (u "UGSName")) [];
    Boba.p_UGSCode := Boba.safe_text (find prog_elem (u "UGSCode")) [];
    Boba.p_EduNormativePeriod :=
      Boba.safe_text (find prog_elem (u "EduNormativePeriod")) [];
    Boba.p_Qualification :=
      Boba.safe_text (find prog_elem (u "Qualification")) [];
    Boba.p_IsAccredited := safe_bool (find prog_elem (u "IsAccredited"));
    Boba.p_IsCanceled := safe_bool (find prog_elem (u "IsCanceled"));
    Boba.p_IsSuspended := safe_bool (find prog_elem (u "IsSuspended"));
    Boba.p_okso_code := Boba.safe_text (find prog_elem (u "ProgrammCode")) []
  |}.

(** The rows of the store after one end event: for a kept organization,
    its row under a new key with its parent link, then one row for each of
    its programs, keyed in document order and pointing to that key. *)
Definition boba_store_rows (int_eq_text : Z -> str -> bool)
    (refs : Boba.Refs) (org_types_cache : gmap str Boba.OrganizationType)
    (rows : list Boba.Row) (elem : Element) : list Boba.Row :=
  match boba_org_of_record org_types_cache elem with
  | Some org =>
      let i := Boba.next_id (Boba.org_ids rows) in
      let stored :=
        rows ++ [Boba.OrgRow
                   (Boba.stored_org i
                      (parent_link int_eq_text (Boba.orgs_of rows) i org)
                      org)] in
      stored
      ++ write_rows Boba.assign_id stored
           (map (fun prog_elem =>
                   Boba.ProgRow
                     (Boba.set_organization_id (Some i)
                        (boba_program_of refs prog_elem)))
                (Boba.programs_of_record elem))
  | None => rows
  end.

(* ===================================================================== *)
(** ** Sample records, used to run the definitions on concrete inputs *)
(* ===================================================================== *)

Module Sample.

(** [<name>txt</name>] and [<name>...children...</name>]. *)
Definition leaf (name txt : string) : Element := Elem (u name) (Some (u txt)) [].
Definition node (name : string) (cs : list Element) : Element :=
  Elem (u name) None cs.

(** The store never raises. *)
Definition no_fault (n : nat) : bool := false.

(** The value of a text made of decimal digits only. *)
Fixpoint digits_value (acc : Z) (t : str) : option Z :=
  match t with
  | [] => Some acc
  | c :: r =>
      if (48 <=? c) && (c <=? 57)
      then digits_value (10 * acc + Z.of_N (c - 48))%Z r
      else None
  end.

(** The store's comparison of an integer key with a bound text, on the
    texts that are plain decimal numerals; any other text is taken not to
    match. *)
Definition int_eq_text (i : Z) (t : str) : bool :=
  match t with
  | [] => false
  | _ :: _ =>
    match digits_value 0 t with
    | Some v => (v =? i)%Z
    | None => false
    end
  end.

(** The reference tables as [initialize_database] seeds them. *)
Definition refs : Boba.Refs :=
  Boba.mk_refs
    [ Boba.mk_org_type 1 (u "высшее образование") (u "higher");
      Boba.mk_org_type 2 (u "среднее профессиональное") (u "secondary_pro");
      Boba.mk_org_type 3 (u "среднее общее") (u "secondary") ]
    [ Boba.mk_level 1 (u "Бакалавриат") (u "bachelor");
      Boba.mk_level 2 (u "Магистратура") (u "master");
      Boba.mk_level 3 (u "Специалитет") (u "specialist");
      Boba.mk_level 4 (u "Аспирантура") (u "postgraduate") ]
    [ Boba.mk_form 1 (u "Очная") (u "full_time");
      Boba.mk_form 2 (u "Заочная") (u "part_time");
      Boba.mk_form 3 (u "Очно-заочная") (u "mixed");
      Boba.mk_form 4 (u "Дистанционная") (u "remote") ].

Definition cache : gmap str Boba.OrganizationType :=
  Boba.build_cache (Boba.organization_types refs).

(** A university with no program, a college, a record with no
    organization, and a branch that names its head. *)
Definition university (inn : string) : Element :=
  node "Certificate"
    [ node "ActualEducationOrganization"
        [ leaf "FullName" "Университет"; leaf "TypeName" "Университет";
          leaf "INN" inn; leaf "IsBranch" "0" ] ].

Definition college : Element :=
  node "Certificate"
    [ node "ActualEducationOrganization"
        [ leaf "FullName" "Колледж"; leaf "TypeName" "Колледж";
          leaf "INN" "5001"; leaf "IsBranch" "0" ] ].

Definition no_organization : Element :=
  node "Certificate" [ leaf "RegNumber" "0001" ].

Definition branch (head : string) : Element :=
  node "Certificate"
    [ node "ActualEducationOrganization"
        [ leaf "FullName" "Филиал"; leaf "TypeName" "Колледж";
          leaf "INN" "7800"; leaf "IsBranch" "1";
          leaf "HeadEduOrgId" head ] ].

(** A supplement as the register writes it, and a program that does not
    say whether it is accredited. *)
Definition supplement : Element :=
  node "Supplement"
    [ leaf "Number" "1"; leaf "SerialNumber" "90A01";
      leaf "FormNumber" "0001234" ].

(** A supplement that carries a child under each spelling. *)
Definition supplement_both_spellings : Element :=
  node "Supplement"
    [ leaf "Number" "1"; leaf "SerialNumber" "90A01";
      leaf "SerialNubmer" "ZZ" ].

Definition program_without_flag : Element :=
  node "EducationalProgram"
    [ leaf "EduLevelName" "Бакалавриат"; leaf "ProgrammName" "Физика" ].

(** The store raises on its round trip number [n] only. *)
Definition fault_at (n : nat) (k : nat) : bool := (k =? n)%nat.

(** A training centre: nothing in its type-name is a marker, so its type
    depends on the level names of its programs. *)
Definition centre (programs : list Element) : Element :=
  node "Certificate"
    [ node "ActualEducationOrganization"
        [ leaf "FullName" "Учебный центр"; leaf "TypeName" "Центр";
          leaf "INN" "5002"; leaf "IsBranch" "0" ];
      node "Supplement" programs ].

(** Empty sessions. *)
Definition boba_session : Session Boba.Row := mk_session [] [] [] 0 0.
Definition proekt_session : Session ProektMAI.Row := mk_session [] [] [] 0 0.

(** The session after a first university went through and was committed. *)
Definition boba_after_one : Session Boba.Row :=
  snd (Boba.record_step no_fault int_eq_text refs cache (university "7701")
                        boba_session).

(** The session after a second certificate of the same university. *)
Definition boba_after_two : Session Boba.Row :=
  snd (Boba.record_step no_fault int_eq_text refs cache (university "7701")
                        boba_after_one).

(** The organization [process_organization] builds for the branch that
    names "7701" as its head. *)
Definition blank_org : Boba.Organization :=
  Boba.mk_org None None None [] [] [] [] [] [] [] [] [] [] [] [] [] [] []
              [] [] [] None [] None.

Definition branch_org : Boba.Organization :=
  match Boba.process_organization (branch "7701") cache
          (Boba.programs_of_record (branch "7701")) with
  | Some org => org
  | None => blank_org
  end.

(** The organization built for the branch that names the key "1" as its
    head. *)
Definition branch_org_by_key : Boba.Organization :=
  match Boba.process_organization (branch "1") cache
          (Boba.programs_of_record (branch "1")) with
  | Some org => org
  | None => blank_org
  end.

(** What the register shows of an organization row. *)
Definition brief (o : Boba.Organization)
  : option Z * str * str * option Z :=
  (Boba.o_id o, Boba.o_INN o, Boba.o_HeadEduOrgId o, Boba.o_parent_id o).

(** The certificate proektMAI.py builds for a university record. *)
Definition proekt_blank_org : ProektMAI.Organization :=
  ProektMAI.mk_org None None None None None None None None None None
                   None None None None None None None None None None.

Definition proekt_certificate : ProektMAI.Certificate :=
  ProektMAI.process_certificate Strptime.strptime (university "7701")
    (match ProektMAI.process_organization (university "7701") with
     | Some org => org
     | None => proekt_blank_org
     end).

(** A file system where the XML file has one fixed digest, and worlds over
    a store that only counts the ingestions it went through. *)
Definition xml_path : str := u "cache/data.xml".

Definition digest (file_path : str) : str :=
  u "9e107d9d372bb6826bd81d3542a419d6".

Definition count_ingest (file_path : str) (runs : nat) : nat := S runs.

Definition first_run : World nat := mk_world Absent Written 0%nat 0%nat.

Definition read_only_run : World nat := mk_world Absent OpenFails 0%nat 0%nat.

End Sample.

(* ===================================================================== *)
(** ** Further sample inputs *)
(* ===================================================================== *)

Module Fixture.

(** The reference tables of a database that was just created. *)
Definition no_refs : Boba.Refs := Boba.mk_refs [] [] [].

(** A university whose certificate carries a supplement with two
    programs. *)
Definition with_programs : Element :=
  Sample.node "Certificate"
    [ Sample.node "ActualEducationOrganization"
        [ Sample.leaf "FullName" "Университет";
          Sample.leaf "TypeName" "Университет";
          Sample.leaf "INN" "7701"; Sample.leaf "IsBranch" "0" ];
      Sample.node "Supplements"
        [ Sample.node "Supplement"
            [ Sample.node "EducationalPrograms"
                [ Sample.program_without_flag;
                  Sample.node "EducationalProgram"
                    [ Sample.leaf "EduLevelName" "Магистратура";
                      Sample.leaf "ProgrammName" "Химия";
                      Sample.leaf "EducationForm" "Очная" ] ] ] ] ].

(** The cache directory after the archive was unpacked: the archive and a
    note at the top, the data one level down. *)
Definition cache_dir : Dir :=
  mk_dir [u "data.zip"; u "README.XML"]
         [ (u "opendata", mk_dir [u "schema.xsd"; u "data.xml"] []) ].

(** A second path of the state file. *)
Definition other_path : str := u "cache/other.xml".

(** A run whose state file is truncated and then not written. *)
Definition dump_fails_run : World nat := mk_world Absent DumpFails 0%nat 0%nat.

(** A database whose reference tables are seeded, with no organization
    yet. *)
Definition seeded_run : World (Boba.Refs * list Boba.Row) :=
  mk_world Absent Written 0%nat (Sample.refs, []).

End Fixture.

(* ===================================================================== *)
(** * Theorems *)
(* ===================================================================== *)

(** ** Strings *)

Lemma startswith_app (p s : str) : startswith p (p ++ s) = true.
Proof.
  induction p as [|a p IH]; simpl; [reflexivity|].
  rewrite N.eqb_refl, IH. reflexivity.
Qed.

Lemma startswith_spec (p s : str) :
  startswith p s = true <-> exists b, s = p ++ b.
Proof.
  split.
  - revert s. induction p as [|a p IH]; intros s H.
    + exists s. reflexivity.
    + destruct s as [|c s]; simpl in H; [discriminate|].
      apply andb_true_iff in H as [Hc Hs]. apply N.eqb_eq in Hc. subst c.
      destruct (IH _ Hs) as [b ->]. exists b. reflexivity.
  - intros [b ->]. apply startswith_app.
Qed.

Lemma startswith_str_in (p s : str) :
  startswith p s = true -> str_in p s = true.
Proof. intros H. destruct s; simpl; rewrite H; reflexivity. Qed.

Lemma str_in_spec (p s : str) :
  str_in p s = true <-> exists a b, s = a ++ p ++ b.
Proof.
  split.
  - induction s as [|c s IH]; simpl; intros H.
    + rewrite orb_false_r in H. apply startswith_spec in H as [b Hb].
      exists [], b. exact Hb.
    + apply orb_true_iff in H as [H|H].
      * apply startswith_spec in H as [b Hb]. exists [], b. exact Hb.
      * destruct (IH H) as (a & b & ->). exists (c :: a), b. reflexivity.
  - intros (a & b & ->). induction a as [|c a IH].
    + change ([] ++ p ++ b) with (p ++ b).
      apply startswith_str_in, startswith_app.
    + simpl. rewrite IH. apply orb_true_r.
Qed.

Lemma str_in_app (p a b : str) : str_in p (a ++ p ++ b) = true.
Proof. apply str_in_spec. exists a, b. reflexivity. Qed.

(** A text containing a keyword contains every tail of the keyword. *)
Lemma str_in_tail (pre q s : str) :
  str_in (pre ++ q) s = true -> str_in q s = true.
Proof.
  intros H. apply str_in_spec in H as (a & b & ->).
  apply str_in_spec. exists (a ++ pre), b.
  rewrite <- !app_assoc. reflexivity.
Qed.

Lemma lower_app (a b : str) : lower (a ++ b) = lower a ++ lower b.
Proof. apply map_app. Qed.

Lemma lstrip_app_nonspace (w y : str) (c : N) :
  isspace c = false -> lstrip (w ++ c :: y) = lstrip w ++ c :: y.
Proof.
  intros Hc. induction w as [|x w IH]; simpl.
  - rewrite Hc. reflexivity.
  - destruct (isspace x); [exact IH | reflexivity].
Qed.

Lemma rstrip_app_nonspace (w y : str) (c : N) :
  isspace c = false -> rstrip (w ++ c :: y) = w ++ c :: rstrip y.
Proof.
  intros Hc. unfold rstrip.
  rewrite rev_app_distr. simpl. rewrite <- app_assoc. simpl.
  rewrite (lstrip_app_nonspace _ _ _ Hc).
  rewrite rev_app_distr. simpl. rewrite rev_involutive, <- app_assoc.
  reflexivity.
Qed.

Lemma strip_app_nonspace (w y : str) (c : N) :
  isspace c = false -> strip (w ++ c :: y) = lstrip w ++ c :: rstrip y.
Proof.
  intros Hc. unfold strip.
  rewrite (lstrip_app_nonspace _ _ _ Hc).
  apply rstrip_app_nonspace, Hc.
Qed.

Lemma lstrip_suffix (s : str) : exists w, s = w ++ lstrip s.
Proof.
  induction s as [|c s [w IH]]; simpl.
  - exists []. reflexivity.
  - destruct (isspace c).
    + exists (c :: w). simpl. f_equal. exact IH.
    + exists []. reflexivity.
Qed.

Lemma lstrip_idem (s : str) : lstrip (lstrip s) = lstrip s.
Proof.
  induction s as [|c s IH]; simpl; [reflexivity|].
  destruct (isspace c) eqn:E; [exact IH|]. simpl. rewrite E. reflexivity.
Qed.

Lemma rstrip_prefix (s : str) : exists w, s = rstrip s ++ w.
Proof.
  unfold rstrip. destruct (lstrip_suffix (rev s)) as [w Hw].
  exists (rev w). rewrite <- rev_app_distr, <- Hw, rev_involutive.
  reflexivity.
Qed.

(** ** Field coercions *)

(** [safe_text] of boba.py, case by case. *)
Lemma boba_safe_text_cases (element : option Element) (default : str) :
  Boba.safe_text element default =
    match element with
    | Some (Elem _ (Some t) _) => strip t
    | _ => default
    end.
Proof. destruct element as [[t [x|] cs]|]; reflexivity. Qed.

(** [safe_text] of proektMAI.py, case by case. *)
Lemma proekt_safe_text_cases (element : option Element) (default : option str) :
  ProektMAI.safe_text element default =
    match element with
    | Some (Elem _ x _) => x
    | None => default
    end.
Proof. destruct element as [[t x cs]|]; reflexivity. Qed.

(** C9, the claim as stated fails: on a present element proektMAI.py
    returns the text untrimmed, and returns [None] rather than the default
    when the text is absent; boba.py returns the empty string rather than
    the default when the text is empty. *)
Lemma safe_text_claim_fails :
  ProektMAI.safe_text (Some (Sample.leaf "Phone" " 8 800 ")) None
    = Some (u " 8 800 ")
  /\ strip (u " 8 800 ") = u "8 800"
  /\ u " 8 800 " <> u "8 800"
  /\ ProektMAI.safe_text (Some (Elem (u "Phone") None [])) (Some (u "n/a"))
     = None
  /\ Boba.safe_text (Some (Elem (u "Phone") (Some []) [])) (u "n/a") = []
  /\ u "n/a" <> [].
Proof. vm_compute. repeat split; congruence. Qed.

(** C9, amended: text coercion is total in both files.  In boba.py it
    returns the text trimmed of surrounding whitespace whenever the element
    and its text are present (the empty string for an empty or blank text)
    and the caller's default when the element or its text is absent.  In
    proektMAI.py it returns the text as it is, untrimmed and possibly
    absent, whenever the element is present, and the default when the
    element is absent. *)
Theorem safe_text_behaviour :
  (forall default, Boba.safe_text None default = default)
  /\ (forall t cs default,
        Boba.safe_text (Some (Elem t None cs)) default = default)
  /\ (forall t x cs default,
        Boba.safe_text (Some (Elem t (Some x) cs)) default = strip x)
  /\ (forall default, ProektMAI.safe_text None default = default)
  /\ (forall t x cs default,
        ProektMAI.safe_text (Some (Elem t x cs)) default = x).
Proof. repeat split. Qed.

(** [safe_bool] decides on the trimmed text. *)
Lemma safe_bool_cases (element : option Element) :
  safe_bool element =
    match element with
    | Some (Elem _ (Some t) _) =>
        if bool_decide (strip t = u "1") then Some true
        else if bool_decide (strip t = u "0") then Some false
        else None
    | _ => None
    end.
Proof. destruct element as [[t [x|] cs]|]; reflexivity. Qed.

(** C7, the claim as stated fails: texts other than "1" and "0" that trim
    to them are coerced to true and false. *)
Lemma safe_bool_claim_fails :
  safe_bool (Some (Sample.leaf "IsAccredited" " 1")) = Some true
  /\ u " 1" <> u "1"
  /\ safe_bool (Some (Sample.leaf "IsAccredited" "0 ")) = Some false
  /\ u "0 " <> u "0".
Proof. vm_compute. repeat split; congruence. Qed.

(** C7, amended: boolean coercion trims the text first.  It yields true
    exactly for a present text that trims to "1", false exactly for one that
    trims to "0", and unknown in every other case, the absent element and
    the absent text included; a program whose IsAccredited element is
    absent is built with IsAccredited unknown, in both files. *)
Theorem safe_bool_trimmed (element : option Element) :
  (safe_bool element = Some true <->
     exists e t, element = Some e /\ text e = Some t /\ strip t = u "1")
  /\ (safe_bool element = Some false <->
     exists e t, element = Some e /\ text e = Some t /\ strip t = u "0")
  /\ (safe_bool element = None <->
     forall e t, element = Some e -> text e = Some t ->
                 strip t <> u "1" /\ strip t <> u "0")
  /\ (forall prog_elem supplement,
        find prog_elem (u "IsAccredited") = None ->
        ProektMAI.p_IsAccredited
          (ProektMAI.process_program prog_elem supplement) = None)
  /\ (forall fault refs prog_elem s program s',
        find prog_elem (u "IsAccredited") = None ->
        Boba.process_program fault refs prog_elem s = (Ok program, s') ->
        Boba.p_IsAccredited program = None).
Proof.
  assert (Hne : u "1" <> u "0") by (vm_compute; congruence).
  split; [|split; [|split; [|split]]].
  - rewrite safe_bool_cases. split.
    + destruct element as [[tg [t|] cs]|]; try discriminate.
      repeat case_bool_decide; try discriminate.
      intros _. exists (Elem tg (Some t) cs), t. auto.
    + intros (e & t & -> & Ht & Hs). destruct e as [tg x cs].
      simpl in Ht. subst x. rewrite bool_decide_eq_true_2; auto.
  - rewrite safe_bool_cases. split.
    + destruct element as [[tg [t|] cs]|]; try discriminate.
      repeat case_bool_decide; try discriminate.
      intros _. exists (Elem tg (Some t) cs), t. auto.
    + intros (e & t & -> & Ht & Hs). destruct e as [tg x cs].
      simpl in Ht. subst x.
      rewrite bool_decide_eq_false_2 by (rewrite Hs; congruence).
      rewrite bool_decide_eq_true_2; auto.
  - rewrite safe_bool_cases. split.
    + destruct element as [[tg [t|] cs]|];
        [| intros _ e t' [= <-] [=] | intros _ e t' [=]].
      repeat case_bool_decide; try discriminate.
      intros _ e t' [= <-] [= <-]. auto.
    + intros H. destruct element as [[tg [t|] cs]|]; try reflexivity.
      destruct (H _ t eq_refl eq_refl) as [H1 H0].
      rewrite !bool_decide_eq_false_2; auto.
  - intros prog_elem supplement H. simpl. rewrite H. reflexivity.
  - intros fault refs prog_elem s program s' H.
    unfold Boba.process_program, bind, ret. rewrite H.
    match goal with
    | |- (let (_, _) := ?m in _) = _ -> _ =>
        destruct m as [[a|e] s1]; [|discriminate]
    end.
    match goal with
    | |- (let (_, _) := ?m in _) = _ -> _ =>
        destruct m as [[a0|e] s2]; [|discriminate]
    end.
    intros [= <- <-]. reflexivity.
Qed.

(** C7 at work: "1 " trims to "1" and is true; the sample program has no
    IsAccredited element and is built with the flag unknown. *)
Lemma safe_bool_trimmed_witness :
  safe_bool (Some (Sample.leaf "IsBranch" "1 ")) = Some true
  /\ ProektMAI.p_IsAccredited
       (ProektMAI.process_program Sample.program_without_flag
          (ProektMAI.process_supplement Strptime.strptime Sample.supplement
             Sample.proekt_certificate)) = None.
Proof.
  destruct (safe_bool_trimmed (Some (Sample.leaf "IsBranch" "1 ")))
    as (H1 & _ & _ & H4 & _).
  split.
  - apply H1. exists (Sample.leaf "IsBranch" "1 "), (u "1 ").
    split; [reflexivity|]. split; [reflexivity|]. vm_compute. reflexivity.
  - apply H4. vm_compute. reflexivity.
Defined.

(** ** Date coercion and the timezone offset *)

Lemma isspace_plus : isspace plus_sign = false.
Proof. reflexivity. Qed.

Lemma split_head_app (c : N) (w y : str) :
  ~ In c w -> split_head c (w ++ c :: y) = w.
Proof.
  induction w as [|x w IH]; simpl; intros H.
  - rewrite N.eqb_refl. reflexivity.
  - destruct (N.eqb_spec x c) as [->|_]; [tauto|].
    f_equal. apply IH. tauto.
Qed.

Lemma split_head_decompose (c : N) (s : str) :
  ~ In c s \/ exists y, s = split_head c s ++ c :: y /\ ~ In c (split_head c s).
Proof.
  induction s as [|x s IH]; simpl.
  - left. tauto.
  - destruct (N.eqb_spec x c) as [->|Hx].
    + right. exists s. split; [reflexivity | simpl; tauto].
    + destruct IH as [IH|(y & Hy & Hn)].
      * left. intros [?|?]; tauto.
      * right. exists y. split; [simpl; f_equal; exact Hy|].
        simpl. intros [?|?]; tauto.
Qed.

Lemma str_in_char (c : N) (s : str) : str_in [c] s = true <-> In c s.
Proof.
  induction s as [|x s IH]; simpl.
  - split; [discriminate | tauto].
  - rewrite orb_true_iff, IH, andb_true_r, N.eqb_eq.
    destruct s; simpl; split; intros [?|?]; auto.
Qed.

Lemma In_lstrip (c : N) (s : str) : In c (lstrip s) -> In c s.
Proof.
  destruct (lstrip_suffix s) as [w Hw]. intros H.
  rewrite Hw. apply in_or_app. right. exact H.
Qed.

Lemma In_strip (c : N) (s : str) : In c (strip s) -> In c s.
Proof.
  unfold strip. intros H. apply In_lstrip.
  destruct (rstrip_prefix (lstrip s)) as [w Hw].
  rewrite Hw. apply in_or_app. left. exact H.
Qed.

Lemma strip_lstrip (s : str) : strip (lstrip s) = strip s.
Proof. unfold strip. rewrite lstrip_idem. reflexivity. Qed.

Lemma date_text_before_plus (w y : str) :
  ~ In plus_sign w -> date_text (w ++ plus_sign :: y) = strip w.
Proof.
  intros Hw. unfold date_text.
  rewrite (strip_app_nonspace _ _ _ isspace_plus).
  replace (str_in [plus_sign] (lstrip w ++ plus_sign :: rstrip y)) with true.
  - rewrite split_head_app by (intros H; apply Hw, In_lstrip, H).
    apply strip_lstrip.
  - symmetry. apply str_in_char, in_or_app. right. left. reflexivity.
Qed.

Lemma date_text_no_plus (w : str) : ~ In plus_sign w -> date_text w = strip w.
Proof.
  intros Hw. unfold date_text.
  destruct (str_in [plus_sign] (strip w)) eqn:E; [|reflexivity].
  apply str_in_char, In_strip in E. contradiction.
Qed.

Lemma date_text_offset (x rest : str) :
  date_text (x ++ plus_sign :: rest) = date_text x.
Proof.
  destruct (split_head_decompose plus_sign x) as [Hx|(y & Hy & Hn)].
  - rewrite date_text_before_plus, date_text_no_plus by exact Hx.
    reflexivity.
  - rewrite Hy at 1. rewrite <- app_assoc. simpl.
    rewrite date_text_before_plus by exact Hn.
    rewrite Hy at 2. rewrite date_text_before_plus by exact Hn.
    reflexivity.
Qed.

(** What does hold of the offset: for every text and every offset
    introduced by ['+'], date coercion gives the same result with the
    offset appended as without it, whatever [strptime] accepts. *)
Lemma safe_date_ignores_plus_offset
    (strptime : str -> str -> option datetime)
    (tg x rest : str) (cs : list Element) :
  safe_date strptime (Some (Elem tg (Some (x ++ plus_sign :: rest)) cs))
  = safe_date strptime (Some (Elem tg (Some x) cs)).
Proof.
  unfold safe_date, safe_date_with. simpl.
  change (first_parse strptime (date_text (x ++ plus_sign :: rest)) default_fmts
          = first_parse strptime (date_text x) default_fmts).
  rewrite date_text_offset. reflexivity.
Qed.

(** C8, the failing input: a date with the offset [-03:00] appended is not
    recognised, while the date alone and the date with [+03:00] are; in the
    format that carries a time the same offset is accepted. *)
Theorem safe_date_negative_offset :
  safe_date Strptime.strptime (Some (Sample.leaf "IssueDate" "2020-01-02"))
    = Some (mk_date 2020 1 2)
  /\ safe_date Strptime.strptime
       (Some (Sample.leaf "IssueDate" "2020-01-02+03:00"))
     = Some (mk_date 2020 1 2)
  /\ safe_date Strptime.strptime
       (Some (Sample.leaf "IssueDate" "2020-01-02-03:00"))
     = None
  /\ safe_date Strptime.strptime
       (Some (Sample.leaf "IssueDate" "2020-01-02 10:00:00-03:00"))
     = Some (mk_date 2020 1 2).
Proof. vm_compute. repeat split. Qed.

(** ** Classifier *)

Lemma any_in_existsb (keys : list str) (s : str) :
  any_in keys s = existsb (fun m => str_in m s) keys.
Proof. reflexivity. Qed.

(** The loop over the programs stops at the first program whose lowered,
    trimmed EduLevelName contains a level marker. *)
Lemma programs_type_code_spec (programs : list Element) :
  Boba.programs_type_code programs =
    if existsb (Boba.contains_any Boba.spec_higher_level_markers)
               (map (fun prog_elem =>
                       lower (Boba.safe_text
                                (find prog_elem (u "EduLevelName")) []))
                    programs)
    then Some (u "higher") else None.
Proof.
  induction programs as [|p ps IH]; [reflexivity|].
  cbn [Boba.programs_type_code map existsb].
  unfold Boba.level_name_of at 1.
  change (any_in Boba.higher_level_markers)
    with (Boba.contains_any Boba.spec_higher_level_markers).
  destruct (Boba.contains_any _ _); [reflexivity|].
  rewrite IH. reflexivity.
Qed.

Lemma org_type_code_spec (type_name : str) (programs : list Element) :
  Boba.org_type_code type_name programs
  = Boba.spec_org_type type_name
      (map (fun prog_elem =>
              lower (Boba.safe_text (find prog_elem (u "EduLevelName")) []))
           programs).
Proof.
  unfold Boba.org_type_code, Boba.spec_org_type.
  change (any_in Boba.school_markers)
    with (Boba.contains_any Boba.spec_secondary_markers).
  change (any_in Boba.higher_markers)
    with (Boba.contains_any Boba.spec_higher_markers).
  destruct (Boba.contains_any Boba.spec_secondary_markers type_name);
    [reflexivity|].
  destruct (Boba.contains_any Boba.spec_higher_markers type_name);
    [reflexivity|].
  destruct programs as [|p ps]; [reflexivity|].
  rewrite programs_type_code_spec.
  destruct (existsb _ _); reflexivity.
Qed.

Lemma lyceum_is_school (a b : str) :
  any_in Boba.school_markers (a ++ u "лицей" ++ b) = true.
Proof.
  unfold any_in, Boba.school_markers.
  cbn [existsb]. rewrite (str_in_app (u "лицей")).
  rewrite orb_true_r. reflexivity.
Qed.

Lemma org_type_code_lyceum (a b : str) (programs : list Element) :
  Boba.org_type_code (a ++ u "лицей" ++ b) programs = u "secondary".
Proof. unfold Boba.org_type_code. rewrite lyceum_is_school. reflexivity. Qed.

(** The lowered, trimmed text of a type-name that contains "лицей" still
    contains it. *)
Lemma type_name_keeps_lyceum (a b : str) :
  exists a' b', lower (strip (a ++ u "лицей" ++ b)) = a' ++ u "лицей" ++ b'.
Proof.
  exists (lower (lstrip a)), (lower (rstrip b)).
  change (u "лицей") with ([1083] ++ [1080; 1094; 1077] ++ [1081]).
  rewrite <- !app_assoc. cbn [app].
  rewrite strip_app_nonspace by reflexivity.
  change (1080 :: 1094 :: 1077 :: 1081 :: b)
    with ([1080; 1094; 1077] ++ 1081 :: b).
  rewrite rstrip_app_nonspace by reflexivity.
  rewrite lower_app. reflexivity.
Qed.

(** C1: for every record and its programs.  The type code the code
    settles on is the four-step, first-match classification of the
    specification, with its marker sets, applied to the type-name and to
    the lowered, trimmed EduLevelName texts of the programs.  For a record
    with an ActualEducationOrganization child, [process_organization]
    looks that classification of the lowered, trimmed TypeName text up in
    the type cache: the organization it builds carries the type found,
    and there is no organization when the cache has no such type.  And a
    type-name that contains "лицей" is classified 'secondary' whatever
    else it contains and whatever the programs are, by the specification
    and by the code, for the lowered name and for the raw text of the
    TypeName element. *)
Theorem org_type_classification
    (cert_elem org_elem : Element) (cache : gmap str Boba.OrganizationType)
    (programs : list Element) (a b tg : str) (cs : list Element) :
  let level_names :=
    map (fun prog_elem =>
           lower (Boba.safe_text (find prog_elem (u "EduLevelName")) []))
        programs in
  (forall type_name,
     Boba.org_type_code type_name programs
     = Boba.spec_org_type type_name level_names)
  /\ (find cert_elem (u "ActualEducationOrganization") = Some org_elem ->
      let type_name :=
        lower (Boba.safe_text (find org_elem (u "TypeName")) []) in
      let code := Boba.spec_org_type type_name level_names in
      match Boba.process_organization cert_elem cache programs with
      | Some org =>
          exists t,
            cache !! code = Some t
            /\ Boba.o_org_type org = Some t
            /\ Boba.o_type_id org = Some (Boba.ot_id t)
            /\ Boba.o_TypeName org = type_name
      | None => cache !! code = None
      end)
  /\ Boba.spec_org_type (a ++ u "лицей" ++ b) level_names = u "secondary"
  /\ Boba.org_type_code (a ++ u "лицей" ++ b) programs = u "secondary"
  /\ Boba.org_type_code
       (lower (Boba.safe_text (Some (Elem tg (Some (a ++ u "лицей" ++ b)) cs)) []))
       programs = u "secondary".
Proof.
  intros level_names.
  split; [intros type_name; apply org_type_code_spec|].
  split.
  { intros Horg type_name code. unfold Boba.process_organization.
    rewrite Horg. cbv zeta. fold type_name.
    rewrite (org_type_code_spec type_name programs).
    fold level_names. fold code.
    destruct (cache !! code) as [t|]; [|reflexivity].
    exists t. auto. }
  split.
  { unfold level_names.
    rewrite <- (org_type_code_spec (a ++ u "лицей" ++ b) programs).
    apply org_type_code_lyceum. }
  split; [apply org_type_code_lyceum|].
  cbn [Boba.safe_text text].
  destruct (type_name_keeps_lyceum a b) as (a' & b' & ->).
  apply org_type_code_lyceum.
Qed.

(** C1 at work, on the third step: the training centre, whose type-name
    "Центр" contains no marker, is typed 'higher' when one of its programs
    is a "Бакалавриат", and 'secondary' when it has no program. *)
Lemma org_type_classification_witness :
  (exists org t,
     Boba.process_organization (Sample.centre [Sample.program_without_flag])
       Sample.cache
       (Boba.programs_of_record (Sample.centre [Sample.program_without_flag]))
     = Some org
     /\ Boba.o_org_type org = Some t /\ Boba.ot_code t = u "higher")
  /\ (exists org t,
        Boba.process_organization (Sample.centre []) Sample.cache
          (Boba.programs_of_record (Sample.centre []))
        = Some org
        /\ Boba.o_org_type org = Some t /\ Boba.ot_code t = u "secondary").
Proof.
  split.
  - pose proof
      (proj1 (proj2
         (org_type_classification
            (Sample.centre [Sample.program_without_flag])
            (Sample.node "ActualEducationOrganization"
               [ Sample.leaf "FullName" "Учебный центр";
                 Sample.leaf "TypeName" "Центр";
                 Sample.leaf "INN" "5002"; Sample.leaf "IsBranch" "0" ])
            Sample.cache
            (Boba.programs_of_record
               (Sample.centre [Sample.program_without_flag]))
            [] [] [] []))
         ltac:(vm_compute; reflexivity)) as H.
    cbv zeta in H.
    destruct (Boba.process_organization _ _ _) as [org|].
    + destruct H as (t & Hc & Ht & _). exists org, t.
      split; [reflexivity|]. split; [exact Ht|].
      vm_compute in Hc. injection Hc as <-. vm_compute. reflexivity.
    + vm_compute in H. discriminate H.
  - pose proof
      (proj1 (proj2
         (org_type_classification
            (Sample.centre [])
            (Sample.node "ActualEducationOrganization"
               [ Sample.leaf "FullName" "Учебный центр";
                 Sample.leaf "TypeName" "Центр";
                 Sample.leaf "INN" "5002"; Sample.leaf "IsBranch" "0" ])
            Sample.cache
            (Boba.programs_of_record (Sample.centre []))
            [] [] [] []))
         ltac:(vm_compute; reflexivity)) as H.
    cbv zeta in H.
    destruct (Boba.process_organization _ _ _) as [org|].
    + destruct H as (t & Hc & Ht & _). exists org, t.
      split; [reflexivity|]. split; [exact Ht|].
      vm_compute in Hc. injection Hc as <-. vm_compute. reflexivity.
    + vm_compute in H. discriminate H.
Defined.

(** A text that contains "заочная" or "очно-заочная" contains "очная". *)
Lemma part_time_contains_full_time (form_name : str) :
  str_in (u "заочная") form_name = true ->
  str_in (u "очная") form_name = true.
Proof. apply (str_in_tail (u "за") (u "очная")). Qed.

Lemma form_code_result (form_name : str) :
  Boba.form_code form_name = Some (u "full_time")
  \/ Boba.form_code form_name = Some (u "mixed").
Proof.
  unfold Boba.form_code.
  destruct (str_in (u "очная") form_name) eqn:E1; [left; reflexivity|].
  destruct (str_in (u "заочная") form_name) eqn:E2.
  - apply part_time_contains_full_time in E2. congruence.
  - destruct (_ || _); [right|left]; reflexivity.
Qed.

(** C6, the failing inputs: the form "Заочная" of a program, and the form
    "Очно-заочная", are classified 'full_time'; no form text is ever
    classified 'part_time', because every text that contains "заочная"
    contains "очная", which is tested first; 'mixed' is reached through
    "вечерняя" only. *)
Theorem form_code_part_time_unreachable :
  Boba.form_code
    (lower (Boba.safe_text (Some (Sample.leaf "EducationForm" "Заочная")) []))
    = Some (u "full_time")
  /\ Boba.form_code (lower (u "Очно-заочная")) = Some (u "full_time")
  /\ Boba.form_code (lower (u "Вечерняя")) = Some (u "mixed")
  /\ (forall form_name, Boba.form_code form_name <> Some (u "part_time")).
Proof.
  split; [vm_compute; reflexivity|].
  split; [vm_compute; reflexivity|].
  split; [vm_compute; reflexivity|].
  intros form_name.
  destruct (form_code_result form_name) as [-> | ->];
    vm_compute; congruence.
Qed.

(** What holds of the level: first match among the keywords, and no
    default. *)
Lemma level_code_cases (level_name : str) :
  Boba.level_code level_name =
    if str_in (u "бакалавр") level_name then Some (u "bachelor")
    else if str_in (u "магистр") level_name then Some (u "master")
    else if str_in (u "специалист") level_name
            || str_in (u "аспирант") level_name then Some (u "specialist")
    else None.
Proof. reflexivity. Qed.

(** ** The serial of a supplement *)

Lemma find_none_intro {A} (f : A -> bool) (l : list A) :
  (forall x, In x l -> f x = false) -> List.find f l = None.
Proof.
  induction l as [|a l IH]; intros H; [reflexivity|].
  simpl. rewrite (H a) by (left; reflexivity).
  apply IH. intros x Hx. apply H. right. exact Hx.
Qed.

(** What is looked up does not change when children of another name are
    dropped or appended. *)
Lemma find_ignores_other_children (f : Element -> bool)
    (P : Element -> Prop) `{forall c, Decision (P c)}
    (cs extra : list Element) :
  (forall c, f c = true -> P c) ->
  (forall c, In c extra -> f c = false) ->
  List.find f (filter P cs ++ extra) = List.find f cs.
Proof.
  intros Hf Hextra. induction cs as [|c cs IH].
  - cbn [app]. rewrite filter_nil. cbn [app List.find].
    apply find_none_intro, Hextra.
  - rewrite filter_cons. destruct (decide (P c)) as [Hp|Hp].
    + cbn [app List.find]. destruct (f c); [reflexivity | exact IH].
    + cbn [List.find]. destruct (f c) eqn:E; [|exact IH].
      exfalso. apply Hp, Hf, E.
Qed.

(** C10, the claim as stated fails: a Supplement element may carry its
    serial "90A01" in a child named 'SerialNumber' and have a child spelled
    'SerialNubmer' besides; the built SerialNumber is then the text of that
    child, "ZZ", not unknown. *)
Lemma supplement_serial_claim_fails :
  find Sample.supplement_both_spellings (u "SerialNumber")
    = Some (Sample.leaf "SerialNumber" "90A01")
  /\ ProektMAI.s_SerialNumber
       (ProektMAI.process_supplement Strptime.strptime
          Sample.supplement_both_spellings Sample.proekt_certificate)
     = Some (u "ZZ").
Proof. split; vm_compute; reflexivity. Qed.

(** C10, amended: in proektMAI.py the serial of a supplement is read from
    the first child spelled 'SerialNubmer' and from nowhere else: the built
    SerialNumber is the text of that child, and unknown when there is no
    such child, as in the register's records, whatever the element carries
    under 'SerialNumber'.  Dropping the 'SerialNumber' children of an
    element, or giving it others with any text and any children, leaves the
    built SerialNumber as it is: the standard field is never copied. *)
Theorem supplement_serial_never_copied
    (strptime : str -> str -> option datetime)
    (supp_elem : Element) (cert : ProektMAI.Certificate) :
  let built :=
    ProektMAI.s_SerialNumber
      (ProektMAI.process_supplement strptime supp_elem cert) in
  built = match find supp_elem (u "SerialNubmer") with
          | Some misspelt => text misspelt
          | None => None
          end
  /\ (find supp_elem (u "SerialNubmer") = None -> built = None)
  /\ forall others : list (option str * list Element),
       ProektMAI.s_SerialNumber
         (ProektMAI.process_supplement strptime
            (Elem (tag supp_elem) (text supp_elem)
                  (filter (fun c => str_eqb (tag c) (u "SerialNumber") = false)
                          (children supp_elem)
                   ++ map (fun '(t, cs) => Elem (u "SerialNumber") t cs)
                          others))
            cert)
       = built.
Proof.
  intros built.
  assert (Hbuilt : forall e,
            ProektMAI.s_SerialNumber
              (ProektMAI.process_supplement strptime e cert)
            = match find e (u "SerialNubmer") with
              | Some misspelt => text misspelt
              | None => None
              end).
  { intros e. cbn [ProektMAI.process_supplement ProektMAI.s_SerialNumber].
    unfold ProektMAI.safe_text. reflexivity. }
  split; [apply Hbuilt|]. split.
  - intros Hmiss. unfold built. rewrite Hbuilt, Hmiss. reflexivity.
  - intros others. unfold built. rewrite !Hbuilt.
    replace (find (Elem _ _ _) (u "SerialNubmer"))
      with (find supp_elem (u "SerialNubmer")); [reflexivity|].
    symmetry. unfold find. cbn [children].
    apply find_ignores_other_children.
    + intros c Hc. unfold str_eqb in *.
      apply bool_decide_eq_true in Hc. rewrite Hc. vm_compute. reflexivity.
    + intros c Hc. apply in_map_iff in Hc as ([t cs] & <- & _).
      vm_compute. reflexivity.
Qed.

(** C10 at work: the sample supplement carries the serial "90A01" in its
    SerialNumber child and has no child spelled 'SerialNubmer', and the
    built Supplement has no serial. *)
Lemma supplement_serial_never_copied_witness :
  find Sample.supplement (u "SerialNumber")
    = Some (Sample.leaf "SerialNumber" "90A01")
  /\ ProektMAI.s_SerialNumber
       (ProektMAI.process_supplement Strptime.strptime Sample.supplement
          Sample.proekt_certificate) = None.
Proof.
  split; [vm_compute; reflexivity|].
  apply (proj1 (proj2 (supplement_serial_never_copied Strptime.strptime
                         Sample.supplement Sample.proekt_certificate))).
  vm_compute. reflexivity.
Defined.

(** ** The session: what every operation keeps

    A relation [R] between the session before and after is kept by a
    computation when it holds whatever the outcome; for a preorder this
    passes through [bind], [for_each] and [try_except]. *)

Section SessionFacts.
Context {Row : Type}.
Variable fault : nat -> bool.
Variable assign_id : list Row -> Row -> Row.

Abbreviation Sess := (Session Row).
Abbreviation Comp := (M Row).

Definition keeps (R : Sess -> Sess -> Prop) {A} (m : Comp A) : Prop :=
  forall s, R s (snd (m s)).

Section Preorder.
Variable R : Sess -> Sess -> Prop.
Hypothesis R_refl : forall s, R s s.
Hypothesis R_trans : forall s1 s2 s3, R s1 s2 -> R s2 s3 -> R s1 s3.

Lemma keeps_ret {A} (a : A) : keeps R (ret a).
Proof. intros s. apply R_refl. Qed.

Lemma keeps_raise {A} (e : exn) : keeps R (@raise Row A e).
Proof. intros s. apply R_refl. Qed.

Lemma keeps_len_new : keeps R (@len_new Row).
Proof. intros s. apply R_refl. Qed.

Lemma keeps_bind {A B} (m : Comp A) (k : A -> Comp B) :
  keeps R m -> (forall a, keeps R (k a)) -> keeps R (bind m k).
Proof.
  intros Hm Hk s. unfold bind. specialize (Hm s).
  destruct (m s) as [[a|e] s1]; simpl in *; [|exact Hm].
  eapply R_trans; [exact Hm | apply Hk].
Qed.

Lemma keeps_for_each {A} (xs : list A) (body : A -> Comp unit) :
  (forall x, keeps R (body x)) -> keeps R (for_each xs body).
Proof.
  intros Hb. induction xs as [|x xs IH]; simpl.
  - apply keeps_ret.
  - apply keeps_bind; [apply Hb | intros _; exact IH].
Qed.

Lemma keeps_try_except (body handler : Comp unit) :
  keeps R body -> keeps R handler -> keeps R (try_except body handler).
Proof.
  intros Hb Hh s. unfold try_except. specialize (Hb s).
  destruct (body s) as [[[]|e] s1]; simpl in *; [exact Hb|].
  eapply R_trans; [exact Hb | apply Hh].
Qed.

Lemma keeps_if {A} (b : bool) (m1 m2 : Comp A) :
  keeps R m1 -> keeps R m2 -> keeps R (if b then m1 else m2).
Proof. destruct b; auto. Qed.

Lemma keeps_getsize (xml_file : XmlFile) : keeps R (@getsize Row xml_file).
Proof. destruct xml_file; [apply keeps_raise | apply keeps_ret]. Qed.

Lemma keeps_for_iterparse (xml_file : XmlFile) (body : Element -> Comp unit) :
  (forall x, keeps R (body x)) -> keeps R (for_iterparse xml_file body).
Proof.
  intros Hb. destruct xml_file as [|events well_formed];
    [apply keeps_raise|].
  apply keeps_bind; [apply keeps_for_each, Hb|]. intros _.
  destruct well_formed; [apply keeps_ret | apply keeps_raise].
Qed.
End Preorder.

(** *** Committed rows only grow *)

Definition committed_grows (s s' : Sess) : Prop :=
  committed s `prefix_of` committed s'.

Definition committed_same (s s' : Sess) : Prop := committed s' = committed s.

Lemma committed_grows_refl s : committed_grows s s.
Proof. unfold committed_grows. reflexivity. Qed.

Lemma committed_grows_trans s1 s2 s3 :
  committed_grows s1 s2 -> committed_grows s2 s3 -> committed_grows s1 s3.
Proof. unfold committed_grows. intros H1 H2. etrans; eassumption. Qed.

Lemma committed_same_refl s : committed_same s s.
Proof. reflexivity. Qed.

Lemma committed_same_trans s1 s2 s3 :
  committed_same s1 s2 -> committed_same s2 s3 -> committed_same s1 s3.
Proof. unfold committed_same. congruence. Qed.

Lemma committed_same_grows s s' : committed_same s s' -> committed_grows s s'.
Proof. unfold committed_same, committed_grows. intros ->. reflexivity. Qed.

Lemma round_trip_same : keeps committed_same (round_trip fault).
Proof. intros s. unfold round_trip. destruct (fault (ops s)); reflexivity. Qed.

Lemma add_same r : keeps committed_same (add r).
Proof. intros s. reflexivity. Qed.

Lemma flush_same : keeps committed_same (flush fault assign_id).
Proof.
  intros s. unfold flush, bind, round_trip.
  destruct (fault (ops s)); reflexivity.
Qed.

Lemma query_same : keeps committed_same (query fault assign_id).
Proof.
  intros s. unfold query, bind, round_trip.
  destruct (fault (ops s)); reflexivity.
Qed.

Lemma rollback_same : keeps committed_same (@rollback Row).
Proof. intros s. reflexivity. Qed.

Lemma update_flushed_same f : keeps committed_same (@update_flushed Row f).
Proof. intros s. reflexivity. Qed.

Lemma commit_grows : keeps committed_grows (commit fault assign_id).
Proof.
  intros s. unfold commit, bind, round_trip, committed_grows.
  destruct (fault (ops s)); simpl; [reflexivity|].
  unfold visible. simpl. apply prefix_app_r. reflexivity.
Qed.

(** A failed commit leaves the committed rows as they were. *)
Lemma commit_raise_same s e s' :
  commit fault assign_id s = (Raise e, s') -> committed s' = committed s.
Proof.
  unfold commit, bind, round_trip.
  destruct (fault (ops s)); intros H; inversion H; subst; reflexivity.
Qed.

(** *** The loop never stops on a record *)

Definition never_raises {A} (m : Comp A) : Prop :=
  forall s, exists a, fst (m s) = Ok a.

Lemma try_except_rollback_never_raises (body : Comp unit) :
  never_raises (try_except body rollback).
Proof.
  intros s. unfold try_except.
  destruct (body s) as [[[]|e] s1]; exists tt; reflexivity.
Qed.

Lemma for_each_never_raises {A} (xs : list A) (body : A -> Comp unit) :
  (forall x, never_raises (body x)) -> never_raises (for_each xs body).
Proof.
  intros Hb. induction xs as [|x xs IH]; intros s; simpl.
  - exists tt. reflexivity.
  - unfold bind. destruct (Hb x s) as [[] Hx].
    destruct (body x s) as [r s1]. simpl in Hx. subst r. apply IH.
Qed.

(** What [try: body except: rollback] leaves when the body raises. *)
Lemma try_except_rollback_raise (body : Comp unit) s e s1 :
  body s = (Raise e, s1) ->
  try_except body rollback s
  = (Ok tt, mk_session (committed s1) [] [] (ops s1) (S (rollbacks s1))).
Proof. intros H. unfold try_except. rewrite H. reflexivity. Qed.

(** The loop goes on with the next element from the state the step left. *)
Lemma for_each_cons_ok {A} (x : A) (rest : list A) (body : A -> Comp unit) s s1 :
  body x s = (Ok tt, s1) ->
  for_each (x :: rest) body s = for_each rest body s1.
Proof. intros H. simpl. unfold bind. rewrite H. reflexivity. Qed.

(** *** An invariant of the rows *)

Section RowInvariant.
Variable P : Row -> Prop.
Hypothesis assign_id_P : forall held r, P r -> P (assign_id held r).

Definition rows_ok (s : Sess) : Prop :=
  Forall P (committed s) /\ Forall P (flushed s) /\ Forall P (new s).

Definition rows_stay_ok (s s' : Sess) : Prop := rows_ok s -> rows_ok s'.

Lemma rows_stay_ok_refl s : rows_stay_ok s s.
Proof. intros H. exact H. Qed.

Lemma rows_stay_ok_trans s1 s2 s3 :
  rows_stay_ok s1 s2 -> rows_stay_ok s2 s3 -> rows_stay_ok s1 s3.
Proof. unfold rows_stay_ok. auto. Qed.

Lemma write_rows_P held pending :
  Forall P pending -> Forall P (write_rows assign_id held pending).
Proof.
  revert held. induction pending as [|r rest IH]; intros held H; simpl.
  - constructor.
  - inversion H; subst. constructor; [apply assign_id_P; assumption|].
    apply IH. assumption.
Qed.

Lemma write_pending_ok s : rows_ok s -> rows_ok (write_pending assign_id s).
Proof.
  intros (Hc & Hf & Hn). unfold write_pending, rows_ok. simpl.
  repeat split; [assumption | | constructor].
  apply Forall_app. split; [assumption | apply write_rows_P, Hn].
Qed.

Lemma round_trip_ok : keeps rows_stay_ok (round_trip fault).
Proof.
  intros s H. unfold round_trip. destruct (fault (ops s)); exact H.
Qed.

Lemma flush_ok : keeps rows_stay_ok (flush fault assign_id).
Proof.
  intros s H. unfold flush, bind, round_trip.
  destruct (fault (ops s)); simpl; [exact H|].
  apply (write_pending_ok (mk_session _ _ _ _ _)), H.
Qed.

Lemma query_ok : keeps rows_stay_ok (query fault assign_id).
Proof.
  intros s H. unfold query, bind, round_trip.
  destruct (fault (ops s)); simpl; [exact H|].
  apply (write_pending_ok (mk_session _ _ _ _ _)), H.
Qed.

Lemma commit_ok : keeps rows_stay_ok (commit fault assign_id).
Proof.
  intros s H. unfold commit, bind, round_trip.
  destruct (fault (ops s)); simpl; [exact H|].
  destruct (write_pending_ok (mk_session (committed s) (flushed s) (new s)
                                         (S (ops s)) (rollbacks s)) H)
    as (Hc & Hf & _).
  unfold rows_ok, visible. simpl in *.
  repeat split; [|constructor|constructor].
  apply Forall_app. split; assumption.
Qed.

Lemma rollback_ok : keeps rows_stay_ok (@rollback Row).
Proof.
  intros s (Hc & _ & _). unfold rows_ok. simpl.
  repeat split; [assumption|constructor|constructor].
Qed.

Lemma add_ok r : P r -> keeps rows_stay_ok (add r).
Proof.
  intros Hr s (Hc & Hf & Hn). unfold rows_ok. simpl.
  repeat split; [assumption|assumption|].
  apply Forall_app. split; [assumption | repeat constructor; assumption].
Qed.

Lemma update_flushed_ok f :
  (forall r, P r -> P (f r)) -> keeps rows_stay_ok (@update_flushed Row f).
Proof.
  intros Hf s (Hc & Hfl & Hn). unfold rows_ok. simpl.
  repeat split; [assumption| |assumption].
  apply Forall_map. eapply Forall_impl; [exact Hfl|]. exact Hf.
Qed.
End RowInvariant.
End SessionFacts.

(** ** The body of a record: what a failure leaves *)

Section BodyFacts.
Context {Row : Type}.
Variable fault : nat -> bool.
Variable assign_id : list Row -> Row -> Row.

(** A body is [careful] when a run that ends well leaves the committed rows
    as a prefix of the new ones, and a run that raises leaves them as they
    were. *)
Definition careful {A} (m : M Row A) : Prop :=
  forall s,
    match m s with
    | (Ok _, s') => committed s `prefix_of` committed s'
    | (Raise _, s') => committed s' = committed s
    end.

Definition same {A} (m : M Row A) : Prop := keeps committed_same m.

Lemma same_ret {A} (a : A) : same (@ret Row A a).
Proof. intros s. reflexivity. Qed.

Lemma same_raise {A} (e : exn) : same (@raise Row A e).
Proof. intros s. reflexivity. Qed.

Lemma same_bind {A B} (m : M Row A) (k : A -> M Row B) :
  same m -> (forall a, same (k a)) -> same (bind m k).
Proof. apply keeps_bind, committed_same_trans. Qed.

Lemma same_for_each {A} (xs : list A) (body : A -> M Row unit) :
  (forall x, same (body x)) -> same (for_each xs body).
Proof.
  apply keeps_for_each; [apply committed_same_refl | apply committed_same_trans].
Qed.

Lemma same_careful {A} (m : M Row A) : same m -> careful m.
Proof.
  intros H s. specialize (H s). unfold committed_same in H.
  destruct (m s) as [[a|e] s']; simpl in H; rewrite H; reflexivity.
Qed.

Lemma careful_bind {A B} (m : M Row A) (k : A -> M Row B) :
  same m -> (forall a, careful (k a)) -> careful (bind m k).
Proof.
  intros Hm Hk s. unfold bind. specialize (Hm s). unfold committed_same in Hm.
  destruct (m s) as [[a|e] s1]; simpl in Hm; [|exact Hm].
  specialize (Hk a s1). destruct (k a s1) as [[b|e] s2]; rewrite <- Hm; exact Hk.
Qed.

Lemma careful_commit : careful (commit fault assign_id).
Proof.
  intros s. unfold commit, bind, round_trip.
  destruct (fault (ops s)); simpl; [reflexivity|].
  unfold visible. simpl. apply prefix_app_r. reflexivity.
Qed.

Lemma careful_commit_if (b : bool) :
  careful (if b then commit fault assign_id else ret tt).
Proof. destruct b; [apply careful_commit | apply same_careful, same_ret]. Qed.

(** One turn of the loop around a careful body: it never raises, the
    committed rows stay a prefix, and after a failure of the body nothing
    uncommitted is left and the committed rows are those from before the
    record. *)
Lemma guarded_step (body : M Row unit) (s : Session Row) :
  careful body ->
  exists s',
    try_except body rollback s = (Ok tt, s')
    /\ committed s `prefix_of` committed s'
    /\ (forall e s1, body s = (Raise e, s1) ->
          s' = mk_session (committed s) [] [] (ops s1) (S (rollbacks s1))).
Proof.
  intros Hb. specialize (Hb s). unfold try_except.
  destruct (body s) as [[[]|e] s1].
  - exists s1. repeat split; [exact Hb | intros ? ? [=]].
  - eexists. split; [reflexivity|]. simpl. rewrite Hb.
    split; [reflexivity|]. intros e' s1' [= _ <-]. reflexivity.
Qed.

Lemma careful_keeps_grows (body : M Row unit) :
  careful body -> keeps committed_grows (try_except body rollback).
Proof.
  intros Hb s. destruct (guarded_step body s Hb) as (s' & -> & Hp & _).
  exact Hp.
Qed.
End BodyFacts.

(** ** boba.py: the driver *)

Section BobaDriverFacts.
Variable fault : nat -> bool.
Variable int_eq_text : Z -> str -> bool.
Variable refs : Boba.Refs.

Lemma boba_query_same : same (query fault Boba.assign_id).
Proof. apply query_same. Qed.

Lemma boba_first_level_same c : same (Boba.first_level fault refs c).
Proof.
  unfold Boba.first_level. apply same_bind; [apply boba_query_same|].
  intros _. apply same_ret.
Qed.

Lemma boba_first_form_same c : same (Boba.first_form fault refs c).
Proof.
  unfold Boba.first_form. apply same_bind; [apply boba_query_same|].
  intros _. apply same_ret.
Qed.

Lemma boba_process_program_same prog_elem :
  same (Boba.process_program fault refs prog_elem).
Proof.
  unfold Boba.process_program.
  apply same_bind.
  { destruct (Boba.level_code _); [|apply same_ret].
    apply same_bind; [apply boba_first_level_same | intros; apply same_ret]. }
  intros level_id. apply same_bind.
  { destruct (Boba.form_code _); [|apply same_ret].
    apply same_bind; [apply boba_first_form_same | intros; apply same_ret]. }
  intros form_id. apply same_ret.
Qed.

Lemma boba_first_parent_same head :
  same (Boba.first_parent fault int_eq_text head).
Proof.
  unfold Boba.first_parent. apply same_bind; [apply boba_query_same|].
  intros rows. apply same_ret.
Qed.

Lemma boba_set_parent_same org_id parent_id :
  same (Boba.set_parent org_id parent_id).
Proof.
  unfold Boba.set_parent. destruct parent_id; [|apply same_ret].
  intros s. reflexivity.
Qed.

Lemma boba_record_body_careful cache elem :
  careful (Boba.record_body fault int_eq_text refs cache elem).
Proof.
  unfold Boba.record_body.
  destruct (Boba.process_organization _ _ _) as [org|];
    [|apply same_careful, same_ret].
  destruct (Boba.o_org_type org) as [org_type|];
    [|apply same_careful, same_ret].
  destruct (_ && _); [apply same_careful, same_ret|].
  apply careful_bind; [intros s; reflexivity|]. intros _.
  apply careful_bind; [apply flush_same|]. intros _.
  apply careful_bind; [intros s; reflexivity|]. intros org_id.
  apply careful_bind.
  { destruct (Boba.truthy _); [|apply same_ret].
    apply same_bind; [apply boba_first_parent_same|].
    intros [parent|]; [apply boba_set_parent_same | apply same_ret]. }
  intros _. apply careful_bind.
  { apply same_for_each. intros prog_elem.
    apply same_bind; [apply boba_process_program_same|].
    intros program s. reflexivity. }
  intros _. apply careful_bind; [intros s; reflexivity|]. intros n.
  apply careful_commit_if.
Qed.

Lemma boba_record_step_never_raises cache elem :
  never_raises (Boba.record_step fault int_eq_text refs cache elem).
Proof.
  unfold Boba.record_step. destruct (endswith _ _).
  - apply try_except_rollback_never_raises.
  - intros s. exists tt. reflexivity.
Qed.

Lemma boba_record_step_grows cache elem :
  keeps committed_grows (Boba.record_step fault int_eq_text refs cache elem).
Proof.
  unfold Boba.record_step. destruct (endswith _ _).
  - apply careful_keeps_grows, boba_record_body_careful.
  - intros s. apply committed_grows_refl.
Qed.
End BobaDriverFacts.

(** ** proektMAI.py: the driver *)

Section ProektDriverFacts.
Variable strptime : str -> str -> option datetime.
Variable fault : nat -> bool.

Lemma proekt_stage_same e : same (ProektMAI.stage e).
Proof. intros s. reflexivity. Qed.

Lemma proekt_record_body_careful elem :
  careful (ProektMAI.record_body strptime fault elem).
Proof.
  unfold ProektMAI.record_body.
  destruct (ProektMAI.process_organization elem) as [org|];
    [|apply same_careful, same_raise].
  apply careful_bind; [apply proekt_stage_same|]. intros _.
  apply careful_bind; [apply proekt_stage_same|]. intros _.
  apply careful_bind.
  { destruct (ProektMAI.any_value _); [apply proekt_stage_same | apply same_ret]. }
  intros _. apply careful_bind.
  { apply same_for_each. intros supp_elem.
    apply same_bind; [apply proekt_stage_same|]. intros _.
    apply same_for_each. intros prog_elem. apply proekt_stage_same. }
  intros _. apply careful_bind.
  { apply same_for_each. intros decision_elem. apply proekt_stage_same. }
  intros _. apply careful_bind; [intros s; reflexivity|]. intros n.
  apply careful_commit_if.
Qed.

Lemma proekt_record_step_never_raises elem :
  never_raises (ProektMAI.record_step strptime fault elem).
Proof.
  unfold ProektMAI.record_step. destruct (endswith _ _).
  - apply try_except_rollback_never_raises.
  - intros s. exists tt. reflexivity.
Qed.

Lemma proekt_record_step_grows elem :
  keeps committed_grows (ProektMAI.record_step strptime fault elem).
Proof.
  unfold ProektMAI.record_step. destruct (endswith _ _).
  - apply careful_keeps_grows, proekt_record_body_careful.
  - intros s. apply committed_grows_refl.
Qed.
End ProektDriverFacts.

(** ** Failure isolation in the loop *)

Lemma loop_goes_through {Row A} (xs : list A) (body : A -> M Row unit) s :
  (forall x, never_raises (body x)) ->
  (forall x, keeps committed_grows (body x)) ->
  exists s',
    for_each xs body s = (Ok tt, s') /\ committed s `prefix_of` committed s'.
Proof.
  intros Hn Hg.
  destruct (for_each_never_raises xs body Hn s) as [[] Hok].
  pose proof (keeps_for_each committed_grows committed_grows_refl
                committed_grows_trans xs body Hg s) as Hp.
  destruct (for_each xs body s) as [r s']. simpl in *. subst r.
  exists s'. split; [reflexivity | exact Hp].
Qed.

(** C3: in both drivers, whatever the store's faults are.  When the body of
    a record raises, at its build or at any round trip to the store, the
    commit included, the turn of the loop ends without raising in the state
    [mk_session (committed s) [] [] _ _]: the uncommitted batch is rolled
    back and the rows committed before the record are intact; the loop then
    goes on with the rest of the elements from that state.  The loop over
    any document ends without raising, with the rows committed before it
    still there, as a prefix of the committed rows. *)
Theorem record_failure_is_isolated
    (strptime : str -> str -> option datetime) (fault : nat -> bool)
    (int_eq_text : Z -> str -> bool) (refs : Boba.Refs)
    (cache : gmap str Boba.OrganizationType) :
  let boba_step := Boba.record_step fault int_eq_text refs cache in
  let proekt_step := ProektMAI.record_step strptime fault in
  (forall elem s e s1 rest,
      endswith (u "Certificate") (tag elem) = true ->
      Boba.record_body fault int_eq_text refs cache elem s = (Raise e, s1) ->
      let s2 := mk_session (committed s) [] [] (ops s1) (S (rollbacks s1)) in
      boba_step elem s = (Ok tt, s2)
      /\ for_each (elem :: rest) boba_step s = for_each rest boba_step s2)
  /\ (forall elems s, exists s',
      for_each elems boba_step s = (Ok tt, s')
      /\ committed s `prefix_of` committed s')
  /\ (forall elem s e s1 rest,
      endswith (u "Certificate") (tag elem) = true ->
      ProektMAI.record_body strptime fault elem s = (Raise e, s1) ->
      let s2 := mk_session (committed s) [] [] (ops s1) (S (rollbacks s1)) in
      proekt_step elem s = (Ok tt, s2)
      /\ for_each (elem :: rest) proekt_step s = for_each rest proekt_step s2)
  /\ (forall elems s, exists s',
      for_each elems proekt_step s = (Ok tt, s')
      /\ committed s `prefix_of` committed s').
Proof.
  intros boba_step proekt_step. split; [|split; [|split]].
  - intros elem s e s1 rest Htag Hbody s2.
    assert (Hstep : boba_step elem s = (Ok tt, s2)).
    { unfold boba_step, Boba.record_step. rewrite Htag.
      destruct (guarded_step _ s
                  (boba_record_body_careful fault int_eq_text refs cache elem))
        as (s' & Hs' & _ & Hr).
      rewrite Hs'. f_equal. exact (Hr _ _ Hbody). }
    split; [exact Hstep | exact (for_each_cons_ok _ _ _ _ _ Hstep)].
  - intros elems s. apply loop_goes_through.
    + apply boba_record_step_never_raises.
    + apply boba_record_step_grows.
  - intros elem s e s1 rest Htag Hbody s2.
    assert (Hstep : proekt_step elem s = (Ok tt, s2)).
    { unfold proekt_step, ProektMAI.record_step. rewrite Htag.
      destruct (guarded_step _ s
                  (proekt_record_body_careful strptime fault elem))
        as (s' & Hs' & _ & Hr).
      rewrite Hs'. f_equal. exact (Hr _ _ Hbody). }
    split; [exact Hstep | exact (for_each_cons_ok _ _ _ _ _ Hstep)].
  - intros elems s. apply loop_goes_through.
    + apply proekt_record_step_never_raises.
    + apply proekt_record_step_grows.
Qed.

(** C3 at work: in boba.py the commit of a second university fails, the
    turn ends well with the first university still committed and nothing
    pending; in proektMAI.py a record with no organization fails at its
    build and the turn ends well after the rollback. *)
Lemma record_failure_is_isolated_witness :
  Boba.record_step (Sample.fault_at 3) Sample.int_eq_text Sample.refs
    Sample.cache (Sample.university "7702") Sample.boba_after_one
  = (Ok tt, mk_session (committed Sample.boba_after_one) [] [] 4 1)
  /\ length (committed Sample.boba_after_one) = 1%nat
  /\ ProektMAI.record_step Strptime.strptime Sample.no_fault
       Sample.no_organization Sample.proekt_session
     = (Ok tt, mk_session [] [] [] 0 1).
Proof.
  destruct (record_failure_is_isolated Strptime.strptime (Sample.fault_at 3)
              Sample.int_eq_text Sample.refs Sample.cache)
    as (HB & _ & _ & _).
  destruct (record_failure_is_isolated Strptime.strptime Sample.no_fault
              Sample.int_eq_text Sample.refs Sample.cache)
    as (_ & _ & HP & _).
  split; [|split].
  - apply (HB (Sample.university "7702") Sample.boba_after_one StoreError
              (mk_session (committed Sample.boba_after_one)
                 (flushed (snd (Boba.record_body (Sample.fault_at 3)
                    Sample.int_eq_text Sample.refs Sample.cache
                    (Sample.university "7702") Sample.boba_after_one)))
                 [] 4 0) []);
      vm_compute; reflexivity.
  - vm_compute. reflexivity.
  - apply (HP Sample.no_organization Sample.proekt_session UnmappedInstance
              Sample.proekt_session []);
      vm_compute; reflexivity.
Defined.

(** ** boba.py: the output filter as an invariant of the store *)

Definition kept (r : Boba.Row) : Prop := Boba.row_kept r = true.

Lemma assign_id_kept held r : kept r -> kept (Boba.assign_id held r).
Proof. destruct r as [o|p]; intros H; exact H. Qed.

Lemma set_parent_kept org_id pid r :
  kept r ->
  kept (match r with
        | Boba.OrgRow o =>
            if bool_decide (Boba.o_id o = org_id)
            then Boba.OrgRow (Boba.set_parent_id pid o) else r
        | Boba.ProgRow _ => r
        end).
Proof.
  destruct r as [o|p]; intros H; [|exact H].
  destruct (bool_decide _); exact H.
Qed.

Lemma orgs_of_kept (rows : list Boba.Row) :
  Forall kept rows <->
  Forall (fun o => Boba.kept_by_filter o = true) (Boba.orgs_of rows).
Proof.
  induction rows as [|[o|p] rows IH]; simpl.
  - split; constructor.
  - rewrite !Forall_cons, IH. reflexivity.
  - rewrite Forall_cons, IH. unfold kept at 1. simpl. tauto.
Qed.

Section BobaInvariant.
Variable fault : nat -> bool.
Variable int_eq_text : Z -> str -> bool.
Variable refs : Boba.Refs.

Abbreviation stays_kept := (rows_stay_ok kept).

Lemma kept_bind {A B} (m : M Boba.Row A) (k : A -> M Boba.Row B) :
  keeps stays_kept m -> (forall a, keeps stays_kept (k a)) ->
  keeps stays_kept (bind m k).
Proof. apply keeps_bind, rows_stay_ok_trans. Qed.

Lemma kept_ret {A} (a : A) : keeps stays_kept (@ret Boba.Row A a).
Proof. apply keeps_ret, rows_stay_ok_refl. Qed.

Lemma kept_query : keeps stays_kept (query fault Boba.assign_id).
Proof. apply query_ok, assign_id_kept. Qed.

Lemma kept_process_program prog_elem :
  keeps stays_kept (Boba.process_program fault refs prog_elem).
Proof.
  unfold Boba.process_program, Boba.first_level, Boba.first_form.
  apply kept_bind.
  { destruct (Boba.level_code _); [|apply kept_ret].
    apply kept_bind; [|intros; apply kept_ret].
    apply kept_bind; [apply kept_query | intros; apply kept_ret]. }
  intros level_id. apply kept_bind.
  { destruct (Boba.form_code _); [|apply kept_ret].
    apply kept_bind; [|intros; apply kept_ret].
    apply kept_bind; [apply kept_query | intros; apply kept_ret]. }
  intros form_id. apply kept_ret.
Qed.

(** What the filter lets through is what [kept_by_filter] says. *)
Lemma filter_condition (org : Boba.Organization) org_type :
  Boba.o_org_type org = Some org_type ->
  negb (str_eqb (Boba.ot_code org_type) (u "higher"))
  && negb (Boba.truthy (Boba.o_IsBranch org))
  = negb (Boba.kept_by_filter org).
Proof.
  intros H. unfold Boba.kept_by_filter. rewrite H.
  rewrite negb_orb. reflexivity.
Qed.

Lemma kept_record_body cache elem :
  keeps stays_kept (Boba.record_body fault int_eq_text refs cache elem).
Proof.
  unfold Boba.record_body.
  destruct (Boba.process_organization _ _ _) as [org|]; [|apply kept_ret].
  destruct (Boba.o_org_type org) as [org_type|] eqn:Htype; [|apply kept_ret].
  rewrite (filter_condition org org_type Htype).
  destruct (Boba.kept_by_filter org) eqn:Hkept; [|apply kept_ret].
  cbn [negb].
  apply kept_bind; [apply add_ok; exact Hkept|]. intros _.
  apply kept_bind; [apply flush_ok, assign_id_kept|]. intros _.
  apply kept_bind; [intros s H; exact H|]. intros org_id.
  apply kept_bind.
  { destruct (Boba.truthy _); [|apply kept_ret].
    unfold Boba.first_parent.
    apply kept_bind.
    { apply kept_bind; [apply kept_query | intros; apply kept_ret]. }
    intros [parent|]; [|apply kept_ret].
    unfold Boba.set_parent. destruct (Boba.o_id parent) as [pid|];
      [|apply kept_ret].
    apply update_flushed_ok. intros r. apply set_parent_kept. }
  intros _. apply kept_bind.
  { apply keeps_for_each;
      [apply rows_stay_ok_refl | apply rows_stay_ok_trans |].
    intros prog_elem.
    apply kept_bind; [apply kept_process_program|].
    intros program. apply add_ok. reflexivity. }
  intros _. apply kept_bind; [intros s H; exact H|]. intros n.
  destruct (_ =? _)%nat; [apply commit_ok, assign_id_kept | apply kept_ret].
Qed.

Lemma kept_record_step cache elem :
  keeps stays_kept (Boba.record_step fault int_eq_text refs cache elem).
Proof.
  unfold Boba.record_step. destruct (endswith _ _); [|apply kept_ret].
  apply keeps_try_except;
    [apply rows_stay_ok_trans | apply kept_record_body | apply rollback_ok].
Qed.

Lemma kept_parse_xml_to_db xml_file :
  keeps stays_kept (Boba.parse_xml_to_db fault int_eq_text refs xml_file).
Proof.
  intros s. unfold Boba.parse_xml_to_db.
  match goal with
  | |- context [match ?run s with _ => _ end] =>
      assert (Hrun : keeps stays_kept run)
  end.
  { apply kept_bind; [apply kept_query|]. intros _.
    apply kept_bind; [apply keeps_getsize, rows_stay_ok_refl|]. intros _.
    apply kept_bind.
    { apply keeps_for_iterparse;
        [apply rows_stay_ok_refl | apply rows_stay_ok_trans |].
      intros elem. apply kept_record_step. }
    intros _. apply kept_bind; [apply commit_ok, assign_id_kept|]. intros _.
    unfold Boba.log_statistics.
    apply kept_bind; [apply kept_query|]. intros _.
    destruct (List.find _ _); [|apply keeps_raise, rows_stay_ok_refl].
    apply kept_bind; [apply kept_query|]. intros _.
    apply kept_bind; [apply kept_query|]. intros _. apply kept_ret. }
  specialize (Hrun s).
  match goal with
  | |- context [match ?run s with _ => _ end] => destruct (run s) as [[[]|e] s1]
  end; simpl in *; [exact Hrun|].
  intros H. apply (rollback_ok kept s1), Hrun, H.
Qed.
End BobaInvariant.

(** C5: in boba.py, whatever the store's faults are.  If every organization
    the session holds is typed 'higher' or flagged as a branch, so is every
    organization it holds after [parse_xml_to_db], committed, flushed or
    pending: only such organizations are ever added.  And an element whose
    organization is neither is skipped: its turn of the loop ends well and
    leaves the session as it was, with nothing added, no rollback and no
    error. *)
Theorem only_higher_or_branch_kept
    (fault : nat -> bool) (int_eq_text : Z -> str -> bool) (refs : Boba.Refs)
    (xml_file : XmlFile) (s : Session Boba.Row) :
  Forall (fun o => Boba.kept_by_filter o = true)
         (Boba.orgs_of (committed s ++ flushed s ++ new s)) ->
  let s' := snd (Boba.parse_xml_to_db fault int_eq_text refs xml_file s) in
  Forall (fun o => Boba.kept_by_filter o = true)
         (Boba.orgs_of (committed s' ++ flushed s' ++ new s'))
  /\ (forall o, o ∈ Boba.orgs_of (committed s') ->
        (exists t, Boba.o_org_type o = Some t /\ Boba.ot_code t = u "higher")
        \/ Boba.o_IsBranch o = Some true)
  /\ (forall cache elem org s0,
        Boba.process_organization elem cache (Boba.programs_of_record elem)
          = Some org ->
        Boba.kept_by_filter org = false ->
        Boba.record_step fault int_eq_text refs cache elem s0 = (Ok tt, s0)).
Proof.
  intros Hs s'.
  assert (Hs' : Forall (fun o => Boba.kept_by_filter o = true)
                  (Boba.orgs_of (committed s' ++ flushed s' ++ new s'))).
  { apply orgs_of_kept. apply orgs_of_kept in Hs.
    rewrite !Forall_app in Hs. rewrite !Forall_app.
    exact (kept_parse_xml_to_db fault int_eq_text refs xml_file s Hs). }
  split; [exact Hs'|]. split.
  - intros o Ho. unfold Boba.orgs_of in Hs'.
    rewrite !flat_map_app, Forall_app in Hs'. destruct Hs' as [Hc _].
    rewrite Forall_forall in Hc. specialize (Hc o Ho).
    unfold Boba.kept_by_filter in Hc. apply orb_true_iff in Hc as [Hc|Hc].
    + left. destruct (Boba.o_org_type o) as [t|]; [|discriminate].
      exists t. split; [reflexivity|].
      unfold str_eqb in Hc. apply bool_decide_eq_true in Hc. exact Hc.
    + right. unfold Boba.truthy in Hc.
      destruct (Boba.o_IsBranch o) as [[|]|]; try discriminate. reflexivity.
  - intros cache elem org s0 Horg Hkept.
    unfold Boba.record_step, Boba.record_body.
    rewrite Horg.
    destruct (endswith _ _); [|reflexivity].
    unfold try_except.
    destruct (Boba.o_org_type org) as [org_type|] eqn:Htype; [|reflexivity].
    rewrite (filter_condition org org_type Htype), Hkept. reflexivity.
Qed.

(** C5 at work: of a university, a college and a branch, the university
    and the branch are committed, and the turn of the college leaves the
    session as it was. *)
Lemma only_higher_or_branch_kept_witness :
  let s' := snd (Boba.parse_xml_to_db Sample.no_fault Sample.int_eq_text
                   Sample.refs
                   (Xml [Sample.university "7701"; Sample.college;
                         Sample.branch "7701"] true)
                   Sample.boba_session) in
  Forall (fun o => Boba.kept_by_filter o = true)
         (Boba.orgs_of (committed s' ++ flushed s' ++ new s'))
  /\ length (Boba.orgs_of (committed s')) = 2%nat
  /\ Boba.record_step Sample.no_fault Sample.int_eq_text Sample.refs
       Sample.cache Sample.college Sample.boba_after_one
     = (Ok tt, Sample.boba_after_one).
Proof.
  destruct (only_higher_or_branch_kept Sample.no_fault Sample.int_eq_text
              Sample.refs
              (Xml [Sample.university "7701"; Sample.college;
                    Sample.branch "7701"] true)
              Sample.boba_session ltac:(vm_compute; constructor))
    as (H1 & _ & H3).
  split; [exact H1|]. split; [vm_compute; reflexivity|].
  eapply H3; vm_compute; reflexivity.
Defined.

(** ** boba.py: the parent of a branch *)

Lemma write_rows_snoc {Row} (assign_id : list Row -> Row -> Row)
    (held pending : list Row) (r : Row) :
  write_rows assign_id held (pending ++ [r])
  = write_rows assign_id held pending
    ++ [assign_id (held ++ write_rows assign_id held pending) r].
Proof.
  revert held. induction pending as [|x rest IH]; intros held; simpl.
  - rewrite app_nil_r. reflexivity.
  - rewrite IH. rewrite <- app_assoc. reflexivity.
Qed.

Lemma orgs_of_app (a b : list Boba.Row) :
  Boba.orgs_of (a ++ b) = Boba.orgs_of a ++ Boba.orgs_of b.
Proof. apply flat_map_app. Qed.

(** The rows a session shows only grow along computations that neither
    roll back nor change a flushed row. *)
Definition visible_grows {Row} (s s' : Session Row) : Prop :=
  forall r, r ∈ visible s -> r ∈ visible s'.

Lemma visible_grows_refl {Row} (s : Session Row) : visible_grows s s.
Proof. intros r H. exact H. Qed.

Lemma visible_grows_trans {Row} (s1 s2 s3 : Session Row) :
  visible_grows s1 s2 -> visible_grows s2 s3 -> visible_grows s1 s3.
Proof. unfold visible_grows. auto. Qed.

Section NoFault.
Context {Row : Type}.
Variable fault : nat -> bool.
Variable assign_id : list Row -> Row -> Row.
Hypothesis no_fault : forall n, fault n = false.

Lemma round_trip_ok_eq (s : Session Row) :
  round_trip fault s
  = (Ok tt, mk_session (committed s) (flushed s) (new s) (S (ops s))
                       (rollbacks s)).
Proof. unfold round_trip. rewrite no_fault. reflexivity. Qed.

Lemma flush_eq (s : Session Row) :
  flush fault assign_id s
  = (Ok tt, write_pending assign_id
              (mk_session (committed s) (flushed s) (new s) (S (ops s))
                          (rollbacks s))).
Proof. unfold flush, bind. rewrite round_trip_ok_eq. reflexivity. Qed.

Lemma query_eq (s : Session Row) :
  query fault assign_id s
  = (let s' := write_pending assign_id
                 (mk_session (committed s) (flushed s) (new s) (S (ops s))
                             (rollbacks s)) in
     (Ok (visible s'), s')).
Proof. unfold query, bind. rewrite round_trip_ok_eq. reflexivity. Qed.

Lemma never_raises_ret {A} (a : A) : never_raises (@ret Row A a).
Proof. intros s. exists a. reflexivity. Qed.

Lemma never_raises_bind {A B} (m : M Row A) (k : A -> M Row B) :
  never_raises m -> (forall a, never_raises (k a)) -> never_raises (bind m k).
Proof.
  intros Hm Hk s. unfold bind. destruct (Hm s) as [a Ha].
  destruct (m s) as [r s1]. simpl in Ha. subst r. apply Hk.
Qed.

Lemma never_raises_query : never_raises (query fault assign_id).
Proof. intros s. rewrite query_eq. eexists. reflexivity. Qed.

Lemma never_raises_commit : never_raises (commit fault assign_id).
Proof.
  intros s. unfold commit, bind. rewrite round_trip_ok_eq.
  exists tt. reflexivity.
Qed.

Lemma never_raises_add r : never_raises (@add Row r).
Proof. intros s. exists tt. reflexivity. Qed.

Lemma never_raises_len_new : never_raises (@len_new Row).
Proof. intros s. eexists. reflexivity. Qed.
End NoFault.

Section VisibleGrows.
Context {Row : Type}.
Variable fault : nat -> bool.
Variable assign_id : list Row -> Row -> Row.

Lemma write_pending_visible (s : Session Row) :
  visible_grows s (write_pending assign_id s).
Proof.
  intros r. unfold visible, write_pending. simpl.
  rewrite !elem_of_app. tauto.
Qed.

Lemma add_visible r : keeps visible_grows (@add Row r).
Proof. intros s x H. exact H. Qed.

Lemma query_visible : keeps visible_grows (query fault assign_id).
Proof.
  intros s. unfold query, bind, round_trip.
  destruct (fault (ops s)); simpl; [intros r Hr; exact Hr|].
  intros r Hr.
  apply (write_pending_visible (mk_session _ _ _ _ _)). exact Hr.
Qed.

Lemma commit_visible : keeps visible_grows (commit fault assign_id).
Proof.
  intros s. unfold commit, bind, round_trip.
  destruct (fault (ops s)); simpl; [intros r Hr; exact Hr|].
  intros r Hr.
  apply (write_pending_visible
           (mk_session (committed s) (flushed s) (new s) (S (ops s))
                       (rollbacks s))) in Hr.
  unfold visible in *. simpl in *. rewrite app_nil_r. exact Hr.
Qed.

Lemma visible_bind {A B} (m : M Row A) (k : A -> M Row B) :
  keeps visible_grows m -> (forall a, keeps visible_grows (k a)) ->
  keeps visible_grows (bind m k).
Proof. apply keeps_bind, visible_grows_trans. Qed.

Lemma visible_ret {A} (a : A) : keeps visible_grows (@ret Row A a).
Proof. apply keeps_ret, visible_grows_refl. Qed.
End VisibleGrows.

Lemma process_organization_fresh cert_elem cache programs org :
  Boba.process_organization cert_elem cache programs = Some org ->
  Boba.o_id org = None /\ Boba.o_parent_id org = None
  /\ exists t, Boba.o_org_type org = Some t.
Proof.
  unfold Boba.process_organization.
  destruct (find cert_elem _) as [org_elem|]; [|discriminate].
  destruct (cache !! _) as [t|]; [|discriminate].
  intros [= <-]. simpl. eauto.
Qed.

Section BranchParent.
Variable fault : nat -> bool.
Variable int_eq_text : Z -> str -> bool.
Variable refs : Boba.Refs.
Hypothesis no_fault : forall n, fault n = false.

Lemma process_program_never_raises prog_elem :
  never_raises (Boba.process_program fault refs prog_elem).
Proof.
  unfold Boba.process_program, Boba.first_level, Boba.first_form.
  apply never_raises_bind.
  { destruct (Boba.level_code _); [|apply never_raises_ret].
    apply never_raises_bind; [|intros; apply never_raises_ret].
    apply never_raises_bind;
      [apply never_raises_query, no_fault | intros; apply never_raises_ret]. }
  intros level_id. apply never_raises_bind.
  { destruct (Boba.form_code _); [|apply never_raises_ret].
    apply never_raises_bind; [|intros; apply never_raises_ret].
    apply never_raises_bind;
      [apply never_raises_query, no_fault | intros; apply never_raises_ret]. }
  intros form_id. apply never_raises_ret.
Qed.

Lemma process_program_visible prog_elem :
  keeps visible_grows (Boba.process_program fault refs prog_elem).
Proof.
  unfold Boba.process_program, Boba.first_level, Boba.first_form.
  apply visible_bind.
  { destruct (Boba.level_code _); [|apply visible_ret].
    apply visible_bind; [|intros; apply visible_ret].
    apply visible_bind; [apply query_visible | intros; apply visible_ret]. }
  intros level_id. apply visible_bind.
  { destruct (Boba.form_code _); [|apply visible_ret].
    apply visible_bind; [|intros; apply visible_ret].
    apply visible_bind; [apply query_visible | intros; apply visible_ret]. }
  intros form_id. apply visible_ret.
Qed.

(** What follows the branch handling in the body of a record: the
    programs, then the commit test. *)
Definition programs_and_commit (elem : Element) (org_id : option Z)
  : M Boba.Row unit :=
  do_ for_each (Boba.programs_of_record elem) (fun prog_elem =>
        do program <- Boba.process_program fault refs prog_elem;
        add (Boba.ProgRow (Boba.set_organization_id org_id program)));
  do n <- len_new;
  if (n mod 100 =? 0)%nat then commit fault Boba.assign_id else ret tt.

End BranchParent.

Lemma find_first_match {A} (f : A -> bool) (l : list A) :
  match List.find f l with
  | Some p =>
      exists earlier later,
        l = earlier ++ p :: later /\ f p = true
        /\ Forall (fun x => f x = false) earlier
  | None => Forall (fun x => f x = false) l
  end.
Proof.
  induction l as [|a l IH]; simpl; [constructor|].
  destruct (f a) eqn:Ha.
  - exists [], l. repeat split; [exact Ha | constructor].
  - destruct (List.find f l) as [p|].
    + destruct IH as (earlier & later & -> & Hp & He).
      exists (a :: earlier), later. repeat split; [exact Hp|].
      constructor; assumption.
    + constructor; assumption.
Qed.

(** C4, the claim as stated fails: two certificates of one university give
    two organizations with INN "7701" (keys 1 and 2); a branch that names
    "7701" as its head is persisted under key 3 and linked to key 1, the
    first match, although the organization under key 2 is persisted and
    its INN matches the head identifier too. *)
Lemma branch_parent_claim_fails :
  map Sample.brief
      (Boba.orgs_of
         (committed
            (snd (Boba.record_step Sample.no_fault Sample.int_eq_text
                    Sample.refs Sample.cache (Sample.branch "7701")
                    Sample.boba_after_two))))
  = [ (Some 1%Z, u "7701", [], None);
      (Some 2%Z, u "7701", [], None);
      (Some 3%Z, u "7800", u "7701", Some 1%Z) ]
  /\ Some 1%Z <> Some 2%Z.
Proof. split; [vm_compute; reflexivity | congruence]. Qed.

(** ** The change detector *)

(** C2, the claim as stated fails: when the state file cannot be opened
    for writing, [save_state] logs the error and the detector still
    returns true, with no fingerprint persisted; the next run does not
    short-circuit and ingests the unchanged file again. *)
Lemma check_for_updates_claim_fails :
  check_for_updates Sample.digest Sample.xml_path Sample.read_only_run
    = (true, Sample.read_only_run)
  /\ load_state Sample.read_only_run !! Sample.xml_path = None
  /\ store (main Sample.digest Sample.count_ingest (Some Sample.xml_path)
              (main Sample.digest Sample.count_ingest (Some Sample.xml_path)
                    Sample.read_only_run))
     = 2%nat.
Proof. vm_compute. repeat split. Qed.

Lemma check_for_updates_unchanged {Store} (file_hash : str -> str)
    (file_path : str) (w : World Store) :
  load_state w !! file_path = Some (file_hash file_path) ->
  check_for_updates file_hash file_path w = (false, w).
Proof.
  intros H. unfold check_for_updates. rewrite H.
  unfold str_eqb. rewrite bool_decide_eq_true_2 by reflexivity. reflexivity.
Qed.

Lemma check_for_updates_changed {Store} (file_hash : str -> str)
    (file_path : str) (w : World Store) :
  load_state w !! file_path <> Some (file_hash file_path) ->
  check_for_updates file_hash file_path w
  = (true, save_state (<[file_path := file_hash file_path]> (load_state w)) w).
Proof.
  intros H. unfold check_for_updates.
  destruct (load_state w !! file_path) as [h|]; [|reflexivity].
  unfold str_eqb. rewrite bool_decide_eq_false_2; [reflexivity|].
  intros ->. apply H. reflexivity.
Qed.

Lemma main_unchanged {Store} (file_hash : str -> str)
    (ingest : str -> Store -> Store) (f : str) (w : World Store) :
  load_state w !! f = Some (file_hash f) ->
  main file_hash ingest (Some f) w = w.
Proof.
  intros H. unfold main.
  rewrite (check_for_updates_unchanged _ _ _ H). reflexivity.
Qed.

Lemma main_records_digest {Store} (file_hash : str -> str)
    (ingest : str -> Store -> Store) (f : str) (w : World Store) :
  write_outcome w = Written ->
  load_state (main file_hash ingest (Some f) w) !! f = Some (file_hash f).
Proof.
  intros Hw. unfold main.
  destruct (decide (load_state w !! f = Some (file_hash f))) as [H|H].
  - rewrite (check_for_updates_unchanged _ _ _ H). exact H.
  - rewrite (check_for_updates_changed _ _ _ H).
    unfold save_state. rewrite Hw. unfold load_state. cbn [state_file].
    apply lookup_insert_eq.
Qed.

(** C2, amended: for every file path (of a readable file, with digest
    [file_hash file_path]).  When the stored fingerprint of the path equals
    the fresh digest, the detector returns false and leaves the world as it
    is.  Otherwise it returns true without touching the store, after
    trying to write the state file, before any processing: if the write
    succeeds, the state file holds the loaded map with the path set to the
    fresh digest; if the file cannot be opened, the error is swallowed and
    the state file stays as it was; if the dump fails, the state file is
    left unreadable.  Consequently a run whose state write can succeed
    leaves the digest recorded whatever the ingestion does, and a run that
    finds the digest recorded changes nothing: no state write, no
    ingestion, no operation on the store. *)
Theorem check_for_updates_behaviour {Store : Type} (file_hash : str -> str)
    (file_path : str) (w : World Store) :
  let state := load_state w in
  let fresh := file_hash file_path in
  (state !! file_path = Some fresh ->
     check_for_updates file_hash file_path w = (false, w))
  /\ (state !! file_path <> Some fresh ->
      exists w',
        check_for_updates file_hash file_path w = (true, w')
        /\ store w' = store w
        /\ (write_outcome w = Written ->
              state_file w' = Stored (<[file_path := fresh]> state)
              /\ state_writes w' = S (state_writes w))
        /\ (write_outcome w = OpenFails -> w' = w)
        /\ (write_outcome w = DumpFails ->
              state_file w' = Unreadable
              /\ state_writes w' = state_writes w))
  /\ (forall ingest : str -> Store -> Store,
        write_outcome w = Written ->
        let w1 := main file_hash ingest (Some file_path) w in
        load_state w1 !! file_path = Some fresh
        /\ main file_hash ingest (Some file_path) w1 = w1)
  /\ (forall ingest : str -> Store -> Store,
        state !! file_path = Some fresh ->
        main file_hash ingest (Some file_path) w = w).
Proof.
  intros state fresh. split; [|split; [|split]].
  - apply (check_for_updates_unchanged file_hash file_path w).
  - intros H. rewrite (check_for_updates_changed file_hash file_path w H).
    eexists. split; [reflexivity|].
    unfold save_state.
    destruct (write_outcome w); cbn; (split; [reflexivity|]);
      repeat apply conj; intros Hx; try discriminate Hx;
      try (split; reflexivity); reflexivity.
  - intros ingest Hw w1.
    assert (H1 : load_state w1 !! file_path = Some fresh)
      by (apply (main_records_digest file_hash ingest file_path w), Hw).
    split; [exact H1 | apply (main_unchanged file_hash ingest file_path w1), H1].
  - intros ingest. apply (main_unchanged file_hash ingest file_path w).
Qed.

(** C2 at work: a first run on a fresh state file, whose write succeeds,
    leaves the digest of the file recorded; the second run against the
    unchanged file leaves the world, its count of state writes and its
    store as they are. *)
Lemma check_for_updates_behaviour_witness :
  write_outcome Sample.first_run = Written
  /\ (let w1 := main Sample.digest Sample.count_ingest (Some Sample.xml_path)
                     Sample.first_run in
      load_state w1 !! Sample.xml_path = Some (Sample.digest Sample.xml_path)
      /\ main Sample.digest Sample.count_ingest (Some Sample.xml_path) w1 = w1).
Proof.
  split; [reflexivity|].
  exact (proj1 (proj2 (proj2 (check_for_updates_behaviour Sample.digest
                                Sample.xml_path Sample.first_run)))
               Sample.count_ingest eq_refl).
Defined.

(* ===================================================================== *)
(** * Further properties of the code *)
(* ===================================================================== *)

(** ** [parse_xml_to_db] as a whole *)

(** Nothing is left in the open transaction. *)
Definition settled {Row} (s : Session Row) : Prop :=
  flushed s = [] /\ new s = [].

(** A computation that ends well ends in a state with [Q]. *)
Definition ends_with {Row A} (Q : Session Row -> Prop) (m : M Row A) : Prop :=
  forall s, match m s with
            | (Ok _, s') => Q s'
            | (Raise _, _) => True
            end.

Lemma ends_with_bind {Row A B} (Q : Session Row -> Prop)
    (m : M Row A) (k : A -> M Row B) :
  (forall a, ends_with Q (k a)) -> ends_with Q (bind m k).
Proof.
  intros Hk s. unfold bind. destruct (m s) as [[a|e] s1]; [apply Hk | exact I].
Qed.

Lemma commit_settles {Row} fault assign_id :
  ends_with settled (@commit Row fault assign_id).
Proof.
  intros s. unfold commit, bind, round_trip.
  destruct (fault (ops s)); simpl; [exact I | split; reflexivity].
Qed.

Lemma query_stays_settled {Row} fault assign_id (s : Session Row) :
  settled s -> settled (snd (query fault assign_id s)).
Proof.
  intros [Hf Hn]. unfold query, bind, round_trip.
  destruct (fault (ops s)); simpl; [split; assumption|].
  unfold write_pending. simpl. rewrite Hf, Hn. split; reflexivity.
Qed.

Lemma rollback_settles {Row} (s : Session Row) : settled (snd (rollback s)).
Proof. split; reflexivity. Qed.

Lemma boba_log_statistics_settled fault refs s :
  settled s -> settled (snd (Boba.log_statistics fault refs s)).
Proof.
  intros Hs. unfold Boba.log_statistics, bind.
  pose proof (query_stays_settled fault Boba.assign_id s Hs) as H1.
  destruct (query fault Boba.assign_id s) as [[rows|e] s1]; simpl in *;
    [|exact H1].
  destruct (List.find _ _); [|exact H1].
  pose proof (query_stays_settled fault Boba.assign_id s1 H1) as H2.
  destruct (query fault Boba.assign_id s1) as [[rows2|e] s2]; simpl in *;
    [|exact H2].
  pose proof (query_stays_settled fault Boba.assign_id s2 H2) as H3.
  destruct (query fault Boba.assign_id s2) as [[rows3|e] s3]; simpl in *;
    exact H3.
Qed.

Lemma boba_log_statistics_same fault refs :
  same (Boba.log_statistics fault refs).
Proof.
  unfold Boba.log_statistics.
  apply same_bind; [apply query_same|]. intros _.
  destruct (List.find _ _); [|apply same_raise].
  apply same_bind; [apply query_same|]. intros _.
  apply same_bind; [apply query_same|]. intros _. apply same_ret.
Qed.

(** X1: [parse_xml_to_db] of boba.py never raises, whatever the store's
    faults and the file: it answers [True] or [False], leaves nothing in
    the open transaction, neither flushed nor pending, and leaves the rows
    that were committed before it as a prefix of the committed rows. *)
Theorem boba_parse_xml_to_db_safe
    (fault : nat -> bool) (int_eq_text : Z -> str -> bool) (refs : Boba.Refs)
    (xml_file : XmlFile) (s : Session Boba.Row) :
  exists b s',
    Boba.parse_xml_to_db fault int_eq_text refs xml_file s = (Ok b, s')
    /\ flushed s' = [] /\ new s' = []
    /\ committed s `prefix_of` committed s'.
Proof.
  unfold Boba.parse_xml_to_db.
  set (cache := Boba.build_cache (Boba.organization_types refs)).
  set (run := bind _ _).
  assert (Hgrow : keeps committed_grows run).
  { unfold run.
    apply keeps_bind; [apply committed_grows_trans| |].
    { intros s0. apply committed_same_grows, query_same. }
    intros _. apply keeps_bind; [apply committed_grows_trans| |].
    { apply keeps_getsize, committed_grows_refl. }
    intros _. apply keeps_bind; [apply committed_grows_trans| |].
    { apply keeps_for_iterparse;
        [apply committed_grows_refl | apply committed_grows_trans |].
      intros elem. apply boba_record_step_grows. }
    intros _. apply keeps_bind; [apply committed_grows_trans| |].
    { apply commit_grows. }
    intros _ s0. apply committed_same_grows, boba_log_statistics_same. }
  assert (Hend : ends_with settled run).
  { unfold run. apply ends_with_bind. intros _.
    apply ends_with_bind. intros _.
    apply ends_with_bind. intros _.
    intros s0. unfold bind.
    pose proof (commit_settles fault Boba.assign_id s0) as Hc.
    destruct (commit fault Boba.assign_id s0) as [[[]|e] s1]; [|exact I].
    pose proof (boba_log_statistics_settled fault refs s1 Hc) as Hl.
    destruct (Boba.log_statistics fault refs s1) as [[[]|e] s2];
      [exact Hl | exact I]. }
  specialize (Hgrow s). specialize (Hend s).
  destruct (run s) as [[[]|e] s1]; simpl in *.
  - exists true, s1. destruct Hend as [Hf Hn]. auto.
  - exists false. eexists. split; [reflexivity|]. simpl. auto.
Qed.

Lemma proekt_parse_run_settles strptime fault xml_file :
  ends_with settled
    (do_ getsize xml_file;
     do_ for_iterparse xml_file (ProektMAI.record_step strptime fault);
     commit fault ProektMAI.assign_id).
Proof.
  apply ends_with_bind. intros _. apply ends_with_bind. intros _.
  apply commit_settles.
Qed.

(** X2: [parse_xml_to_db] of proektMAI.py never raises either, leaves
    nothing in the open transaction and keeps the rows committed before
    it.  For a file that is not there it answers [False] at once.
    Otherwise every element the parser delivers gets its turn; the answer
    is [True] exactly when the document is well formed and the final commit
    goes through, and then every row that was flushed or pending after the
    loop is committed; on [False] the committed rows are those the loop
    left. *)
Theorem proekt_parse_xml_to_db_safe
    (strptime : str -> str -> option datetime) (fault : nat -> bool)
    (xml_file : XmlFile) (s : Session ProektMAI.Row) :
  exists b s',
    ProektMAI.parse_xml_to_db strptime fault xml_file s = (Ok b, s')
    /\ flushed s' = [] /\ new s' = []
    /\ committed s `prefix_of` committed s'
    /\ match xml_file with
       | NoFile => b = false /\ committed s' = committed s
       | Xml events well_formed =>
           exists s1,
             for_each events (ProektMAI.record_step strptime fault) s
             = (Ok tt, s1)
             /\ b = well_formed && negb (fault (ops s1))
             /\ committed s' =
                  if b
                  then visible s1
                       ++ write_rows ProektMAI.assign_id (visible s1) (new s1)
                  else committed s1
       end.
Proof.
  unfold ProektMAI.parse_xml_to_db.
  destruct xml_file as [|events well_formed].
  { exists false. eexists. split; [reflexivity|]. cbn [flushed new committed].
    auto. }
  destruct (loop_goes_through events (ProektMAI.record_step strptime fault) s
              (proekt_record_step_never_raises strptime fault)
              (proekt_record_step_grows strptime fault))
    as (s1 & Hloop & Hpre).
  unfold getsize, for_iterparse, bind, ret. rewrite Hloop.
  destruct well_formed.
  - unfold commit, bind, round_trip.
    destruct (fault (ops s1)) eqn:Hf; simpl.
    + exists false. eexists. split; [reflexivity|]. simpl.
      split; [reflexivity|]. split; [reflexivity|]. split; [exact Hpre|].
      exists s1. rewrite Hf. auto.
    + exists true. eexists. split; [reflexivity|]. simpl.
      split; [reflexivity|]. split; [reflexivity|]. split.
      { unfold visible. simpl. etrans; [exact Hpre|].
        apply prefix_app_r. reflexivity. }
      exists s1. rewrite Hf. split; [reflexivity|]. split; [reflexivity|].
      unfold visible, write_pending. simpl. rewrite app_assoc. reflexivity.
  - exists false. eexists. split; [reflexivity|]. simpl.
    split; [reflexivity|]. split; [reflexivity|]. split; [exact Hpre|].
    exists s1. auto.
Qed.

(** ** boba.py: when a record commits *)

Definition drained {Row} (s : Session Row) : Prop := new s = [].

Lemma query_drains {Row} fault assign_id :
  ends_with drained (@query Row fault assign_id).
Proof.
  intros s. unfold query, bind, round_trip.
  destruct (fault (ops s)); simpl; [exact I | reflexivity].
Qed.

Lemma ends_with_then_ret {Row A B} (Q : Session Row -> Prop)
    (m : M Row A) (f : A -> B) :
  ends_with Q m -> ends_with Q (bind m (fun a => ret (f a))).
Proof.
  intros Hm s. unfold bind, ret. specialize (Hm s).
  destruct (m s) as [[a|e] s1]; [exact Hm | exact I].
Qed.

Lemma form_code_some (form_name : str) :
  exists c, Boba.form_code form_name = Some c.
Proof. destruct (form_code_result form_name) as [-> | ->]; eauto. Qed.

(** A program that is built leaves nothing pending: its form query made
    the session flush. *)
Lemma process_program_drains fault refs prog_elem :
  ends_with drained (Boba.process_program fault refs prog_elem).
Proof.
  unfold Boba.process_program.
  apply ends_with_bind. intros level_id.
  destruct (form_code_some
              (lower (Boba.safe_text (find prog_elem (u "EducationForm")) [])))
    as [c ->].
  apply ends_with_then_ret.
  apply ends_with_then_ret.
  unfold Boba.first_form. apply ends_with_then_ret. apply query_drains.
Qed.

Definition add_program fault refs (org_id : option Z) (prog_elem : Element)
  : M Boba.Row unit :=
  do program <- Boba.process_program fault refs prog_elem;
  add (Boba.ProgRow (Boba.set_organization_id org_id program)).

Lemma add_program_one_pending fault refs org_id prog_elem :
  ends_with (fun s => length (new s) = 1%nat)
            (add_program fault refs org_id prog_elem).
Proof.
  intros s. unfold add_program, bind.
  pose proof (process_program_drains fault refs prog_elem s) as H.
  destruct (Boba.process_program fault refs prog_elem s) as [[p|e] s1];
    [|exact I].
  simpl. unfold drained in H. rewrite H. reflexivity.
Qed.

Lemma programs_loop_one_pending fault refs org_id (progs : list Element) :
  progs <> [] ->
  ends_with (fun s => length (new s) = 1%nat)
            (for_each progs (add_program fault refs org_id)).
Proof.
  induction progs as [|p rest IH]; intros Hne; [congruence|].
  destruct rest as [|q rest'].
  - simpl. intros s. unfold bind, ret.
    pose proof (add_program_one_pending fault refs org_id p s) as H.
    destruct (add_program fault refs org_id p s) as [[[]|e] s1]; exact H.
  - cbn [for_each]. apply ends_with_bind. intros _. apply IH. congruence.
Qed.

Lemma programs_loop_same fault refs org_id (progs : list Element) :
  same (for_each progs (add_program fault refs org_id)).
Proof.
  apply same_for_each. intros prog_elem. unfold add_program.
  apply same_bind; [apply boba_process_program_same|].
  intros program s. reflexivity.
Qed.

(** With a program in the record, the commit test sees one pending row
    and does not commit. *)
Lemma programs_tail_same fault refs org_id (progs : list Element) s :
  progs <> [] ->
  committed
    (snd ((do_ for_each progs (add_program fault refs org_id);
           do n <- len_new;
           if (n mod 100 =? 0)%nat then commit fault Boba.assign_id
           else ret tt) s))
  = committed s.
Proof.
  intros Hne. unfold bind at 1.
  pose proof (programs_loop_one_pending fault refs org_id progs Hne s) as H1.
  pose proof (programs_loop_same fault refs org_id progs s) as H2.
  destruct (for_each progs (add_program fault refs org_id) s) as [[[]|e] s1];
    simpl in *; [|exact H2].
  unfold bind, len_new. rewrite H1. exact H2.
Qed.

Lemma boba_body_with_programs fault int_eq_text refs cache elem s :
  Boba.programs_of_record elem <> [] ->
  committed (snd (Boba.record_body fault int_eq_text refs cache elem s))
  = committed s.
Proof.
  intros Hne. unfold Boba.record_body.
  destruct (Boba.process_organization _ _ _) as [org|]; [|reflexivity].
  destruct (Boba.o_org_type org) as [org_type|]; [|reflexivity].
  destruct (_ && _); [reflexivity|].
  unfold bind at 1. cbn [add].
  unfold bind at 1.
  match goal with
  | |- context [flush fault Boba.assign_id ?st] =>
      pose proof (flush_same fault Boba.assign_id st) as Hfl;
      destruct (flush fault Boba.assign_id st) as [[[]|e] s1]
  end; simpl in Hfl; [|exact Hfl].
  unfold bind at 1. cbn [Boba.flushed_org_id].
  unfold bind at 1.
  match goal with
  | |- context [(if ?b then ?m else ret tt) s1] =>
      assert (Hbr : same (if b then m else ret tt))
  end.
  { destruct (Boba.truthy _); [|apply same_ret].
    apply same_bind; [apply boba_first_parent_same|].
    intros [parent|]; [apply boba_set_parent_same | apply same_ret]. }
  specialize (Hbr s1).
  match goal with
  | |- context [(if ?b then ?m else ret tt) s1] =>
      destruct ((if b then m else ret tt) s1) as [[[]|e] s2]
  end; simpl in Hbr; unfold committed_same in *; simpl in Hfl, Hbr;
    [|simpl; congruence].
  fold (add_program fault refs
          (match last (Boba.orgs_of (flushed s1)) with
           | Some o => Boba.o_id o
           | None => None
           end)).
  rewrite programs_tail_same by exact Hne. congruence.
Qed.

Section NoProgram.
Variable fault : nat -> bool.
Variable int_eq_text : Z -> str -> bool.
Variable refs : Boba.Refs.
Hypothesis no_fault : forall n, fault n = false.

Lemma write_rows_length {Row} (assign : list Row -> Row -> Row) held pending :
  length (write_rows assign held pending) = length pending.
Proof.
  revert held. induction pending as [|r rest IH]; intros held; simpl;
    [reflexivity | rewrite IH; reflexivity].
Qed.

(** The branch handling, when nothing is pending: it ends well and keeps
    the committed rows, the number of flushed rows and the empty pending
    list. *)
Lemma branch_part_keeps (is_branch : bool) head org_id (s1 : Session Boba.Row) :
  new s1 = [] ->
  exists s2,
    (if is_branch
     then do parent <- Boba.first_parent fault int_eq_text head;
          match parent with
          | Some parent => Boba.set_parent org_id (Boba.o_id parent)
          | None => ret tt
          end
     else ret tt) s1 = (Ok tt, s2)
    /\ new s2 = [] /\ committed s2 = committed s1
    /\ length (flushed s2) = length (flushed s1).
Proof.
  intros Hn. destruct is_branch; [|exists s1; auto].
  unfold bind, Boba.first_parent, bind.
  rewrite query_eq by exact no_fault. cbn zeta. unfold ret.
  unfold write_pending. cbn [committed flushed new ops rollbacks].
  rewrite Hn. cbn [write_rows]. rewrite app_nil_r.
  destruct (List.find _ _) as [parent|]; [|eexists; split; [reflexivity|]; auto].
  unfold Boba.set_parent. destruct (Boba.o_id parent) as [pid|];
    [|eexists; split; [reflexivity|]; auto].
  unfold update_flushed. eexists. split; [reflexivity|].
  cbn [committed flushed new]. rewrite length_map. auto.
Qed.

Lemma boba_body_without_programs cache elem org s :
  Boba.programs_of_record elem = [] ->
  Boba.process_organization elem cache (Boba.programs_of_record elem)
    = Some org ->
  Boba.kept_by_filter org = true ->
  exists s',
    Boba.record_body fault int_eq_text refs cache elem s = (Ok tt, s')
    /\ flushed s' = [] /\ new s' = []
    /\ length (committed s')
       = (length (committed s) + length (flushed s) + length (new s) + 1)%nat.
Proof.
  intros Hnone Horg Hkept.
  destruct (process_organization_fresh _ _ _ _ Horg) as (_ & _ & t & Ht).
  unfold Boba.record_body. rewrite Horg, Ht.
  rewrite (filter_condition org t Ht), Hkept. cbn [negb].
  rewrite Hnone. cbn [for_each].
  unfold bind at 1. cbn [add].
  unfold bind at 1. rewrite flush_eq by exact no_fault.
  unfold bind at 1. cbn [Boba.flushed_org_id].
  unfold bind at 1.
  match goal with
  | |- context [(if Boba.truthy ?b then ?m else ret tt) ?st] =>
      destruct (branch_part_keeps (Boba.truthy b) (Boba.o_HeadEduOrgId org)
                  (match last (Boba.orgs_of (flushed st)) with
                   | Some o => Boba.o_id o
                   | None => None
                   end) st eq_refl)
        as (s2 & Hb & Hn2 & Hc2 & Hl2)
  end.
  rewrite Hb. unfold bind at 1. cbn [ret]. unfold bind at 1. cbn [len_new].
  rewrite Hn2. cbn [length].
  change ((0 mod 100 =? 0)%nat) with true. cbv iota.
  unfold commit, bind. rewrite round_trip_ok_eq by exact no_fault.
  eexists. split; [reflexivity|]. cbn [flushed new committed].
  split; [reflexivity|]. split; [reflexivity|].
  unfold visible, write_pending. cbn [committed flushed new].
  rewrite Hn2. cbn [write_rows]. rewrite app_nil_r.
  rewrite length_app, Hc2, Hl2.
  unfold write_pending, visible. cbn [committed flushed new].
  rewrite length_app, write_rows_length, length_app. simpl. lia.
Qed.
End NoProgram.

(** X3: in boba.py the commit test [len(session.new) % 100 == 0] sees what is
    pending after the programs of the record, and every program query
    flushes what was pending before it.  So a record with at least one
    program never commits, whatever the store does: its turn leaves the
    committed rows as they are.  And a record with no program whose
    organization passes the filter commits at once when the store does not
    raise: nothing stays flushed or pending, and the committed rows grow by
    all the rows that were flushed or pending, plus the organization. *)
Theorem boba_commits_only_without_programs
    (fault : nat -> bool) (int_eq_text : Z -> str -> bool) (refs : Boba.Refs)
    (cache : gmap str Boba.OrganizationType) (elem : Element)
    (s : Session Boba.Row) :
  (Boba.programs_of_record elem <> [] ->
     committed (snd (Boba.record_step fault int_eq_text refs cache elem s))
     = committed s)
  /\ (forall org,
        (forall n, fault n = false) ->
        Boba.programs_of_record elem = [] ->
        Boba.process_organization elem cache [] = Some org ->
        Boba.kept_by_filter org = true ->
        exists s',
          Boba.record_body fault int_eq_text refs cache elem s = (Ok tt, s')
          /\ flushed s' = [] /\ new s' = []
          /\ length (committed s')
             = (length (committed s) + length (flushed s) + length (new s)
                + 1)%nat).
Proof.
  split.
  - intros Hne. unfold Boba.record_step.
    destruct (endswith _ _); [|reflexivity].
    unfold try_except.
    pose proof (boba_body_with_programs fault int_eq_text refs cache elem s Hne)
      as H.
    destruct (Boba.record_body fault int_eq_text refs cache elem s)
      as [[[]|e] s1]; simpl in *; exact H.
  - intros org Hfault Hnone Horg Hkept.
    apply (boba_body_without_programs fault int_eq_text refs Hfault cache
             elem org s Hnone); [|exact Hkept].
    rewrite Hnone. exact Horg.
Qed.

(** X3 at work: a further certificate of the university with its two programs
    leaves the committed rows as they are, and a certificate of a second
    university without programs is committed at once. *)
Lemma boba_commits_only_without_programs_witness :
  committed
    (snd (Boba.record_step Sample.no_fault Sample.int_eq_text Sample.refs
            Sample.cache Fixture.with_programs Sample.boba_after_one))
  = committed Sample.boba_after_one
  /\ exists s',
       Boba.record_body Sample.no_fault Sample.int_eq_text Sample.refs
         Sample.cache (Sample.university "7702") Sample.boba_after_one
       = (Ok tt, s')
       /\ flushed s' = [] /\ new s' = []
       /\ length (committed s')
          = (length (committed Sample.boba_after_one)
             + length (flushed Sample.boba_after_one)
             + length (new Sample.boba_after_one) + 1)%nat.
Proof.
  split.
  - apply (proj1 (boba_commits_only_without_programs Sample.no_fault
                    Sample.int_eq_text Sample.refs Sample.cache
                    Fixture.with_programs Sample.boba_after_one)).
    vm_compute. discriminate.
  - eapply (proj2 (boba_commits_only_without_programs Sample.no_fault
                     Sample.int_eq_text Sample.refs Sample.cache
                     (Sample.university "7702") Sample.boba_after_one));
      [intros n; reflexivity | vm_compute; reflexivity..].
Defined.

(** ** The state file: one entry per file *)

Lemma save_state_written {Store : Type} (state : gmap str str) (w : World Store) :
  write_outcome w = Written ->
  load_state (save_state state w) = state
  /\ write_outcome (save_state state w) = Written
  /\ store (save_state state w) = store w.
Proof. intros H. unfold save_state. rewrite H. auto. Qed.

Lemma check_for_updates_entries {Store : Type} (file_hash : str -> str)
    (file_path : str) (w : World Store) :
  write_outcome w = Written ->
  let w' := snd (check_for_updates file_hash file_path w) in
  load_state w' = <[file_path := file_hash file_path]> (load_state w)
  /\ write_outcome w' = Written.
Proof.
  intros Hw. cbv zeta.
  destruct (decide (load_state w !! file_path = Some (file_hash file_path)))
    as [H|H].
  - rewrite (check_for_updates_unchanged _ _ _ H). simpl.
    split; [|exact Hw]. symmetry. apply insert_id. exact H.
  - rewrite (check_for_updates_changed _ _ _ H). simpl.
    destruct (save_state_written
                (<[file_path := file_hash file_path]> (load_state w)) w Hw)
      as (H1 & H2 & _).
    auto.
Qed.

(** X4: while the state file can be written, the change detector only touches
    the entry of the file it is asked about: the fingerprint of that file
    becomes the fresh digest and the fingerprint of every other path stays
    what it was.  So after the files [a] and [b] were each checked once, in
    any order of the two, a further check of [a] answers [False] as long as
    its digest is the same. *)
Theorem check_for_updates_keeps_other_entries {Store : Type}
    (file_hash : str -> str) (a b : str) (w : World Store) :
  write_outcome w = Written ->
  a <> b ->
  let w1 := snd (check_for_updates file_hash a w) in
  let w2 := snd (check_for_updates file_hash b w1) in
  load_state w1 !! b = load_state w !! b
  /\ load_state w1 !! a = Some (file_hash a)
  /\ load_state w2 !! a = Some (file_hash a)
  /\ load_state w2 !! b = Some (file_hash b)
  /\ check_for_updates file_hash a w2 = (false, w2).
Proof.
  intros Hw Hab w1 w2.
  destruct (check_for_updates_entries file_hash a w Hw) as [H1 Hw1].
  fold w1 in H1, Hw1.
  destruct (check_for_updates_entries file_hash b w1 Hw1) as [H2 Hw2].
  fold w2 in H2, Hw2.
  assert (Ha1 : load_state w1 !! a = Some (file_hash a))
    by (rewrite H1; apply lookup_insert_eq).
  assert (Ha2 : load_state w2 !! a = Some (file_hash a))
    by (rewrite H2, lookup_insert_ne by congruence; exact Ha1).
  split; [rewrite H1; apply lookup_insert_ne; exact Hab|].
  split; [exact Ha1|]. split; [exact Ha2|].
  split; [rewrite H2; apply lookup_insert_eq|].
  apply check_for_updates_unchanged. exact Ha2.
Qed.

(** X4 at work: after the data file and a second file were checked on a first
    run, the data file counts as unchanged. *)
Lemma check_for_updates_keeps_other_entries_witness :
  write_outcome Sample.first_run = Written
  /\ (let w1 := snd (check_for_updates Sample.digest Sample.xml_path
                       Sample.first_run) in
      let w2 := snd (check_for_updates Sample.digest Fixture.other_path w1) in
      load_state w1 !! Fixture.other_path
      = load_state Sample.first_run !! Fixture.other_path
      /\ load_state w1 !! Sample.xml_path
         = Some (Sample.digest Sample.xml_path)
      /\ load_state w2 !! Sample.xml_path
         = Some (Sample.digest Sample.xml_path)
      /\ load_state w2 !! Fixture.other_path
         = Some (Sample.digest Fixture.other_path)
      /\ check_for_updates Sample.digest Sample.xml_path w2 = (false, w2)).
Proof.
  split; [reflexivity|].
  exact (check_for_updates_keeps_other_entries Sample.digest Sample.xml_path
           Fixture.other_path Sample.first_run eq_refl
           ltac:(vm_compute; discriminate)).
Defined.

(** X5: when the state file is missing or cannot be loaded, every file counts
    as changed, and a successful write then records that file alone; when
    the dump fails after the file was truncated, the next load finds no
    fingerprint at all, for any path. *)
Theorem state_file_lost_entries {Store : Type} (file_hash : str -> str)
    (file_path other : str) (w : World Store) :
  (state_file w = Absent \/ state_file w = Unreadable ->
     fst (check_for_updates file_hash file_path w) = true
     /\ (write_outcome w = Written ->
           load_state (snd (check_for_updates file_hash file_path w))
           = {[ file_path := file_hash file_path ]}))
  /\ (write_outcome w = DumpFails ->
      load_state w !! file_path <> Some (file_hash file_path) ->
      load_state (snd (check_for_updates file_hash file_path w)) !! other
      = None).
Proof.
  split.
  - intros Hs.
    assert (He : load_state w = ∅)
      by (unfold load_state; destruct Hs as [-> | ->]; reflexivity).
    assert (Hn : load_state w !! file_path <> Some (file_hash file_path))
      by (rewrite He, lookup_empty; discriminate).
    rewrite (check_for_updates_changed _ _ _ Hn). simpl.
    split; [reflexivity|]. intros Hw.
    destruct (save_state_written
                (<[file_path := file_hash file_path]> (load_state w)) w Hw)
      as (H1 & _). rewrite H1, He. reflexivity.
  - intros Hw Hn. rewrite (check_for_updates_changed _ _ _ Hn). simpl.
    unfold save_state. rewrite Hw. unfold load_state. simpl.
    apply lookup_empty.
Qed.

(** X5 at work: on a first run the data file counts as changed, and when the
    dump fails no path has a fingerprint afterwards. *)
Lemma state_file_lost_entries_witness :
  fst (check_for_updates Sample.digest Sample.xml_path Sample.first_run) = true
  /\ load_state (snd (check_for_updates Sample.digest Sample.xml_path
                        Fixture.dump_fails_run)) !! Fixture.other_path
     = None.
Proof.
  split.
  - exact (proj1 (proj1 (state_file_lost_entries Sample.digest Sample.xml_path
                           Fixture.other_path Sample.first_run)
                        (or_introl eq_refl))).
  - apply (proj2 (state_file_lost_entries Sample.digest Sample.xml_path
                    Fixture.other_path Fixture.dump_fails_run));
      [reflexivity | vm_compute; discriminate].
Defined.

(** ** [find_xml_file] *)

Lemma startswith_app_r (p s t : str) :
  startswith p s = true -> startswith p (s ++ t) = true.
Proof.
  intros H. apply startswith_spec in H as [b ->].
  rewrite <- app_assoc. apply startswith_app.
Qed.

Lemma endswith_app_l (p s t : str) :
  endswith p s = true -> endswith p (t ++ s) = true.
Proof.
  unfold endswith. intros H. rewrite rev_app_distr.
  apply startswith_app_r, H.
Qed.

(** A joined path ends the way its last component does. *)
Lemma endswith_path_join (p a b : str) :
  endswith p b = true -> endswith p (path_join a b) = true.
Proof.
  intros H. unfold path_join.
  destruct (startswith [slash] b); [exact H|].
  destruct a as [|c a']; [exact H|].
  destruct (endswith [slash] (c :: a')).
  - apply endswith_app_l, H.
  - replace ((c :: a') ++ slash :: b) with (((c :: a') ++ [slash]) ++ b)
      by (rewrite <- app_assoc; reflexivity).
    apply (endswith_app_l p b ((c :: a') ++ [slash])), H.
Qed.

Lemma first_xml_spec (root : str) (files : list str) :
  match first_xml root files with
  | Some path =>
      exists before file after,
        files = before ++ file :: after
        /\ path = path_join root file
        /\ endswith (u ".xml") file = true
        /\ Forall (fun f => endswith (u ".xml") f = false) before
  | None => Forall (fun f => endswith (u ".xml") f = false) files
  end.
Proof.
  induction files as [|f rest IH]; simpl; [constructor|].
  destruct (endswith (u ".xml") f) eqn:E.
  - exists [], f, rest. repeat split; [exact E | constructor].
  - destruct (first_xml root rest) as [path|].
    + destruct IH as (before & file & after & -> & -> & Hf & Hb).
      exists (f :: before), file, after. repeat split; [exact Hf|].
      constructor; assumption.
    + constructor; assumption.
Qed.

Lemma first_xml_of_walk_spec (yielded : list (str * list str)) :
  match first_xml_of_walk yielded with
  | Some path =>
      exists before root files after,
        yielded = before ++ (root, files) :: after
        /\ first_xml root files = Some path
        /\ Forall (fun y => first_xml (fst y) (snd y) = None) before
  | None => Forall (fun y => first_xml (fst y) (snd y) = None) yielded
  end.
Proof.
  induction yielded as [|[root files] rest IH]; simpl; [constructor|].
  destruct (first_xml root files) as [path|] eqn:E.
  - exists [], root, files, rest. repeat split; [exact E | constructor].
  - destruct (first_xml_of_walk rest) as [path|].
    + destruct IH as (before & root' & files' & after & -> & Hf & Hb).
      exists ((root, files) :: before), root', files', after.
      repeat split; [exact Hf|]. constructor; assumption.
    + constructor; assumption.
Qed.

(** X6: [find_xml_file] answers [None] exactly when the directory does not
    exist or no file name anywhere below it ends in ".xml" (in lower case:
    the test is [endswith('.xml')]).  Otherwise it answers a path that ends
    in ".xml", joined from a directory that [os.walk] yields and a file
    name of that directory; a file of the top directory is preferred to
    every file below it. *)
Theorem find_xml_file_result (directory : str) (found : option Dir) :
  (find_xml_file directory found = None <->
     found = None
     \/ exists d, found = Some d
          /\ forall root files file,
               (root, files) ∈ walk directory d -> file ∈ files ->
               endswith (u ".xml") file = false)
  /\ (forall path, find_xml_file directory found = Some path ->
        endswith (u ".xml") path = true
        /\ exists d root files file,
             found = Some d /\ (root, files) ∈ walk directory d
             /\ file ∈ files /\ endswith (u ".xml") file = true
             /\ path = path_join root file)
  /\ (forall files dirs file,
        found = Some (mk_dir files dirs) ->
        file ∈ files -> endswith (u ".xml") file = true ->
        exists top, top ∈ files /\ endswith (u ".xml") top = true
          /\ find_xml_file directory found = Some (path_join directory top)).
Proof.
  split; [|split].
  - destruct found as [d|]; simpl; [|split; auto].
    pose proof (first_xml_of_walk_spec (walk directory d)) as H.
    split.
    + intros Hnone. rewrite Hnone in H. right. exists d. split; [reflexivity|].
      intros root files file Hy Hf.
      rewrite Forall_forall in H. specialize (H _ Hy). simpl in H.
      pose proof (first_xml_spec root files) as H2. rewrite H in H2.
      rewrite Forall_forall in H2. apply H2, Hf.
    + intros [Hd | (d' & [= <-] & Hall)]; [discriminate|].
      destruct (first_xml_of_walk (walk directory d)) as [path|];
        [|reflexivity].
      destruct H as (before & root & files & after & Hw & Hf & _).
      pose proof (first_xml_spec root files) as H2. rewrite Hf in H2.
      destruct H2 as (b & file & a & -> & _ & Hx & _).
      rewrite (Hall root (b ++ file :: a) file) in Hx; [discriminate| |].
      * rewrite Hw, elem_of_app, elem_of_cons. auto.
      * rewrite elem_of_app, elem_of_cons. auto.
  - intros path. destruct found as [d|]; simpl; [|discriminate].
    intros Hp.
    pose proof (first_xml_of_walk_spec (walk directory d)) as H.
    rewrite Hp in H.
    destruct H as (before & root & files & after & Hw & Hf & _).
    pose proof (first_xml_spec root files) as H2. rewrite Hf in H2.
    destruct H2 as (b & file & a & -> & -> & Hx & _).
    split; [apply endswith_path_join, Hx|].
    exists d, root, (b ++ file :: a), file.
    repeat split; [| |exact Hx].
    + rewrite Hw, elem_of_app, elem_of_cons. auto.
    + rewrite elem_of_app, elem_of_cons. auto.
  - intros files dirs file -> Hin Hx. simpl.
    pose proof (first_xml_spec directory files) as H.
    destruct (first_xml directory files) as [path|].
    + destruct H as (b & top & a & -> & -> & Ht & _).
      exists top. repeat split; [|exact Ht].
      rewrite elem_of_app, elem_of_cons. auto.
    + rewrite Forall_forall in H. rewrite (H file Hin) in Hx. discriminate.
Qed.

(** X6 at work: in the unpacked cache the data file one level down is found,
    the archive and the note in capitals at the top are passed over, and a
    missing directory gives nothing. *)
Lemma find_xml_file_result_witness :
  find_xml_file (u "cache") (Some Fixture.cache_dir)
    = Some (u "cache/opendata/data.xml")
  /\ endswith (u ".xml") (u "cache/opendata/data.xml") = true
  /\ find_xml_file (u "cache") None = None.
Proof.
  assert (H : find_xml_file (u "cache") (Some Fixture.cache_dir)
              = Some (u "cache/opendata/data.xml"))
    by (vm_compute; reflexivity).
  split; [exact H|]. split.
  - exact (proj1 (proj1 (proj2 (find_xml_file_result (u "cache")
                                  (Some Fixture.cache_dir)))
                        (u "cache/opendata/data.xml") H)).
  - exact (proj2 (proj1 (find_xml_file_result (u "cache") None))
                 (or_introl eq_refl)).
Defined.

(** ** boba.py: [initialize_database] runs once *)

(** The literals are compared as they are written, not decoded, in the
    proofs below; what has to be computed is computed by [vm_compute]. *)
#[local] Opaque u.

Lemma taken_app types extra seed :
  BobaRun.taken (types ++ extra) seed
  = BobaRun.taken types seed || BobaRun.taken extra seed.
Proof. apply existsb_app. Qed.

Lemma insert_org_types_taken types seeds seed :
  In seed seeds -> BobaRun.taken types seed = true ->
  BobaRun.insert_org_types types seeds = None.
Proof.
  revert types. induction seeds as [|s0 rest IH]; intros types Hin Ht;
    [destruct Hin|].
  simpl. destruct (BobaRun.taken types s0) eqn:E; [reflexivity|].
  destruct Hin as [-> | Hin]; [congruence|].
  apply IH; [exact Hin|]. rewrite taken_app, Ht. reflexivity.
Qed.

Lemma insert_org_types_some types seeds types' :
  BobaRun.insert_org_types types seeds = Some types' ->
  exists extra,
    types' = types ++ extra
    /\ map (fun t => (Boba.ot_name t, Boba.ot_code t)) extra = seeds.
Proof.
  revert types. induction seeds as [|s0 rest IH]; intros types; simpl.
  - intros [= <-]. exists []. rewrite app_nil_r. auto.
  - destruct (BobaRun.taken types s0); [discriminate|]. intros H.
    destruct (IH _ H) as (extra & -> & Hm).
    eexists (_ :: extra). rewrite <- app_assoc. split; [reflexivity|].
    simpl. rewrite Hm. destruct s0; reflexivity.
Qed.

Lemma already_seeded_spec refs :
  BobaRun.already_seeded refs = true <->
  exists seed, In seed BobaRun.org_types
    /\ BobaRun.taken (Boba.organization_types refs) seed = true.
Proof. apply existsb_exists. Qed.

Lemma seeded_none refs :
  BobaRun.already_seeded refs = true -> BobaRun.seeded refs = None.
Proof.
  intros H. apply already_seeded_spec in H as (seed & Hin & Ht).
  unfold BobaRun.seeded.
  rewrite (insert_org_types_taken _ _ _ Hin Ht). reflexivity.
Qed.

Lemma seeded_some refs refs' :
  BobaRun.seeded refs = Some refs' -> BobaRun.already_seeded refs' = true.
Proof.
  rewrite already_seeded_spec. unfold BobaRun.seeded.
  destruct (BobaRun.insert_org_types _ _) as [types|] eqn:E; [|discriminate].
  intros H.
  apply (f_equal (fun o => match o with
                           | Some r => Boba.organization_types r
                           | None => []
                           end)) in H.
  cbn [Boba.organization_types] in H. symmetry in H. rename H into Ht. apply insert_org_types_some in E as (extra & -> & Hm).
  destruct extra as [|t extra]; [discriminate|].
  exists (u "высшее образование", u "higher"). split; [left; reflexivity|].
  rewrite Ht, taken_app.
  assert (Hhd : (Boba.ot_name t, Boba.ot_code t)
                = (u "высшее образование", u "higher"))
    by exact (f_equal (hd ([], [])) Hm).
  assert (Hn : Boba.ot_name t = u "высшее образование")
    by exact (f_equal fst Hhd).
  unfold BobaRun.taken at 2. cbn [existsb fst snd].
  unfold str_eqb at 1. rewrite Hn.
  rewrite bool_decide_eq_true_2 by reflexivity.
  rewrite !orb_true_r. reflexivity.
Qed.

(** The three seeds do not collide with each other: the store takes them
    whenever none is taken yet. *)
Lemma seeded_fresh refs :
  BobaRun.already_seeded refs = false ->
  exists refs', BobaRun.seeded refs = Some refs'.
Proof.
  intros Hn. unfold BobaRun.seeded.
  assert (Hfree : forall seed, In seed BobaRun.org_types ->
            BobaRun.taken (Boba.organization_types refs) seed = false).
  { intros seed Hin.
    destruct (BobaRun.taken _ seed) eqn:E; [|reflexivity].
    assert (BobaRun.already_seeded refs = true)
      by (apply already_seeded_spec; exists seed; auto).
    congruence. }
  unfold BobaRun.org_types in *. cbn [BobaRun.insert_org_types].
  rewrite (Hfree _ (or_introl eq_refl)).
  rewrite taken_app, (Hfree _ (or_intror (or_introl eq_refl))).
  match goal with
  | |- context [BobaRun.taken [?row] ?seed] =>
      replace (BobaRun.taken [row] seed) with false
        by (unfold BobaRun.taken; cbn [existsb fst snd Boba.ot_name Boba.ot_code];
            vm_compute; reflexivity)
  end. cbn [orb].
  rewrite !taken_app,
    (Hfree _ (or_intror (or_intror (or_introl eq_refl)))).
  repeat match goal with
  | |- context [BobaRun.taken [?row] ?seed] =>
      replace (BobaRun.taken [row] seed) with false
        by (unfold BobaRun.taken; cbn [existsb fst snd Boba.ot_name Boba.ot_code];
            vm_compute; reflexivity)
  end.
  cbn [orb]. eexists. reflexivity.
Qed.

Section RunFacts.
Variable fault : nat -> bool.
Variable int_eq_text : Z -> str -> bool.
Variable file_at : str -> XmlFile.

Lemma initialize_database_seeded refs (s : Session Boba.Row) :
  BobaRun.already_seeded refs = true ->
  BobaRun.initialize_database fault refs s
  = (Raise StoreError,
     mk_session (committed s) (flushed s) (new s) (S (ops s)) (rollbacks s)).
Proof.
  intros H. unfold BobaRun.initialize_database.
  rewrite (seeded_none refs H). unfold bind, round_trip, raise.
  destruct (fault (ops s)); reflexivity.
Qed.

Lemma ingest_seeded xml_file refs rows :
  BobaRun.already_seeded refs = true ->
  BobaRun.ingest fault int_eq_text file_at xml_file (refs, rows) = (refs, rows).
Proof.
  intros H. unfold BobaRun.ingest.
  rewrite (initialize_database_seeded refs _ H). reflexivity.
Qed.

Lemma ingest_changes xml_file refs rows :
  BobaRun.ingest fault int_eq_text file_at xml_file (refs, rows) = (refs, rows)
  \/ BobaRun.already_seeded
       (fst (BobaRun.ingest fault int_eq_text file_at xml_file (refs, rows)))
     = true.
Proof.
  unfold BobaRun.ingest, BobaRun.initialize_database.
  destruct (BobaRun.seeded refs) as [refs'|] eqn:E.
  - apply seeded_some in E. unfold bind, commit, bind, round_trip.
    cbn [ops]. destruct (fault 0%nat); [left; reflexivity|].
    right. cbn [ret].
    destruct (Boba.parse_xml_to_db _ _ _ _ _) as [[[|]|e] s2];
      [destruct (BobaRun.count_rows fault s2) as [[?|?] s3]| |]; exact E.
  - left. unfold bind, round_trip, raise. cbn [ops].
    destruct (fault 0%nat); reflexivity.
Qed.
End RunFacts.

(** X7: [initialize_database] inserts its seeds through [session.merge] of
    objects that have no key, and [organization_types.name] and [.code]
    are unique: on reference tables that hold none of the three types it
    succeeds when the commit goes through, and on tables that already hold
    one of them, by name or by code, it raises and inserts nothing.  In
    particular it raises whenever it is run on the tables it produced. *)
Theorem initialize_database_once
    (fault : nat -> bool) (refs : Boba.Refs) (s : Session Boba.Row) :
  (BobaRun.already_seeded refs = true ->
     fst (BobaRun.initialize_database fault refs s) = Raise StoreError
     /\ committed (snd (BobaRun.initialize_database fault refs s))
        = committed s)
  /\ (BobaRun.already_seeded refs = false -> fault (ops s) = false ->
      exists refs',
        fst (BobaRun.initialize_database fault refs s) = Ok refs'
        /\ map Boba.ot_code (Boba.organization_types refs')
           = map Boba.ot_code (Boba.organization_types refs)
             ++ [u "higher"; u "secondary_pro"; u "secondary"]
        /\ length (Boba.education_levels refs')
           = (length (Boba.education_levels refs) + 4)%nat
        /\ length (Boba.education_forms refs')
           = (length (Boba.education_forms refs) + 4)%nat)
  /\ (forall refs' fault' s',
        fst (BobaRun.initialize_database fault refs s) = Ok refs' ->
        fst (BobaRun.initialize_database fault' refs' s') = Raise StoreError).
Proof.
  split; [|split].
  - intros H. rewrite (initialize_database_seeded fault refs s H). auto.
  - intros Hn Hf. destruct (seeded_fresh refs Hn) as [refs' E].
    exists refs'. unfold BobaRun.initialize_database. rewrite E.
    unfold bind, commit, bind, round_trip. rewrite Hf. cbn [fst ret].
    split; [reflexivity|].
    unfold BobaRun.seeded in E.
    destruct (BobaRun.insert_org_types _ _) as [types|] eqn:Et; [|discriminate].
    injection E as <-. cbn [Boba.organization_types Boba.education_levels
                            Boba.education_forms].
    apply insert_org_types_some in Et as (extra & -> & Hm).
    split.
    + rewrite map_app. f_equal.
      apply (f_equal (map snd)) in Hm. rewrite map_map in Hm. exact Hm.
    + unfold BobaRun.edu_levels, BobaRun.edu_forms.
      cbn [BobaRun.insert_levels BobaRun.insert_forms].
      rewrite !length_app. simpl. split; lia.
  - intros refs' fault' s' H.
    unfold BobaRun.initialize_database in H.
    destruct (BobaRun.seeded refs) as [r|] eqn:E.
    + assert (r = refs').
      { unfold bind, commit, bind, round_trip in H.
        destruct (fault (ops s)); simpl in H; congruence. }
      subst r. apply seeded_some in E.
      rewrite (initialize_database_seeded fault' refs' s' E). reflexivity.
    + unfold bind, round_trip, raise in H.
      destruct (fault (ops s)); simpl in H; discriminate.
Qed.

(** X7 at work: on the seeded tables [initialize_database] raises, and on
    the tables of a new database it inserts the three types. *)
Lemma initialize_database_once_witness :
  fst (BobaRun.initialize_database Sample.no_fault Sample.refs
         Sample.boba_session) = Raise StoreError
  /\ exists refs',
       fst (BobaRun.initialize_database Sample.no_fault Fixture.no_refs
              Sample.boba_session) = Ok refs'
       /\ map Boba.ot_code (Boba.organization_types refs')
          = map Boba.ot_code (Boba.organization_types Fixture.no_refs)
            ++ [u "higher"; u "secondary_pro"; u "secondary"]
       /\ length (Boba.education_levels refs')
          = (length (Boba.education_levels Fixture.no_refs) + 4)%nat
       /\ length (Boba.education_forms refs')
          = (length (Boba.education_forms Fixture.no_refs) + 4)%nat.
Proof.
  split.
  - apply (proj1 (initialize_database_once Sample.no_fault Sample.refs
                    Sample.boba_session)).
    vm_compute. reflexivity.
  - apply (proj1 (proj2 (initialize_database_once Sample.no_fault
                           Fixture.no_refs Sample.boba_session)));
      [vm_compute; reflexivity | reflexivity].
Defined.

(** X8: what [main] of boba.py does to a database after the gate changes it at
    most once: either the ingestion leaves the database as it was, or it
    leaves the reference tables seeded, and on seeded tables every later
    ingestion, of any file and whatever the store does, leaves the database
    as it is, because [initialize_database] raises before the file is
    parsed.  So [main] leaves the store of a seeded database unchanged even
    for a file whose digest changed. *)
Theorem boba_ingest_at_most_once
    (fault fault' : nat -> bool) (int_eq_text : Z -> str -> bool)
    (file_at file_at' : str -> XmlFile) (file_hash : str -> str)
    (xml_file xml_file' : str) (db : Boba.Refs * list Boba.Row) :
  let db1 := BobaRun.ingest fault int_eq_text file_at xml_file db in
  (db1 = db
   \/ BobaRun.ingest fault' int_eq_text file_at' xml_file' db1 = db1)
  /\ (forall w : World (Boba.Refs * list Boba.Row),
        BobaRun.already_seeded (fst (store w)) = true ->
        store (main file_hash (BobaRun.ingest fault int_eq_text file_at)
                    (Some xml_file) w)
        = store w).
Proof.
  intros db1. split.
  - destruct db as [refs rows].
    destruct (ingest_changes fault int_eq_text file_at xml_file refs rows)
      as [H|H]; [left; exact H|].
    right. fold db1 in H. destruct db1 as [refs1 rows1].
    apply ingest_seeded. exact H.
  - intros w Hs. unfold main.
    destruct (check_for_updates file_hash xml_file w) as [[|] w'] eqn:E.
    + cbn [store].
      assert (Hst : store w' = store w).
      { unfold check_for_updates in E.
        destruct (load_state w !! xml_file) as [h|];
          [destruct (str_eqb h (file_hash xml_file))|];
          try discriminate E; injection E as <-;
          unfold save_state; destruct (write_outcome w); reflexivity. }
      rewrite Hst. destruct (store w) as [refs rows].
      apply ingest_seeded. exact Hs.
    + unfold check_for_updates in E.
      destruct (load_state w !! xml_file) as [h|];
        [destruct (str_eqb h (file_hash xml_file))|];
        try discriminate E; injection E as <-; reflexivity.
Qed.

(** X8 at work: [main] on a seeded database leaves the store as it is, though
    the data file is new to the state file. *)
Lemma boba_ingest_at_most_once_witness :
  store (main Sample.digest
           (BobaRun.ingest Sample.no_fault Sample.int_eq_text
              (fun _ => Xml [Fixture.with_programs] true))
           (Some Sample.xml_path) Fixture.seeded_run)
  = store Fixture.seeded_run.
Proof.
  apply (proj2 (boba_ingest_at_most_once Sample.no_fault Sample.no_fault
                  Sample.int_eq_text (fun _ => Xml [Fixture.with_programs] true)
                  (fun _ => Xml [Fixture.with_programs] true) Sample.digest
                  Sample.xml_path Sample.xml_path (Fixture.no_refs, []))).
  vm_compute. reflexivity.
Defined.

(** ** boba.py: programs point to their organization *)

Lemma org_ids_app (a b : list Boba.Row) :
  Boba.org_ids (a ++ b) = Boba.org_ids a ++ Boba.org_ids b.
Proof. apply flat_map_app. Qed.

Lemma progs_of_app (a b : list Boba.Row) :
  Boba.progs_of (a ++ b) = Boba.progs_of a ++ Boba.progs_of b.
Proof. apply flat_map_app. Qed.

Lemma linked_more (rows more : list Boba.Row) p :
  linked rows p = true -> linked (rows ++ more) p = true.
Proof.
  unfold linked. destruct (Boba.p_organization_id p) as [i|]; [|discriminate].
  rewrite !bool_decide_eq_true, org_ids_app, elem_of_app. auto.
Qed.

Lemma linked_same_ids (rows rows' : list Boba.Row) p :
  Boba.org_ids rows' = Boba.org_ids rows ->
  linked rows' p = linked rows p.
Proof. intros H. unfold linked. rewrite H. reflexivity. Qed.

Lemma Forall_linked_more (rows more : list Boba.Row) ps :
  Forall (fun p => linked rows p = true) ps ->
  Forall (fun p => linked (rows ++ more) p = true) ps.
Proof.
  intros H. eapply Forall_impl; [exact H|]. intros p. apply linked_more.
Qed.

(** Writing rows numbers them and keeps what the programs point to. *)
Lemma write_rows_progs (Q : option Z -> Prop) held pending :
  Forall (fun p => Q (Boba.p_organization_id p)) (Boba.progs_of pending) ->
  Forall (fun p => Q (Boba.p_organization_id p))
         (Boba.progs_of (write_rows Boba.assign_id held pending)).
Proof.
  revert held. induction pending as [|[o|p] rest IH]; intros held H; simpl.
  - constructor.
  - apply IH. exact H.
  - simpl in H. inversion H; subst. constructor; [assumption|].
    apply IH. assumption.
Qed.

Lemma write_rows_linked rows held pending :
  Forall (fun p => linked rows p = true) (Boba.progs_of pending) ->
  Forall (fun p => linked rows p = true)
         (Boba.progs_of (write_rows Boba.assign_id held pending)).
Proof.
  apply (write_rows_progs
           (fun oid => match oid with
                       | Some i => bool_decide (i ∈ Boba.org_ids rows)
                       | None => false
                       end = true)).
Qed.

Lemma write_pending_linked (s : Session Boba.Row) :
  programs_linked s -> programs_linked (write_pending Boba.assign_id s).
Proof.
  intros [Hc Hp]. split; [exact Hc|].
  unfold write_pending, visible in *. cbn [committed flushed new].
  rewrite app_nil_r. rewrite progs_of_app, Forall_app in Hp.
  destruct Hp as [Hf Hn].
  rewrite progs_of_app, Forall_app. rewrite !app_assoc. split.
  - apply Forall_linked_more, Hf.
  - apply Forall_linked_more, write_rows_linked, Hn.
Qed.

Lemma org_ids_reparent org_id pid (l : list Boba.Row) :
  Boba.org_ids
    (map (fun r => match r with
                   | Boba.OrgRow o =>
                       if bool_decide (Boba.o_id o = org_id)
                       then Boba.OrgRow (Boba.set_parent_id pid o)
                       else r
                   | Boba.ProgRow _ => r
                   end) l)
  = Boba.org_ids l.
Proof.
  unfold Boba.org_ids.
  induction l as [|[o|p] l IH]; cbn [map flat_map]; [reflexivity| |exact IH].
  rewrite IH. destruct (bool_decide _); reflexivity.
Qed.

Lemma progs_of_reparent org_id pid (l : list Boba.Row) :
  Boba.progs_of
    (map (fun r => match r with
                   | Boba.OrgRow o =>
                       if bool_decide (Boba.o_id o = org_id)
                       then Boba.OrgRow (Boba.set_parent_id pid o)
                       else r
                   | Boba.ProgRow _ => r
                   end) l)
  = Boba.progs_of l.
Proof.
  unfold Boba.progs_of.
  induction l as [|[o|p] l IH]; cbn [map flat_map]; [reflexivity| |].
  - rewrite IH. destruct (bool_decide _); reflexivity.
  - rewrite IH. reflexivity.
Qed.

Definition stays_linked (s s' : Session Boba.Row) : Prop :=
  programs_linked s -> programs_linked s'.

Lemma stays_linked_refl s : stays_linked s s.
Proof. intros H; exact H. Qed.

Lemma stays_linked_trans s1 s2 s3 :
  stays_linked s1 s2 -> stays_linked s2 s3 -> stays_linked s1 s3.
Proof. unfold stays_linked. auto. Qed.

Section Linked.
Variable fault : nat -> bool.
Variable int_eq_text : Z -> str -> bool.
Variable refs : Boba.Refs.

Lemma linked_bind {A B} (m : M Boba.Row A) (k : A -> M Boba.Row B) :
  keeps stays_linked m -> (forall a, keeps stays_linked (k a)) ->
  keeps stays_linked (bind m k).
Proof. apply keeps_bind, stays_linked_trans. Qed.

Lemma linked_ret {A} (a : A) : keeps stays_linked (@ret Boba.Row A a).
Proof. apply keeps_ret, stays_linked_refl. Qed.

Lemma linked_query : keeps stays_linked (query fault Boba.assign_id).
Proof.
  intros s H. unfold query, bind, round_trip.
  destruct (fault (ops s)); simpl; [exact H|].
  apply (write_pending_linked (mk_session _ _ _ _ _)). exact H.
Qed.

Lemma linked_flush : keeps stays_linked (flush fault Boba.assign_id).
Proof.
  intros s H. unfold flush, bind, round_trip.
  destruct (fault (ops s)); simpl; [exact H|].
  apply (write_pending_linked (mk_session _ _ _ _ _)). exact H.
Qed.

Lemma linked_commit : keeps stays_linked (commit fault Boba.assign_id).
Proof.
  intros s H. unfold commit, bind, round_trip.
  destruct (fault (ops s)); simpl; [exact H|].
  destruct (write_pending_linked
              (mk_session (committed s) (flushed s) (new s) (S (ops s))
                          (rollbacks s)) H) as [Hc Hp].
  unfold write_pending, visible in *. cbn [committed flushed new] in *.
  rewrite app_nil_r in Hp.
  split; cbn [committed flushed new]; [|constructor].
  rewrite progs_of_app, Forall_app. split; [|exact Hp].
  apply Forall_linked_more, Hc.
Qed.

Lemma linked_rollback : keeps stays_linked (@rollback Boba.Row).
Proof.
  intros s [Hc _]. split; [exact Hc | constructor].
Qed.

Lemma linked_add_org o : keeps stays_linked (add (Boba.OrgRow o)).
Proof.
  intros s [Hc Hp]. split; [exact Hc|].
  unfold visible in *. cbn [add snd committed flushed new].
  rewrite app_assoc, progs_of_app. cbn [Boba.progs_of flat_map app].
  rewrite app_nil_r. exact Hp.
Qed.

Lemma linked_set_parent org_id parent_id :
  keeps stays_linked (Boba.set_parent org_id parent_id).
Proof.
  unfold Boba.set_parent. destruct parent_id as [pid|]; [|apply linked_ret].
  intros s [Hc Hp]. split; [exact Hc|].
  unfold visible, update_flushed in *. cbn [snd committed flushed new].
  rewrite progs_of_app, progs_of_reparent, <- progs_of_app.
  eapply Forall_impl; [exact Hp|]. intros p Hl. cbn beta in Hl.
  rewrite <- Hl. apply linked_same_ids.
  rewrite !org_ids_app, org_ids_reparent. reflexivity.
Qed.

Lemma linked_process_program prog_elem :
  keeps stays_linked (Boba.process_program fault refs prog_elem).
Proof.
  unfold Boba.process_program, Boba.first_level, Boba.first_form.
  apply linked_bind.
  { destruct (Boba.level_code _); [|apply linked_ret].
    apply linked_bind; [|intros; apply linked_ret].
    apply linked_bind; [apply linked_query | intros; apply linked_ret]. }
  intros level_id. apply linked_bind.
  { destruct (Boba.form_code _); [|apply linked_ret].
    apply linked_bind; [|intros; apply linked_ret].
    apply linked_bind; [apply linked_query | intros; apply linked_ret]. }
  intros form_id. apply linked_ret.
Qed.

(** The key [i] is that of an organization the session sees. *)
Definition sees (i : Z) (s : Session Boba.Row) : Prop :=
  i ∈ Boba.org_ids (visible s).

Definition linked_and_sees (i : Z) (s s' : Session Boba.Row) : Prop :=
  programs_linked s /\ sees i s -> programs_linked s' /\ sees i s'.

Lemma las_trans i s1 s2 s3 :
  linked_and_sees i s1 s2 -> linked_and_sees i s2 s3 -> linked_and_sees i s1 s3.
Proof. unfold linked_and_sees. auto. Qed.

Lemma las_refl i s : linked_and_sees i s s.
Proof. intros H; exact H. Qed.

(** An operation that keeps the links and only adds to what the session
    sees, or changes no key. *)
Lemma las_of i {A} (m : M Boba.Row A) :
  keeps stays_linked m ->
  (forall s, sees i s -> sees i (snd (m s))) ->
  keeps (linked_and_sees i) m.
Proof. intros H1 H2 s [Hl Hs]. split; [apply H1, Hl | apply H2, Hs]. Qed.

Lemma sees_write_pending i (s : Session Boba.Row) :
  sees i s -> sees i (write_pending Boba.assign_id s).
Proof.
  unfold sees, visible, write_pending. cbn [committed flushed].
  rewrite !org_ids_app, !elem_of_app. tauto.
Qed.

Lemma sees_query i s : sees i s -> sees i (snd (query fault Boba.assign_id s)).
Proof.
  intros H. unfold query, bind, round_trip.
  destruct (fault (ops s)); simpl; [exact H|].
  apply (sees_write_pending i (mk_session _ _ _ _ _)). exact H.
Qed.

Lemma sees_commit i s : sees i s -> sees i (snd (commit fault Boba.assign_id s)).
Proof.
  intros H. unfold commit, bind, round_trip.
  destruct (fault (ops s)); simpl; [exact H|].
  apply (sees_write_pending i (mk_session (committed s) (flushed s) (new s)
                                          (S (ops s)) (rollbacks s))) in H.
  unfold sees, visible in *. cbn [committed flushed] in *.
  rewrite app_nil_r. exact H.
Qed.

Lemma las_bind i {A B} (m : M Boba.Row A) (k : A -> M Boba.Row B) :
  keeps (linked_and_sees i) m -> (forall a, keeps (linked_and_sees i) (k a)) ->
  keeps (linked_and_sees i) (bind m k).
Proof. apply keeps_bind, las_trans. Qed.

Lemma las_ret i {A} (a : A) : keeps (linked_and_sees i) (@ret Boba.Row A a).
Proof. apply keeps_ret, las_refl. Qed.

Lemma las_query i : keeps (linked_and_sees i) (query fault Boba.assign_id).
Proof. apply las_of; [apply linked_query | apply sees_query]. Qed.

Lemma las_process_program i prog_elem :
  keeps (linked_and_sees i) (Boba.process_program fault refs prog_elem).
Proof.
  unfold Boba.process_program, Boba.first_level, Boba.first_form.
  apply las_bind.
  { destruct (Boba.level_code _); [|apply las_ret].
    apply las_bind; [|intros; apply las_ret].
    apply las_bind; [apply las_query | intros; apply las_ret]. }
  intros level_id. apply las_bind.
  { destruct (Boba.form_code _); [|apply las_ret].
    apply las_bind; [|intros; apply las_ret].
    apply las_bind; [apply las_query | intros; apply las_ret]. }
  intros form_id. apply las_ret.
Qed.

Lemma las_add_program i program :
  keeps (linked_and_sees i)
        (add (Boba.ProgRow (Boba.set_organization_id (Some i) program))).
Proof.
  intros s [[Hc Hp] Hs]. split; [|exact Hs]. split; [exact Hc|].
  cbn [add snd]. unfold visible in *. cbn [committed flushed new].
  rewrite app_assoc, progs_of_app, Forall_app. split; [exact Hp|].
  cbn [Boba.progs_of flat_map app]. constructor; [|constructor].
  unfold linked. cbn [Boba.set_organization_id Boba.p_organization_id].
  apply bool_decide_eq_true. exact Hs.
Qed.

Lemma las_set_parent i org_id parent_id :
  keeps (linked_and_sees i) (Boba.set_parent org_id parent_id).
Proof.
  apply las_of; [apply linked_set_parent|].
  unfold Boba.set_parent. destruct parent_id as [pid|]; [|auto].
  intros s. unfold sees, visible, update_flushed. cbn [snd committed flushed].
  rewrite !org_ids_app, org_ids_reparent. auto.
Qed.

(** What follows the flush in the body of a record, for the key [i] of
    the organization. *)
Lemma las_after_flush i (is_branch : bool) head (progs : list Element) :
  keeps (linked_and_sees i)
    (do_ (if is_branch
          then do parent <- Boba.first_parent fault int_eq_text head;
               match parent with
               | Some parent => Boba.set_parent (Some i) (Boba.o_id parent)
               | None => ret tt
               end
          else ret tt);
     do_ for_each progs (fun prog_elem =>
           do program <- Boba.process_program fault refs prog_elem;
           add (Boba.ProgRow (Boba.set_organization_id (Some i) program)));
     do n <- len_new;
     if (n mod 100 =? 0)%nat then commit fault Boba.assign_id else ret tt).
Proof.
  apply las_bind.
  { destruct is_branch; [|apply las_ret].
    apply las_bind.
    { unfold Boba.first_parent.
      apply las_bind; [apply las_query | intros; apply las_ret]. }
    intros [parent|]; [apply las_set_parent | apply las_ret]. }
  intros _. apply las_bind.
  { apply keeps_for_each; [apply las_refl | apply las_trans |].
    intros prog_elem. apply las_bind; [apply las_process_program|].
    intros program. apply las_add_program. }
  intros _. apply las_bind; [intros s H; exact H|]. intros n.
  destruct (_ =? _)%nat; [|apply las_ret].
  apply las_of; [apply linked_commit | apply sees_commit].
Qed.

Lemma last_org_written (flushed0 written : list Boba.Row) held org :
  last (Boba.orgs_of
          ((flushed0 ++ written) ++ [Boba.assign_id held (Boba.OrgRow org)]))
  = Some (Boba.set_org_id (Boba.next_id (Boba.org_ids held)) org).
Proof.
  rewrite orgs_of_app. cbn [Boba.assign_id Boba.orgs_of flat_map app].
  apply last_snoc.
Qed.

Lemma bind_cases {Row A B} (m : M Row A) (k : A -> M Row B)
    (s : Session Row) (P : Session Row -> Prop) :
  (forall a s1, m s = (Ok a, s1) -> P (snd (k a s1))) ->
  (forall e s1, m s = (Raise e, s1) -> P s1) ->
  P (snd (bind m k s)).
Proof.
  intros Hok Hraise. unfold bind.
  destruct (m s) as [[a|e] s1]; [apply (Hok a s1) | apply (Hraise e s1)];
    reflexivity.
Qed.

Lemma org_id_seen i o (rows : list Boba.Row) :
  o ∈ Boba.orgs_of rows -> Boba.o_id o = Some i -> i ∈ Boba.org_ids rows.
Proof.
  intros Hin Hid. unfold Boba.orgs_of, Boba.org_ids in *.
  induction rows as [|[o'|p] rows IH]; cbn [flat_map] in *.
  - inversion Hin.
  - apply elem_of_app. apply elem_of_app in Hin as [Hin|Hin].
    + apply list_elem_of_singleton in Hin as <-. left. rewrite Hid. left.
    + right. apply IH, Hin.
  - apply IH, Hin.
Qed.

Lemma linked_record_body cache elem :
  keeps stays_linked (Boba.record_body fault int_eq_text refs cache elem).
Proof.
  unfold Boba.record_body.
  destruct (Boba.process_organization _ _ _) as [org|]; [|apply linked_ret].
  destruct (Boba.o_org_type org) as [org_type|]; [|apply linked_ret].
  destruct (_ && _); [apply linked_ret|].
  intros s H.
  apply bind_cases; [|intros e s0 E; discriminate E].
  intros [] s0 E. injection E as E.
  assert (H0 : programs_linked s0)
    by (rewrite <- E; apply (linked_add_org org s H)).
  apply bind_cases;
    [|intros e s1 E1; pose proof (linked_flush s0 H0) as H1;
      rewrite E1 in H1; exact H1].
  intros [] s1 E1.
  assert (H1 : programs_linked s1)
    by (pose proof (linked_flush s0 H0) as H1; rewrite E1 in H1; exact H1).
  apply bind_cases; [|intros e s2 E2; discriminate E2].
  intros org_id s2 E2. injection E2 as Eid <-.
  assert (Hlast : exists i,
             last (Boba.orgs_of (flushed s1)) = Some (Boba.set_org_id i org)).
  { unfold flush, bind, round_trip in E1.
    destruct (fault (ops s0)); [discriminate E1|].
    injection E1 as <-. unfold write_pending.
    cbn [flushed committed new ops rollbacks].
    rewrite <- E. cbn [new]. rewrite write_rows_snoc, app_assoc.
    eexists. apply last_org_written. }
  destruct Hlast as [i Hlast]. rewrite Hlast in Eid.
  cbn [Boba.set_org_id Boba.o_id] in Eid. subst org_id.
  assert (Hsees : sees i s1).
  { unfold sees, visible. rewrite org_ids_app, elem_of_app. right.
    apply (org_id_seen i (Boba.set_org_id i org)); [|reflexivity].
    destruct (Boba.orgs_of (flushed s1)) as [|o l _] using rev_ind;
      [discriminate|].
    rewrite last_snoc in Hlast. injection Hlast as ->.
    rewrite elem_of_app, list_elem_of_singleton. auto. }
  apply (las_after_flush i (Boba.truthy (Boba.o_IsBranch org))
           (Boba.o_HeadEduOrgId org) (Boba.programs_of_record elem) s1).
  split; assumption.
Qed.

Lemma linked_record_step cache elem :
  keeps stays_linked (Boba.record_step fault int_eq_text refs cache elem).
Proof.
  unfold Boba.record_step. destruct (endswith _ _); [|apply linked_ret].
  apply keeps_try_except;
    [apply stays_linked_trans | apply linked_record_body | apply linked_rollback].
Qed.

Lemma linked_parse_xml_to_db xml_file :
  keeps stays_linked (Boba.parse_xml_to_db fault int_eq_text refs xml_file).
Proof.
  intros s. unfold Boba.parse_xml_to_db.
  match goal with
  | |- context [match ?run s with _ => _ end] =>
      assert (Hrun : keeps stays_linked run)
  end.
  { apply linked_bind; [apply linked_query|]. intros _.
    apply linked_bind; [apply keeps_getsize, stays_linked_refl|]. intros _.
    apply linked_bind.
    { apply keeps_for_iterparse;
        [apply stays_linked_refl | apply stays_linked_trans |].
      intros elem. apply linked_record_step. }
    intros _. apply linked_bind; [apply linked_commit|]. intros _.
    unfold Boba.log_statistics.
    apply linked_bind; [apply linked_query|]. intros _.
    destruct (List.find _ _); [|apply keeps_raise, stays_linked_refl].
    apply linked_bind; [apply linked_query|]. intros _.
    apply linked_bind; [apply linked_query|]. intros _. apply linked_ret. }
  specialize (Hrun s).
  match goal with
  | |- context [match ?run s with _ => _ end] => destruct (run s) as [[[]|e] s1]
  end; simpl in *; [exact Hrun|].
  intros H. apply (linked_rollback s1), Hrun, H.
Qed.
End Linked.

(** X9: in boba.py a program gets [organization_id = org.id] after the
    organization was flushed, so the key is set.  Whatever the store's
    faults and the document: if every program row of the session points to
    an organization row (committed programs to committed organizations,
    programs of the open transaction to organizations the session sees),
    the same holds after [parse_xml_to_db]; so from an empty session every
    committed program row carries the key of a committed organization
    row. *)
Theorem boba_programs_stay_linked
    (fault : nat -> bool) (int_eq_text : Z -> str -> bool) (refs : Boba.Refs)
    (xml_file : XmlFile) (s : Session Boba.Row) :
  programs_linked s ->
  let s' := snd (Boba.parse_xml_to_db fault int_eq_text refs xml_file s) in
  programs_linked s'
  /\ forall p, p ∈ Boba.progs_of (committed s') ->
       exists i o, Boba.p_organization_id p = Some i
                   /\ o ∈ Boba.orgs_of (committed s')
                   /\ Boba.o_id o = Some i.
Proof.
  intros H s'.
  pose proof (linked_parse_xml_to_db fault int_eq_text refs xml_file s H)
    as H'.
  fold s' in H'. split; [exact H'|].
  intros p Hp. destruct H' as [Hc _]. rewrite Forall_forall in Hc.
  specialize (Hc p Hp). unfold linked in Hc.
  destruct (Boba.p_organization_id p) as [i|]; [|discriminate].
  apply bool_decide_eq_true in Hc. exists i.
  revert Hc. generalize (committed s').
  induction l as [|[o|q] l IH]; simpl; intros Hin.
  - inversion Hin.
  - destruct (Boba.o_id o) as [j|] eqn:Ej.
    + apply elem_of_cons in Hin as [-> | Hin].
      * exists o. split; [reflexivity|]. split; [left | exact Ej].
      * destruct (IH Hin) as (o' & He & Ho & Hi).
        exists o'. split; [exact He|]. split; [right; exact Ho | exact Hi].
    + destruct (IH Hin) as (o' & He & Ho & Hi).
      exists o'. split; [exact He|]. split; [right; exact Ho | exact Hi].
  - apply IH, Hin.
Qed.

(** X9 at work: the empty session has its programs linked, and so has the
    session after the university with its two programs went through. *)
Lemma boba_programs_stay_linked_witness :
  programs_linked Sample.boba_session
  /\ (let s' := snd (Boba.parse_xml_to_db Sample.no_fault Sample.int_eq_text
                       Sample.refs (Xml [Fixture.with_programs] true)
                       Sample.boba_session) in
      programs_linked s'
      /\ forall p, p ∈ Boba.progs_of (committed s') ->
           exists i o, Boba.p_organization_id p = Some i
                       /\ o ∈ Boba.orgs_of (committed s')
                       /\ Boba.o_id o = Some i).
Proof.
  assert (H : programs_linked Sample.boba_session) by (split; constructor).
  split; [exact H|].
  exact (boba_programs_stay_linked Sample.no_fault Sample.int_eq_text
           Sample.refs (Xml [Fixture.with_programs] true) Sample.boba_session
           H).
Defined.

(** ** boba.py: the seeded types are always found *)

Lemma build_cache_snoc types t :
  Boba.build_cache (types ++ [t])
  = <[Boba.ot_code t := t]> (Boba.build_cache types).
Proof. unfold Boba.build_cache. rewrite foldl_app. reflexivity. Qed.

Lemma build_cache_lookup types c t :
  Boba.build_cache types !! c = Some t -> t ∈ types /\ Boba.ot_code t = c.
Proof.
  induction types as [|t0 types IH] using rev_ind.
  - unfold Boba.build_cache. cbn [foldl]. rewrite lookup_empty. discriminate.
  - rewrite build_cache_snoc.
    destruct (decide (Boba.ot_code t0 = c)) as [<-|Hne].
    + rewrite lookup_insert_eq. intros [= <-].
      split; [|reflexivity]. apply elem_of_app. right. left.
    + rewrite lookup_insert_ne by exact Hne. intros H.
      destruct (IH H) as [Hin Hc]. split; [|exact Hc].
      apply elem_of_app. left. exact Hin.
Qed.

Lemma build_cache_found types c t :
  t ∈ types -> Boba.ot_code t = c -> is_Some (Boba.build_cache types !! c).
Proof.
  induction types as [|t0 types IH] using rev_ind; intros Hin Hc.
  - inversion Hin.
  - rewrite build_cache_snoc.
    destruct (decide (Boba.ot_code t0 = c)) as [<-|Hne].
    + rewrite lookup_insert_eq. eexists. reflexivity.
    + rewrite lookup_insert_ne by exact Hne. apply IH; [|exact Hc].
      apply elem_of_app in Hin as [Hin|Hin]; [exact Hin|].
      apply list_elem_of_singleton in Hin. congruence.
Qed.

Lemma programs_type_code_higher programs c :
  Boba.programs_type_code programs = Some c -> c = u "higher".
Proof.
  induction programs as [|p ps IH]; cbn [Boba.programs_type_code];
    [discriminate|].
  destruct (any_in _ _); [intros [= <-]; reflexivity | exact IH].
Qed.

(** The classification answers one of three codes. *)
Lemma org_type_code_range type_name programs :
  Boba.org_type_code type_name programs
    ∈ [u "higher"; u "secondary_pro"; u "secondary"].
Proof.
  unfold Boba.org_type_code.
  destruct (any_in Boba.school_markers type_name);
    [right; right; left|].
  destruct (any_in Boba.higher_markers type_name); [left|].
  assert (Hdef : (if str_in (u "колледж") type_name
                     || str_in (u "техникум") type_name
                  then u "secondary_pro" else u "secondary")
                 ∈ [u "higher"; u "secondary_pro"; u "secondary"]).
  { destruct (_ || _); [right; left | right; right; left]. }
  destruct programs as [|p ps]; [exact Hdef|].
  destruct (Boba.programs_type_code (p :: ps)) as [c|] eqn:E; [|exact Hdef].
  apply programs_type_code_higher in E as ->. left.
Qed.

Lemma initialize_database_codes fault refs s refs' c :
  fst (BobaRun.initialize_database fault refs s) = Ok refs' ->
  c ∈ [u "higher"; u "secondary_pro"; u "secondary"] ->
  exists t, t ∈ Boba.organization_types refs' /\ Boba.ot_code t = c.
Proof.
  intros H Hc. unfold BobaRun.initialize_database in H.
  destruct (BobaRun.seeded refs) as [r|] eqn:E.
  - assert (r = refs').
    { unfold bind, commit, bind, round_trip in H.
      destruct (fault (ops s)); simpl in H; congruence. }
    subst r. unfold BobaRun.seeded in E.
    destruct (BobaRun.insert_org_types _ _) as [types|] eqn:Et; [|discriminate].
    apply (f_equal (fun o => match o with
                             | Some r => Boba.organization_types r
                             | None => []
                             end)) in E.
    cbn [Boba.organization_types] in E. rewrite <- E.
    apply insert_org_types_some in Et as (extra & -> & Hm).
    apply (f_equal (map snd)) in Hm. rewrite map_map in Hm.
    cbn [snd] in Hm.
    change (map snd BobaRun.org_types)
      with [u "higher"; u "secondary_pro"; u "secondary"] in Hm.
    rewrite <- Hm in Hc. apply list_elem_of_fmap in Hc as (t & -> & Hin).
    exists t. split; [|reflexivity]. apply elem_of_app. right. exact Hin.
  - unfold bind, round_trip, raise in H.
    destruct (fault (ops s)); simpl in H; discriminate.
Qed.

(** X10: after [initialize_database] went through, the cache that
    [parse_xml_to_db] builds from the type table holds every code the
    classification can answer: [process_organization] gives up on a
    record only when the record has no ActualEducationOrganization child,
    never for a type that is not in the database; and the type it attaches
    is a row of the table that carries the code of the classification of
    the stored (lowered) TypeName, with [type_id] its key. *)
Theorem seeded_types_always_found
    (fault : nat -> bool) (refs refs' : Boba.Refs) (s : Session Boba.Row)
    (cert_elem : Element) (programs : list Element) :
  fst (BobaRun.initialize_database fault refs s) = Ok refs' ->
  let cache := Boba.build_cache (Boba.organization_types refs') in
  (Boba.process_organization cert_elem cache programs = None <->
     find cert_elem (u "ActualEducationOrganization") = None)
  /\ forall org,
       Boba.process_organization cert_elem cache programs = Some org ->
       exists t,
         Boba.o_org_type org = Some t
         /\ t ∈ Boba.organization_types refs'
         /\ Boba.ot_code t
            = Boba.org_type_code (Boba.o_TypeName org) programs
         /\ Boba.o_type_id org = Some (Boba.ot_id t).
Proof.
  intros H cache. unfold Boba.process_organization.
  destruct (find cert_elem _) as [org_elem|]; [|split; [tauto|discriminate]].
  set (code := Boba.org_type_code _ programs).
  destruct (initialize_database_codes fault refs s refs' code H
              (org_type_code_range _ _)) as (t0 & Hin0 & Hc0).
  destruct (build_cache_found _ _ _ Hin0 Hc0) as [t Ht].
  fold cache in Ht. rewrite Ht. split; [split; discriminate|].
  intros org [= <-]. exists t.
  cbn [Boba.o_org_type Boba.o_TypeName Boba.o_type_id].
  apply build_cache_lookup in Ht as [Hin Hc].
  split; [reflexivity|]. split; [exact Hin|]. split; [exact Hc | reflexivity].
Qed.

(** X10 at work: [initialize_database] on a new database gives the sample
    tables, and the college is then given its type. *)
Lemma seeded_types_always_found_witness :
  fst (BobaRun.initialize_database Sample.no_fault Fixture.no_refs
         Sample.boba_session) = Ok Sample.refs
  /\ (Boba.process_organization Sample.college Sample.cache [] = None <->
        find Sample.college (u "ActualEducationOrganization") = None).
Proof.
  assert (H : fst (BobaRun.initialize_database Sample.no_fault Fixture.no_refs
                     Sample.boba_session) = Ok Sample.refs)
    by (vm_compute; reflexivity).
  split; [exact H|].
  exact (proj1 (seeded_types_always_found Sample.no_fault Fixture.no_refs
                  Sample.refs Sample.boba_session Sample.college [] H)).
Defined.

(** ** A record without organization: skipped in boba.py, an error in
    proektMAI.py *)

Lemma for_each_app {Row A} (xs ys : list A) (body : A -> M Row unit) s :
  for_each (xs ++ ys) body s
  = match for_each xs body s with
    | (Ok _, s1) => for_each ys body s1
    | (Raise e, s1) => (Raise e, s1)
    end.
Proof.
  revert s. induction xs as [|x xs IH]; intros s; [reflexivity|].
  cbn [app for_each]. unfold bind.
  destruct (body x s) as [[[]|e] s1]; [apply IH | reflexivity].
Qed.

(** X11: in boba.py a record with no ActualEducationOrganization child is
    skipped and the session stays as it is.  In proektMAI.py
    [process_organization] answers [None] for it and [session.add(None)]
    raises, so the handler rolls back: the turn ends with nothing pending,
    and that drops the rows of every earlier record that were waiting for a
    commit.  A document that ends in such a record, well formed or not,
    commits none of the rows that were pending before it, rows that are
    committed when the well-formed document ends one record earlier. *)
Theorem record_without_organization
    (strptime : str -> str -> option datetime) (fault : nat -> bool)
    (int_eq_text : Z -> str -> bool) (refs : Boba.Refs)
    (cache : gmap str Boba.OrganizationType)
    (elems : list Element) (bad : Element) (well_formed : bool)
    (s : Session ProektMAI.Row) (s_boba : Session Boba.Row) :
  endswith (u "Certificate") (tag bad) = true ->
  find bad (u "ActualEducationOrganization") = None ->
  Boba.record_step fault int_eq_text refs cache bad s_boba = (Ok tt, s_boba)
  /\ ProektMAI.record_step strptime fault bad s
     = (Ok tt, mk_session (committed s) [] [] (ops s) (S (rollbacks s)))
  /\ exists s1,
       for_each elems (ProektMAI.record_step strptime fault) s = (Ok tt, s1)
       /\ committed
            (snd (ProektMAI.parse_xml_to_db strptime fault
                    (Xml (elems ++ [bad]) well_formed) s))
          = committed s1
       /\ (fault (ops s1) = false ->
           committed
             (snd (ProektMAI.parse_xml_to_db strptime fault
                     (Xml elems true) s))
           = visible s1
             ++ write_rows ProektMAI.assign_id (visible s1) (new s1)).
Proof.
  intros Htag Hmiss.
  assert (Hstep : forall s0,
            ProektMAI.record_step strptime fault bad s0
            = (Ok tt, mk_session (committed s0) [] [] (ops s0)
                                 (S (rollbacks s0)))).
  { intros s0. unfold ProektMAI.record_step. rewrite Htag.
    unfold ProektMAI.record_body, ProektMAI.process_organization.
    rewrite Hmiss. reflexivity. }
  split; [|split; [apply Hstep|]].
  { unfold Boba.record_step. rewrite Htag.
    unfold Boba.record_body, Boba.process_organization. rewrite Hmiss.
    reflexivity. }
  destruct (for_each_never_raises elems
              (ProektMAI.record_step strptime fault)
              (proekt_record_step_never_raises strptime fault) s) as [[] Hok].
  destruct (for_each elems (ProektMAI.record_step strptime fault) s)
    as [r s1] eqn:Hloop.
  cbn [fst] in Hok. subst r. exists s1. split; [reflexivity|]. split.
  - unfold ProektMAI.parse_xml_to_db, getsize, for_iterparse, bind, ret.
    rewrite for_each_app, Hloop.
    cbn [for_each]. unfold bind. rewrite Hstep. cbn [ret].
    destruct well_formed; [|reflexivity].
    unfold commit, bind, round_trip. cbn [ops].
    destruct (fault (ops s1)); [reflexivity|].
    unfold visible, write_pending.
    cbn [snd committed flushed new write_rows]. rewrite !app_nil_r.
    reflexivity.
  - intros Hf.
    unfold ProektMAI.parse_xml_to_db, getsize, for_iterparse, bind, ret.
    rewrite Hloop.
    unfold commit, bind, round_trip. rewrite Hf.
    unfold visible, write_pending. cbn [snd committed flushed new].
    rewrite app_assoc. reflexivity.
Qed.

(** X11 at work: the record with no organization is skipped by boba.py and
    rolls the session back in proektMAI.py. *)
Lemma record_without_organization_witness :
  Boba.record_step Sample.no_fault Sample.int_eq_text Sample.refs Sample.cache
    Sample.no_organization Sample.boba_after_one
  = (Ok tt, Sample.boba_after_one)
  /\ ProektMAI.record_step Strptime.strptime Sample.no_fault
       Sample.no_organization Sample.proekt_session
     = (Ok tt, mk_session (committed Sample.proekt_session) [] []
                          (ops Sample.proekt_session)
                          (S (rollbacks Sample.proekt_session))).
Proof.
  destruct (record_without_organization Strptime.strptime Sample.no_fault
              Sample.int_eq_text Sample.refs Sample.cache
              [Sample.university "7701"] Sample.no_organization true
              Sample.proekt_session Sample.boba_after_one
              ltac:(vm_compute; reflexivity) ltac:(vm_compute; reflexivity))
    as (H1 & H2 & _).
  split; [exact H1 | exact H2].
Defined.

(** ** boba.py: what [parse_xml_to_db] answers *)

Section Answer.
Variable fault : nat -> bool.
Variable int_eq_text : Z -> str -> bool.
Variable refs : Boba.Refs.

Lemma log_statistics_raises s :
  List.find (fun t => str_eqb (Boba.ot_code t) (u "higher"))
            (Boba.organization_types refs) = None ->
  exists e, fst (Boba.log_statistics fault refs s) = Raise e.
Proof.
  intros H. unfold Boba.log_statistics. rewrite H.
  unfold bind, query, bind, round_trip, raise.
  destruct (fault (ops s)); eexists; reflexivity.
Qed.

Lemma log_statistics_ok s :
  (forall n, fault n = false) ->
  List.find (fun t => str_eqb (Boba.ot_code t) (u "higher"))
            (Boba.organization_types refs) <> None ->
  fst (Boba.log_statistics fault refs s) = Ok tt.
Proof.
  intros Hf H. unfold Boba.log_statistics.
  destruct (List.find _ _); [clear H | congruence].
  unfold bind. rewrite query_eq by exact Hf. cbv beta iota zeta.
  rewrite query_eq by exact Hf. cbv beta iota zeta.
  rewrite query_eq by exact Hf. reflexivity.
Qed.
End Answer.

(** X12: [parse_xml_to_db] of boba.py answers [False] for a file that is
    not there and for a document that is not well formed, whatever the
    store does.  It looks up the type coded 'higher' for its statistics
    after the final commit, and reads [.id] of what [first()] answers:
    when the type table has no such row the attribute access raises, so
    the function answers [False] for every file.  On a well-formed
    document, when the store does not raise, the final commit goes through
    and leaves nothing pending, the committed rows are those of that
    commit whatever the answer is, and the answer is [True] when the table
    has a type coded 'higher': without one the function answers [False]
    although all its rows are committed. *)
Theorem boba_parse_xml_to_db_answer
    (fault : nat -> bool) (int_eq_text : Z -> str -> bool) (refs : Boba.Refs)
    (xml_file : XmlFile) (s : Session Boba.Row) :
  let higher :=
    List.find (fun t => str_eqb (Boba.ot_code t) (u "higher"))
              (Boba.organization_types refs) in
  let cache := Boba.build_cache (Boba.organization_types refs) in
  let answer := Boba.parse_xml_to_db fault int_eq_text refs xml_file s in
  (higher = None -> fst answer = Ok false)
  /\ (xml_file = NoFile \/ (exists events, xml_file = Xml events false) ->
      fst answer = Ok false)
  /\ (forall events,
        xml_file = Xml events true ->
        (forall n, fault n = false) ->
        exists s1,
          (do _ <- query fault Boba.assign_id;
           do_ for_each events
                 (Boba.record_step fault int_eq_text refs cache);
           commit fault Boba.assign_id) s = (Ok tt, s1)
          /\ flushed s1 = [] /\ new s1 = []
          /\ committed (snd answer) = committed s1
          /\ (higher <> None -> fst answer = Ok true)).
Proof.
  intros higher cache answer. split; [|split].
  - intros Hnone. unfold answer, Boba.parse_xml_to_db. fold cache.
    unfold bind at 1.
    destruct (query fault Boba.assign_id s) as [[rows|e] s0]; [|reflexivity].
    unfold bind at 1.
    destruct (getsize xml_file s0) as [[[]|e] s0']; [|reflexivity].
    unfold bind at 1.
    destruct (for_iterparse xml_file _ s0') as [[[]|e] s1]; [|reflexivity].
    unfold bind at 1.
    destruct (commit fault Boba.assign_id s1) as [[[]|e] s2]; [|reflexivity].
    destruct (log_statistics_raises fault refs s2 Hnone) as [e He].
    destruct (Boba.log_statistics fault refs s2) as [r s3].
    cbn [fst] in He. subst r. reflexivity.
  - intros Hfile. unfold answer, Boba.parse_xml_to_db. fold cache.
    unfold bind at 1.
    destruct (query fault Boba.assign_id s) as [[rows|e] s0]; [|reflexivity].
    destruct Hfile as [-> | [events ->]].
    + reflexivity.
    + unfold getsize, for_iterparse, bind, ret.
      destruct (for_each_never_raises events
                  (Boba.record_step fault int_eq_text refs cache)
                  (boba_record_step_never_raises fault int_eq_text refs cache)
                  s0) as [[] Hok].
      destruct (for_each events _ s0) as [r s1].
      cbn [fst] in Hok. subst r. reflexivity.
  - intros events -> Hf.
    destruct (for_each_never_raises events
                (Boba.record_step fault int_eq_text refs cache)
                (boba_record_step_never_raises fault int_eq_text refs cache)
                (snd (query fault Boba.assign_id s))) as [[] Hok].
    destruct (for_each events _ (snd (query fault Boba.assign_id s)))
      as [r s0] eqn:Hloop.
    cbn [fst] in Hok. subst r.
    rewrite query_eq in Hloop by exact Hf. cbv zeta in Hloop. cbn [snd] in Hloop.
    set (s1 := mk_session
                 (visible (write_pending Boba.assign_id
                             (mk_session (committed s0) (flushed s0) (new s0)
                                         (S (ops s0)) (rollbacks s0))))
                 [] [] (S (ops s0)) (rollbacks s0)).
    assert (Hrun : (do _ <- query fault Boba.assign_id;
                    do_ for_each events
                          (Boba.record_step fault int_eq_text refs cache);
                    commit fault Boba.assign_id) s = (Ok tt, s1)).
    { unfold bind at 1. rewrite query_eq by exact Hf. cbv zeta.
      unfold bind at 1. rewrite Hloop.
      unfold commit, bind. rewrite round_trip_ok_eq by exact Hf.
      reflexivity. }
    exists s1. split; [exact Hrun|]. split; [reflexivity|].
    split; [reflexivity|].
    assert (Hparse : answer
              = match Boba.log_statistics fault refs s1 with
                | (Ok tt, s') => (Ok true, s')
                | (Raise _, s') =>
                    match rollback s' with (_, s'') => (Ok false, s'') end
                end).
    { unfold answer, Boba.parse_xml_to_db. fold cache.
      unfold bind at 1. rewrite query_eq by exact Hf. cbv zeta.
      unfold getsize, for_iterparse.
      unfold bind at 1. cbn [ret].
      unfold bind at 1. unfold bind at 1. rewrite Hloop. cbn [ret].
      unfold bind at 1.
      replace (commit fault Boba.assign_id s0) with (@Ok unit tt, s1)
        by (unfold commit, bind; rewrite round_trip_ok_eq by exact Hf;
            reflexivity).
      reflexivity. }
    rewrite Hparse.
    pose proof (boba_log_statistics_same fault refs s1) as Hsame.
    split.
    + destruct (Boba.log_statistics fault refs s1) as [[[]|e] s2];
        cbn [snd] in *; exact Hsame.
    + intros Hsome.
      pose proof (log_statistics_ok fault refs s1 Hf Hsome) as Hok.
      destruct (Boba.log_statistics fault refs s1) as [r s2].
      cbn [fst] in Hok. subst r. reflexivity.
Qed.

(** X12 at work: on a database without the type coded 'higher' the answer is
    [False]; so it is for a truncated document; and on the seeded tables,
    for a well-formed document and a store that does not raise, it is
    [True]. *)
Lemma boba_parse_xml_to_db_answer_witness :
  fst (Boba.parse_xml_to_db Sample.no_fault Sample.int_eq_text Fixture.no_refs
         (Xml [Sample.university "7701"] true) Sample.boba_session) = Ok false
  /\ fst (Boba.parse_xml_to_db Sample.no_fault Sample.int_eq_text Sample.refs
            (Xml [Sample.university "7701"] false) Sample.boba_session)
     = Ok false
  /\ fst (Boba.parse_xml_to_db Sample.no_fault Sample.int_eq_text Sample.refs
            (Xml [Sample.university "7701"] true) Sample.boba_session)
     = Ok true.
Proof.
  split; [|split].
  - apply (proj1 (boba_parse_xml_to_db_answer Sample.no_fault
                    Sample.int_eq_text Fixture.no_refs
                    (Xml [Sample.university "7701"] true)
                    Sample.boba_session)).
    reflexivity.
  - apply (proj1 (proj2 (boba_parse_xml_to_db_answer Sample.no_fault
                           Sample.int_eq_text Sample.refs
                           (Xml [Sample.university "7701"] false)
                           Sample.boba_session))).
    right. eexists. reflexivity.
  - destruct (proj2 (proj2 (boba_parse_xml_to_db_answer Sample.no_fault
                              Sample.int_eq_text Sample.refs
                              (Xml [Sample.university "7701"] true)
                              Sample.boba_session))
                    [Sample.university "7701"] eq_refl (fun _ => eq_refl))
      as (s1 & _ & _ & _ & _ & H).
    apply H. vm_compute. discriminate.
Defined.

(** ** What the store holds once the pending rows are written *)

Section Written.
Context {Row : Type}.
Variable fault : nat -> bool.
Variable assign_id : list Row -> Row -> Row.

Lemma write_rows_app (held a b : list Row) :
  write_rows assign_id held (a ++ b)
  = write_rows assign_id held a
    ++ write_rows assign_id (held ++ write_rows assign_id held a) b.
Proof.
  revert held. induction a as [|x a IH]; intros held; cbn [app write_rows].
  - rewrite app_nil_r. reflexivity.
  - rewrite IH. rewrite <- app_assoc. reflexivity.
Qed.

Lemma written_write_pending (s : Session Row) :
  visible (write_pending assign_id s) = written assign_id s.
Proof.
  unfold visible, write_pending, written. cbn [committed flushed].
  unfold visible. rewrite app_assoc. reflexivity.
Qed.

Lemma written_settled (s : Session Row) :
  new s = [] -> written assign_id s = visible s.
Proof. intros H. unfold written. rewrite H. apply app_nil_r. Qed.

Lemma written_of_write_pending (s : Session Row) :
  written assign_id (write_pending assign_id s) = written assign_id s.
Proof.
  rewrite written_settled by reflexivity. apply written_write_pending.
Qed.

Lemma written_add r (s : Session Row) :
  written assign_id (snd (add r s))
  = written assign_id s ++ [assign_id (written assign_id s) r].
Proof.
  unfold written, visible. cbn [add snd committed flushed new].
  rewrite write_rows_snoc, app_assoc. reflexivity.
Qed.

Lemma visible_in_written (s : Session Row) r :
  r ∈ visible s -> r ∈ written assign_id s.
Proof. intros H. unfold written. apply elem_of_app. left. exact H. Qed.

Lemma length_written (s : Session Row) :
  length (written assign_id s)
  = (length (committed s) + length (flushed s) + length (new s))%nat.
Proof.
  unfold written, visible. rewrite !length_app, write_rows_length. reflexivity.
Qed.

(** Along computations that do not roll back nor change a flushed row the
    store only gets longer. *)
Definition written_grows (s s' : Session Row) : Prop :=
  written assign_id s `prefix_of` written assign_id s'.

Lemma written_grows_refl s : written_grows s s.
Proof. unfold written_grows. reflexivity. Qed.

Lemma written_grows_trans s1 s2 s3 :
  written_grows s1 s2 -> written_grows s2 s3 -> written_grows s1 s3.
Proof. unfold written_grows. intros H1 H2. etrans; eassumption. Qed.

Lemma written_same_ops (s : Session Row) n k :
  written assign_id (mk_session (committed s) (flushed s) (new s) n k)
  = written assign_id s.
Proof. reflexivity. Qed.

Lemma query_written (s : Session Row) :
  written assign_id (snd (query fault assign_id s)) = written assign_id s.
Proof.
  unfold query, bind, round_trip. destruct (fault (ops s)); cbn [snd];
    [reflexivity|].
  rewrite written_of_write_pending. reflexivity.
Qed.

Lemma flush_written (s : Session Row) :
  written assign_id (snd (flush fault assign_id s)) = written assign_id s.
Proof.
  unfold flush, bind, round_trip. destruct (fault (ops s)); cbn [snd];
    [reflexivity|].
  rewrite written_of_write_pending. reflexivity.
Qed.

Lemma commit_written (s : Session Row) :
  written assign_id (snd (commit fault assign_id s)) = written assign_id s.
Proof.
  unfold commit, bind, round_trip. destruct (fault (ops s)); cbn [snd];
    [reflexivity|].
  rewrite written_settled by reflexivity.
  unfold visible at 1. cbn [committed flushed]. rewrite app_nil_r.
  rewrite written_write_pending. reflexivity.
Qed.

(** A commit that goes through makes durable what the store holds. *)
Lemma commit_ok_written (s : Session Row) :
  fault (ops s) = false ->
  commit fault assign_id s
  = (Ok tt, mk_session (written assign_id s) [] [] (S (ops s)) (rollbacks s)).
Proof.
  intros Hf. unfold commit, bind, round_trip. rewrite Hf.
  rewrite written_write_pending. reflexivity.
Qed.
End Written.

(** ** Computations that end well and only append to the store *)

Section Appends.
Context {Row : Type}.
Variable fault : nat -> bool.
Variable assign_id : list Row -> Row -> Row.
Hypothesis no_fault : forall n, fault n = false.

(** The computation ends well and the store then holds the rows [l] more,
    written in that order. *)
Definition appends {A} (l : list Row) (m : M Row A) : Prop :=
  forall s, exists a s',
    m s = (Ok a, s')
    /\ written assign_id s'
       = written assign_id s ++ write_rows assign_id (written assign_id s) l.

Lemma appends_ret {A} (a : A) : appends [] (@ret Row A a).
Proof.
  intros s. exists a, s. split; [reflexivity|].
  cbn [write_rows]. rewrite app_nil_r. reflexivity.
Qed.

Lemma appends_bind {A B} l1 l2 (m : M Row A) (f : A -> M Row B) :
  appends l1 m -> (forall a, appends l2 (f a)) ->
  appends (l1 ++ l2) (bind m f).
Proof.
  intros Hm Hf s. destruct (Hm s) as (a & s1 & E1 & W1).
  destruct (Hf a s1) as (b & s2 & E2 & W2).
  exists b, s2. unfold bind. rewrite E1, E2. split; [reflexivity|].
  rewrite W2, W1, write_rows_app, <- app_assoc. reflexivity.
Qed.

(** The same when what follows is only known for the value the first
    computation answers. *)
Lemma appends_bind_value {A B} l1 l2 (m : M Row A) (f : A -> M Row B) a :
  appends l1 m -> (forall s, fst (m s) = Ok a) -> appends l2 (f a) ->
  appends (l1 ++ l2) (bind m f).
Proof.
  intros Hm Ha Hf s. destruct (Hm s) as (a' & s1 & E1 & W1).
  pose proof (Ha s) as Hv. rewrite E1 in Hv. injection Hv as ->.
  destruct (Hf s1) as (b & s2 & E2 & W2).
  exists b, s2. unfold bind. rewrite E1, E2. split; [reflexivity|].
  rewrite W2, W1, write_rows_app, <- app_assoc. reflexivity.
Qed.

Lemma appends_eq {A} l1 l2 (m : M Row A) :
  l1 = l2 -> appends l1 m -> appends l2 m.
Proof. intros ->. auto. Qed.

Lemma appends_add r : appends [r] (@add Row r).
Proof.
  intros s. exists tt. eexists. split; [reflexivity|].
  apply (written_add assign_id r s).
Qed.

Lemma appends_len_new : appends [] (@len_new Row).
Proof.
  intros s. eexists. exists s. split; [reflexivity|].
  cbn [write_rows]. rewrite app_nil_r. reflexivity.
Qed.

Lemma appends_query : appends [] (query fault assign_id).
Proof.
  intros s. pose proof (query_written fault assign_id s) as H.
  rewrite query_eq in * by exact no_fault. cbv zeta in *.
  eexists. eexists. split; [reflexivity|].
  cbn [snd] in H. rewrite H. cbn [write_rows]. rewrite app_nil_r.
  reflexivity.
Qed.

Lemma appends_flush : appends [] (flush fault assign_id).
Proof.
  intros s. pose proof (flush_written fault assign_id s) as H.
  rewrite flush_eq in * by exact no_fault.
  eexists. eexists. split; [reflexivity|].
  cbn [snd] in H. rewrite H. cbn [write_rows]. rewrite app_nil_r.
  reflexivity.
Qed.

Lemma appends_commit : appends [] (commit fault assign_id).
Proof.
  intros s. rewrite commit_ok_written by apply no_fault.
  eexists. eexists. split; [reflexivity|].
  rewrite written_settled by reflexivity.
  unfold visible. cbn [committed flushed write_rows].
  rewrite !app_nil_r. reflexivity.
Qed.

Lemma appends_for_each {A} (c : A -> list Row) (xs : list A)
    (body : A -> M Row unit) :
  Forall (fun x => appends (c x) (body x)) xs ->
  appends (flat_map c xs) (for_each xs body).
Proof.
  induction 1 as [|x xs Hx _ IH]; cbn [for_each flat_map].
  - apply appends_ret.
  - apply appends_bind; [exact Hx | intros _; exact IH].
Qed.

Lemma appends_try_except l (body handler : M Row unit) :
  appends l body -> appends l (try_except body handler).
Proof.
  intros Hb s. destruct (Hb s) as ([] & s1 & E & W).
  exists tt, s1. unfold try_except. rewrite E. auto.
Qed.

(** The commit test that ends the body of a record. *)
Lemma appends_commit_test :
  appends [] (do n <- @len_new Row;
              if (n mod 100 =? 0)%nat then commit fault assign_id else ret tt).
Proof.
  apply (appends_bind [] []); [apply appends_len_new|]. intros n.
  destruct (_ =? _)%nat; [apply appends_commit | apply appends_ret].
Qed.

(** The computation ends well and the store then holds [n] more rows, each
    with [P]. *)
Definition extends {A} (P : Row -> Prop) (n : nat) (m : M Row A) : Prop :=
  forall s, exists a s',
    m s = (Ok a, s')
    /\ exists more,
         written assign_id s' = written assign_id s ++ more
         /\ Forall P more /\ length more = n.

Lemma appends_extends {A} (P : Row -> Prop) l (m : M Row A) :
  (forall held, Forall P (write_rows assign_id held l)) ->
  appends l m -> extends P (length l) m.
Proof.
  intros HP Hm s. destruct (Hm s) as (a & s' & E & W).
  exists a, s'. split; [exact E|]. eexists. split; [exact W|].
  split; [apply HP | apply write_rows_length].
Qed.

Lemma extends_bind {A B} P n k (m : M Row A) (f : A -> M Row B) :
  extends P n m -> (forall a, extends P k (f a)) ->
  extends P (n + k) (bind m f).
Proof.
  intros Hm Hf s. destruct (Hm s) as (a & s1 & E1 & m1 & W1 & P1 & L1).
  destruct (Hf a s1) as (b & s2 & E2 & m2 & W2 & P2 & L2).
  exists b, s2. unfold bind. rewrite E1, E2. split; [reflexivity|].
  exists (m1 ++ m2). rewrite W2, W1, <- app_assoc.
  split; [reflexivity|]. split; [apply Forall_app; auto|].
  rewrite length_app. lia.
Qed.

Lemma extends_eq {A} P n k (m : M Row A) :
  n = k -> extends P n m -> extends P k m.
Proof. intros ->. auto. Qed.

Lemma extends_for_each {A} P (xs : list A) (body : A -> M Row unit) :
  (forall x, extends P 1 (body x)) ->
  extends P (length xs) (for_each xs body).
Proof.
  intros Hb. induction xs as [|x xs IH]; cbn [for_each length].
  - apply (appends_extends P []); [constructor | apply appends_ret].
  - apply (extends_bind P 1 (length xs)); [apply Hb | intros _; exact IH].
Qed.
End Appends.

(** ** proektMAI.py: the rows of a document *)

Lemma flat_map_singleton {A B} (f : A -> B) (l : list A) :
  flat_map (fun x => [f x]) l = map f l.
Proof. induction l as [|x l IH]; [reflexivity|]. cbn. rewrite IH. reflexivity. Qed.

Lemma appends_if {Row} (assign_id : list Row -> Row -> Row) (b : bool)
    (l : list Row) (m : M Row unit) :
  appends assign_id l m ->
  appends assign_id (if b then l else []) (if b then m else ret tt).
Proof. intros H. destruct b; [exact H | apply appends_ret]. Qed.

Section ProektRows.
Variable strptime : str -> str -> option datetime.
Variable fault : nat -> bool.
Hypothesis no_fault : forall n, fault n = false.

Lemma proekt_record_step_appends elem :
  (endswith (u "Certificate") (tag elem) = true ->
   find elem (u "ActualEducationOrganization") <> None) ->
  appends ProektMAI.assign_id (proekt_rows_of_record strptime elem)
          (ProektMAI.record_step strptime fault elem).
Proof.
  intros Horg. unfold ProektMAI.record_step, proekt_rows_of_record.
  destruct (endswith _ _); [|apply appends_ret].
  specialize (Horg eq_refl). apply appends_try_except.
  unfold ProektMAI.record_body.
  destruct (ProektMAI.process_organization elem) as [org|] eqn:E.
  2:{ exfalso. apply Horg. unfold ProektMAI.process_organization in E.
      destruct (find elem _); [discriminate | reflexivity]. }
  cbv zeta. unfold ProektMAI.stage.
  eapply appends_eq; cycle 1.
  { apply appends_bind; [apply appends_add|]. intros _.
    apply appends_bind; [apply appends_add|]. intros _.
    apply appends_bind; [apply appends_if, appends_add|]. intros _.
    apply appends_bind.
    { apply (appends_for_each ProektMAI.assign_id
               (fun supp_elem =>
                  [ProektMAI.mk_row None
                     (ProektMAI.ESupp
                        (ProektMAI.process_supplement strptime supp_elem
                           (ProektMAI.process_certificate strptime elem org)))]
                  ++ flat_map
                       (fun prog_elem =>
                          [ProektMAI.mk_row None
                             (ProektMAI.EProg
                                (ProektMAI.process_program prog_elem
                                   (ProektMAI.process_supplement strptime
                                      supp_elem
                                      (ProektMAI.process_certificate strptime
                                         elem org))))])
                       (findall_desc supp_elem (u "EducationalProgram")))).
      apply Forall_forall. intros supp_elem _.
      apply appends_bind; [apply appends_add|]. intros _.
      apply appends_for_each, Forall_forall. intros prog_elem _.
      apply appends_add. }
    intros _. apply appends_bind.
    { apply (appends_for_each ProektMAI.assign_id
               (fun decision_elem =>
                  [ProektMAI.mk_row None
                     (ProektMAI.EDecision
                        (ProektMAI.process_decision strptime decision_elem
                           (ProektMAI.process_certificate strptime elem
                              org)))])).
      apply Forall_forall. intros decision_elem _. apply appends_add. }
    intros _. apply appends_commit_test, no_fault. }
  cbn [app]. rewrite flat_map_singleton, app_nil_r.
  apply (f_equal (cons _)), (f_equal (cons _)), (f_equal (app _)).
  apply (f_equal (fun l => l ++ _)).
  apply flat_map_ext. intros supp_elem.
  rewrite flat_map_singleton. reflexivity.
Qed.

Lemma proekt_loop_appends events :
  (forall elem, elem ∈ events ->
     endswith (u "Certificate") (tag elem) = true ->
     find elem (u "ActualEducationOrganization") <> None) ->
  appends ProektMAI.assign_id
          (flat_map (proekt_rows_of_record strptime) events)
          (for_each events (ProektMAI.record_step strptime fault)).
Proof.
  intros Horg. apply appends_for_each, Forall_forall. intros elem Hin.
  apply proekt_record_step_appends, Horg, Hin.
Qed.
End ProektRows.

(** X13: in proektMAI.py, when the store does not raise and every
    Certificate element the parser delivers has its
    ActualEducationOrganization child, the rows of the document are the
    objects the body stages for each element, in document order: the
    organization and the certificate, the entrepreneur when one of its six
    texts is not empty, each supplement followed by its programs, and the
    decisions.  For a well-formed document [parse_xml_to_db] answers
    [True] and the committed rows are exactly the rows the store held
    before, pending ones written, followed by the rows of the document,
    each written once and keyed in that order.  For a document that is not
    well formed it answers [False] and what is committed is a prefix of
    those rows.  Nothing stays flushed or pending. *)
Theorem proekt_rows_conserved
    (strptime : str -> str -> option datetime) (fault : nat -> bool)
    (events : list Element) (well_formed : bool)
    (s : Session ProektMAI.Row) :
  (forall n, fault n = false) ->
  (forall elem, elem ∈ events ->
     endswith (u "Certificate") (tag elem) = true ->
     find elem (u "ActualEducationOrganization") <> None) ->
  let held := written ProektMAI.assign_id s in
  let rows :=
    held ++ write_rows ProektMAI.assign_id held
              (flat_map (proekt_rows_of_record strptime) events) in
  exists s',
    ProektMAI.parse_xml_to_db strptime fault (Xml events well_formed) s
    = (Ok well_formed, s')
    /\ flushed s' = [] /\ new s' = []
    /\ if well_formed then committed s' = rows
       else committed s' `prefix_of` rows.
Proof.
  intros Hf Horg held rows.
  destruct (proekt_loop_appends strptime fault Hf events Horg s)
    as ([] & s1 & Hloop & Hw).
  fold held in Hw. fold rows in Hw.
  unfold ProektMAI.parse_xml_to_db, getsize, for_iterparse, bind, ret.
  rewrite Hloop. destruct well_formed.
  - rewrite commit_ok_written by apply Hf.
    eexists. split; [reflexivity|]. cbn [flushed new committed].
    split; [reflexivity|]. split; [reflexivity | exact Hw].
  - eexists. split; [reflexivity|]. cbn [rollback flushed new committed].
    split; [reflexivity|]. split; [reflexivity|].
    rewrite <- Hw. unfold written, visible. rewrite <- !app_assoc.
    apply prefix_app_r. reflexivity.
Qed.

(** X13 at work: a university without supplement and the university with
    one supplement of two programs give seven rows: two organizations, two
    certificates, one supplement and two programs, keyed table by table in
    the order of the document. *)
Lemma proekt_rows_conserved_witness :
  exists s',
    ProektMAI.parse_xml_to_db Strptime.strptime Sample.no_fault
      (Xml [Sample.university "7701"; Fixture.with_programs] true)
      Sample.proekt_session
    = (Ok true, s')
    /\ flushed s' = [] /\ new s' = []
    /\ map ProektMAI.key (committed s')
       = [Some 1; Some 1; Some 2; Some 2; Some 1; Some 1; Some 2]%Z.
Proof.
  destruct (proekt_rows_conserved Strptime.strptime Sample.no_fault
              [Sample.university "7701"; Fixture.with_programs] true
              Sample.proekt_session (fun _ => eq_refl))
    as (s' & E & Hf & Hn & Hrows).
  - intros elem Hin _.
    apply elem_of_cons in Hin as [->|Hin]; [vm_compute; discriminate|].
    apply elem_of_cons in Hin as [->|Hin]; [vm_compute; discriminate|].
    inversion Hin.
  - exists s'. split; [exact E|]. split; [exact Hf|]. split; [exact Hn|].
    rewrite Hrows. vm_compute. reflexivity.
Defined.

(** ** boba.py: the rows of a record *)

Lemma max_bounds (ids : list Z) (x : Z) :
  x ∈ ids -> (x <= fold_right Z.max 0 ids)%Z.
Proof.
  induction ids as [|y ids IH]; intros H; [inversion H|].
  cbn [fold_right]. apply elem_of_cons in H as [->|H]; [lia|].
  specialize (IH H). lia.
Qed.

(** The key the store gives is new. *)
Lemma next_id_fresh (ids : list Z) : Boba.next_id ids ∉ ids.
Proof.
  intros H. apply max_bounds in H. unfold Boba.next_id in H. lia.
Qed.

Lemma org_ids_orgs_of (rows : list Boba.Row) :
  Boba.org_ids rows = org_keys (Boba.orgs_of rows).
Proof.
  unfold Boba.org_ids, org_keys, Boba.orgs_of.
  induction rows as [|[o|p] rows IH]; cbn [flat_map app];
    [reflexivity | | exact IH].
  rewrite IH. reflexivity.
Qed.

(** A row that is no organization under key [i] is left alone when the
    parent link of [i] is set. *)
Lemma reparent_others (i pid : Z) (rows : list Boba.Row) :
  i ∉ Boba.org_ids rows ->
  map (fun r => match r with
                | Boba.OrgRow o =>
                    if bool_decide (Boba.o_id o = Some i)
                    then Boba.OrgRow (Boba.set_parent_id pid o)
                    else r
                | Boba.ProgRow _ => r
                end) rows
  = rows.
Proof.
  unfold Boba.org_ids.
  induction rows as [|[o|p] rows IH]; cbn [map flat_map]; intros Hi;
    [reflexivity| |].
  - rewrite not_elem_of_app in Hi. destruct Hi as [Ho Hi].
    rewrite (IH Hi). rewrite bool_decide_eq_false_2; [reflexivity|].
    intros E. rewrite E in Ho. apply Ho. left.
  - rewrite (IH Hi). reflexivity.
Qed.

(** The program rows of the organization under key [i]. *)
Definition is_program_of (i : Z) (r : Boba.Row) : Prop :=
  match r with
  | Boba.ProgRow p => Boba.p_organization_id p = Some i
  | Boba.OrgRow _ => False
  end.

Lemma orgs_of_programs (i : Z) (rows : list Boba.Row) :
  Forall (is_program_of i) rows -> Boba.orgs_of rows = [].
Proof.
  induction 1 as [|[o|p] rows Hr _ IH]; [reflexivity | destruct Hr | exact IH].
Qed.

Section BobaRows.
Variable fault : nat -> bool.
Variable int_eq_text : Z -> str -> bool.
Variable refs : Boba.Refs.
Hypothesis no_fault : forall n, fault n = false.

Lemma appends_query_then {A} (f : list Boba.Row -> A) :
  appends Boba.assign_id []
          (do rows <- query fault Boba.assign_id; ret (f rows)).
Proof.
  apply (appends_bind Boba.assign_id [] []);
    [apply appends_query, no_fault |].
  intros rows. apply appends_ret.
Qed.

Lemma boba_process_program_appends prog_elem :
  appends Boba.assign_id [] (Boba.process_program fault refs prog_elem).
Proof.
  unfold Boba.process_program, Boba.first_level, Boba.first_form.
  apply (appends_bind Boba.assign_id [] []).
  { destruct (Boba.level_code _); [|apply appends_ret].
    apply (appends_bind Boba.assign_id [] []); [apply appends_query_then|].
    intros; apply appends_ret. }
  intros level_id. apply (appends_bind Boba.assign_id [] []).
  { destruct (Boba.form_code _); [|apply appends_ret].
    apply (appends_bind Boba.assign_id [] []); [apply appends_query_then|].
    intros; apply appends_ret. }
  intros form_id. apply appends_ret.
Qed.

(** When the store does not raise, the program built is a function of the
    element and the reference tables. *)
Lemma process_program_value prog_elem s :
  fst (Boba.process_program fault refs prog_elem s)
  = Ok (boba_program_of refs prog_elem).
Proof.
  unfold Boba.process_program, boba_program_of, Boba.first_level,
    Boba.first_form.
  destruct (Boba.level_code _) as [lc|], (Boba.form_code _) as [fc|];
    unfold bind; rewrite ?query_eq by exact no_fault;
    cbv beta iota zeta; unfold ret;
    rewrite ?query_eq by exact no_fault; reflexivity.
Qed.

Lemma programs_and_commit_appends elem i :
  appends Boba.assign_id
    (map (fun prog_elem =>
            Boba.ProgRow
              (Boba.set_organization_id (Some i)
                 (boba_program_of refs prog_elem)))
         (Boba.programs_of_record elem))
    (programs_and_commit fault refs elem (Some i)).
Proof.
  unfold programs_and_commit.
  rewrite <- flat_map_singleton, <- (app_nil_r (flat_map _ _)).
  apply appends_bind.
  - apply appends_for_each. apply Forall_forall. intros prog_elem _.
    apply (appends_bind_value Boba.assign_id [] [_] _ _
             (boba_program_of refs prog_elem));
      [apply boba_process_program_appends | apply process_program_value
      | apply appends_add].
  - intros _. apply appends_commit_test, no_fault.
Qed.

Lemma programs_and_commit_extends elem i :
  extends Boba.assign_id (is_program_of i)
          (length (Boba.programs_of_record elem))
          (programs_and_commit fault refs elem (Some i)).
Proof.
  unfold programs_and_commit.
  apply (extends_eq Boba.assign_id _
           (length (Boba.programs_of_record elem) + 0)); [lia|].
  apply extends_bind.
  - apply extends_for_each. intros prog_elem.
    apply (extends_bind Boba.assign_id _ 0 1).
    + apply (appends_extends Boba.assign_id _ []); [constructor|].
      apply boba_process_program_appends.
    + intros program.
      apply (appends_extends Boba.assign_id _
               [Boba.ProgRow (Boba.set_organization_id (Some i) program)]);
        [|apply appends_add].
      intros held. cbn [write_rows Boba.assign_id].
      constructor; [reflexivity | constructor].
  - intros _. apply (appends_extends Boba.assign_id _ []); [constructor|].
    apply appends_commit_test, no_fault.
Qed.

Lemma programs_and_commit_visible elem org_id :
  keeps visible_grows (programs_and_commit fault refs elem org_id).
Proof.
  unfold programs_and_commit. apply visible_bind.
  - apply keeps_for_each;
      [apply visible_grows_refl | apply visible_grows_trans |].
    intros prog_elem. apply visible_bind; [apply process_program_visible|].
    intros program. apply add_visible.
  - intros _. apply visible_bind; [intros s0 r Hr; exact Hr|].
    intros n. destruct (_ =? _)%nat; [apply commit_visible | apply visible_ret].
Qed.

(** The body of a record whose organization passes the filter: it ends
    well; the store then holds, after what it held, the organization under
    a new key with its parent link, and then the programs of the record,
    each pointing to that key. *)
Lemma boba_body_written cache elem org s :
  Boba.process_organization elem cache (Boba.programs_of_record elem)
    = Some org ->
  Boba.kept_by_filter org = true ->
  let held := written Boba.assign_id s in
  let i := Boba.next_id (Boba.org_ids held) in
  let row :=
    Boba.OrgRow
      (Boba.stored_org i (parent_link int_eq_text (Boba.orgs_of held) i org)
                       org) in
  exists s',
    Boba.record_body fault int_eq_text refs cache elem s = (Ok tt, s')
    /\ row ∈ visible s'
    /\ exists more,
         written Boba.assign_id s' = held ++ row :: more
         /\ Forall (is_program_of i) more
         /\ length more = length (Boba.programs_of_record elem)
         /\ more
            = write_rows Boba.assign_id (held ++ [row])
                (map (fun prog_elem =>
                        Boba.ProgRow
                          (Boba.set_organization_id (Some i)
                             (boba_program_of refs prog_elem)))
                     (Boba.programs_of_record elem)).
Proof.
  intros Horg Hkept held i row.
  destruct (process_organization_fresh _ _ _ _ Horg) as (Hid & Hpar & t & Ht).
  unfold Boba.record_body. rewrite Horg, Ht.
  rewrite (filter_condition org t Ht), Hkept. cbn [negb].
  fold (programs_and_commit fault refs elem).
  unfold bind at 1. cbn [add].
  unfold bind at 1. rewrite flush_eq by exact no_fault.
  unfold write_pending, visible.
  cbn [committed flushed new ops rollbacks].
  rewrite write_rows_snoc.
  change (committed s ++ flushed s) with (visible s).
  change (visible s ++ write_rows Boba.assign_id (visible s) (new s))
    with held.
  cbn [Boba.assign_id]. fold i.
  set (W := write_rows Boba.assign_id (visible s) (new s)).
  set (me := Boba.set_org_id i org).
  (* the key of the organization just flushed *)
  unfold bind at 1. unfold Boba.flushed_org_id at 1. cbn [flushed].
  rewrite !orgs_of_app. cbn [Boba.orgs_of flat_map app].
  rewrite !app_assoc, last_snoc.
  change (Boba.o_id me) with (Some i).
  (* the state after the branch handling *)
  assert (Hold : i ∉ Boba.org_ids (flushed s ++ W)).
  { intros Hin. apply (next_id_fresh (Boba.org_ids held)). fold i.
    unfold held, written, visible. fold W.
    rewrite <- app_assoc, org_ids_app, elem_of_app. right. exact Hin. }
  assert (Hbranch : exists n,
    (if Boba.truthy (Boba.o_IsBranch org)
     then do parent <- Boba.first_parent fault int_eq_text
                         (Boba.o_HeadEduOrgId org);
          match parent with
          | Some parent => Boba.set_parent (Some i) (Boba.o_id parent)
          | None => ret tt
          end
     else ret tt)
      (mk_session (committed s) ((flushed s ++ W) ++ [Boba.OrgRow me]) []
                  (S (ops s)) (rollbacks s))
    = (Ok tt, mk_session (committed s) ((flushed s ++ W) ++ [row]) []
                         n (rollbacks s))).
  { unfold row, parent_link.
    destruct (Boba.truthy (Boba.o_IsBranch org));
      [|eexists; reflexivity].
    unfold bind at 1. unfold Boba.first_parent at 1.
    unfold bind at 1. rewrite query_eq by exact no_fault.
    unfold write_pending, visible.
    cbn [committed flushed new ops rollbacks write_rows ret].
    rewrite app_nil_r.
    replace (Boba.orgs_of
               (committed s ++ (flushed s ++ W) ++ [Boba.OrgRow me]))
      with (Boba.orgs_of held ++ [me]).
    2:{ unfold held, written, visible. fold W.
        rewrite !orgs_of_app. cbn [Boba.orgs_of flat_map app].
        rewrite <- !app_assoc. reflexivity. }
    fold me.
    destruct (List.find _ (Boba.orgs_of held ++ [me])) as [p|];
      cbn [mbind option_bind];
      [destruct (Boba.o_id p) as [pid|]|];
      cbn [Boba.set_parent update_flushed ret Boba.stored_org
           committed flushed new ops rollbacks];
      [|eexists; reflexivity..].
    unfold update_flushed. cbn [committed flushed new ops rollbacks].
    rewrite map_app, (reparent_others i pid _ Hold). cbn [map].
    change (Boba.o_id me) with (Some i).
    rewrite bool_decide_eq_true_2 by reflexivity.
    eexists. reflexivity. }
  destruct Hbranch as (n & Hbranch).
  unfold bind at 1. rewrite Hbranch.
  set (s3 := mk_session (committed s) _ [] n (rollbacks s)).
  destruct (programs_and_commit_extends elem i s3)
    as ([] & s' & E & more & Hw & Hp & Hl).
  pose proof E as E'. unfold programs_and_commit in E'. rewrite E'.
  exists s'. split; [reflexivity|].
  assert (Hs3 : visible s3 = held ++ [row]).
  { unfold s3, visible, held, written, visible. fold W.
    cbn [committed flushed]. rewrite !app_assoc. reflexivity. }
  split.
  - pose proof (programs_and_commit_visible elem (Some i) s3) as Hv.
    rewrite E in Hv. change (row ∈ visible s'). apply Hv. rewrite Hs3.
    rewrite elem_of_app, list_elem_of_singleton. auto.
  - exists more. split; [|split; [assumption|split; [assumption|]]].
    + rewrite Hw, written_settled by reflexivity.
      rewrite Hs3, <- app_assoc. reflexivity.
    + destruct (programs_and_commit_appends elem i s3)
        as ([] & s'' & E2 & Hw2).
      rewrite E in E2. injection E2 as <-.
      rewrite Hw in Hw2. apply app_inv_head in Hw2.
      rewrite Hw2, written_settled by reflexivity.
      rewrite Hs3. reflexivity.
Qed.
End BobaRows.

Section BobaDocument.
Variable fault : nat -> bool.
Variable int_eq_text : Z -> str -> bool.
Variable refs : Boba.Refs.
Hypothesis no_fault : forall n, fault n = false.

(** One end event, when the store does not raise. *)
Lemma boba_record_step_written cache elem s :
  exists s',
    Boba.record_step fault int_eq_text refs cache elem s = (Ok tt, s')
    /\ match boba_org_of_record cache elem with
       | Some org =>
           let held := written Boba.assign_id s in
           let i := Boba.next_id (Boba.org_ids held) in
           let row :=
             Boba.OrgRow
               (Boba.stored_org i
                  (parent_link int_eq_text (Boba.orgs_of held) i org) org) in
           row ∈ visible s'
           /\ exists more,
                written Boba.assign_id s' = held ++ row :: more
                /\ Forall (is_program_of i) more
                /\ length more = length (Boba.programs_of_record elem)
                /\ more
                   = write_rows Boba.assign_id (held ++ [row])
                       (map (fun prog_elem =>
                               Boba.ProgRow
                                 (Boba.set_organization_id (Some i)
                                    (boba_program_of refs prog_elem)))
                            (Boba.programs_of_record elem))
       | None => s' = s
       end.
Proof.
  unfold Boba.record_step, boba_org_of_record.
  destruct (endswith _ _); [|exists s; split; reflexivity].
  destruct (Boba.process_organization _ _ _) as [org|] eqn:Horg.
  2:{ exists s. unfold try_except, Boba.record_body. rewrite Horg.
      split; reflexivity. }
  destruct (Boba.kept_by_filter org) eqn:Hkept.
  - destruct (boba_body_written fault int_eq_text refs no_fault cache elem
                org s Horg Hkept) as (s' & E & Hrow & Hmore).
    exists s'. unfold try_except. rewrite E. split; [reflexivity|].
    split; [exact Hrow | exact Hmore].
  - exists s. split; [|reflexivity].
    destruct (process_organization_fresh _ _ _ _ Horg) as (_ & _ & t & Ht).
    unfold try_except, Boba.record_body. rewrite Horg, Ht.
    rewrite (filter_condition org t Ht), Hkept. reflexivity.
Qed.

(** The loop over the elements delivered. *)
Lemma boba_loop_written cache events s :
  exists s',
    for_each events (Boba.record_step fault int_eq_text refs cache) s
    = (Ok tt, s')
    /\ written Boba.assign_id s `prefix_of` written Boba.assign_id s'
    /\ length (written Boba.assign_id s')
       = (length (written Boba.assign_id s)
          + sum_list_with (boba_rows_of_record cache) events)%nat
    /\ Boba.orgs_of (written Boba.assign_id s')
       = foldl (boba_store_org int_eq_text cache)
               (Boba.orgs_of (written Boba.assign_id s)) events
    /\ written Boba.assign_id s'
       = foldl (boba_store_rows int_eq_text refs cache)
               (written Boba.assign_id s) events.
Proof.
  revert s. induction events as [|elem events IH]; intros s.
  - exists s. cbn [for_each sum_list_with foldl]. split; [reflexivity|].
    split; [reflexivity|]. split; [simpl; lia | split; reflexivity].
  - destruct (boba_record_step_written cache elem s) as (s1 & E1 & H1).
    destruct (IH s1) as (s' & E & Hp & Hl & Ho & Hr).
    exists s'. cbn [for_each sum_list_with foldl]. unfold bind.
    rewrite E1, E. split; [reflexivity|].
    assert (Hrows : boba_rows_of_record cache elem
                    = match boba_org_of_record cache elem with
                      | Some _ => S (length (Boba.programs_of_record elem))
                      | None => 0%nat
                      end) by reflexivity.
    assert (Hstore : forall orgs,
              boba_store_org int_eq_text cache orgs elem
              = match boba_org_of_record cache elem with
                | Some org =>
                    orgs ++ [Boba.stored_org (Boba.next_id (org_keys orgs))
                               (parent_link int_eq_text orgs
                                  (Boba.next_id (org_keys orgs)) org) org]
                | None => orgs
                end) by reflexivity.
    assert (Hall : forall rows,
              boba_store_rows int_eq_text refs cache rows elem
              = match boba_org_of_record cache elem with
                | Some org =>
                    (rows
                     ++ [Boba.OrgRow
                           (Boba.stored_org (Boba.next_id (Boba.org_ids rows))
                              (parent_link int_eq_text (Boba.orgs_of rows)
                                 (Boba.next_id (Boba.org_ids rows)) org)
                              org)])
                    ++ write_rows Boba.assign_id
                         (rows
                          ++ [Boba.OrgRow
                                (Boba.stored_org
                                   (Boba.next_id (Boba.org_ids rows))
                                   (parent_link int_eq_text
                                      (Boba.orgs_of rows)
                                      (Boba.next_id (Boba.org_ids rows)) org)
                                   org)])
                         (map (fun prog_elem =>
                                 Boba.ProgRow
                                   (Boba.set_organization_id
                                      (Some (Boba.next_id (Boba.org_ids rows)))
                                      (boba_program_of refs prog_elem)))
                              (Boba.programs_of_record elem))
                | None => rows
                end) by reflexivity.
    rewrite Hrows, Hstore, Hall. clear Hrows Hstore Hall.
    destruct (boba_org_of_record cache elem) as [org|].
    + cbv zeta in H1. destruct H1 as (_ & more & Hw & Hm & Hlen & Hex).
      split; [|split; [|split]].
      * etrans; [|exact Hp]. rewrite Hw. apply prefix_app_r. reflexivity.
      * rewrite Hl, Hw, length_app. cbn [length]. rewrite Hlen. lia.
      * rewrite Ho, Hw, orgs_of_app.
        match goal with
        | |- context [Boba.orgs_of (?r :: more)] =>
            change (r :: more) with ([r] ++ more)
        end.
        rewrite orgs_of_app, (orgs_of_programs _ _ Hm), app_nil_r.
        cbn [Boba.orgs_of flat_map app].
        rewrite org_ids_orgs_of. reflexivity.
      * rewrite Hr, Hw, Hex, <- app_assoc. reflexivity.
    + subst s1. split; [exact Hp|].
      split; [rewrite Hl; lia | split; [exact Ho | exact Hr]].
Qed.

(** On a well-formed document, what [parse_xml_to_db] does after its final
    commit does not touch the committed rows. *)
Lemma boba_parse_after_commit events s s1 :
  (do _ <- query fault Boba.assign_id;
   do_ for_each events
         (Boba.record_step fault int_eq_text refs
            (Boba.build_cache (Boba.organization_types refs)));
   commit fault Boba.assign_id) s = (Ok tt, s1) ->
  flushed s1 = [] -> new s1 = [] ->
  exists b s',
    Boba.parse_xml_to_db fault int_eq_text refs (Xml events true) s
    = (Ok b, s')
    /\ flushed s' = [] /\ new s' = [] /\ committed s' = committed s1.
Proof.
  intros H Hfl Hn.
  assert (Hparse :
    Boba.parse_xml_to_db fault int_eq_text refs (Xml events true) s
    = match Boba.log_statistics fault refs s1 with
      | (Ok tt, s') => (Ok true, s')
      | (Raise _, s') =>
          match rollback s' with (_, s'') => (Ok false, s'') end
      end).
  { unfold Boba.parse_xml_to_db, getsize, for_iterparse, bind, ret.
    unfold bind in H.
    destruct (query fault Boba.assign_id s) as [[rows|e] s0]; [|discriminate].
    destruct (for_each events _ s0) as [[[]|e] s2]; [|discriminate].
    destruct (commit fault Boba.assign_id s2) as [[[]|e] s3]; [|discriminate].
    injection H as ->. reflexivity. }
  rewrite Hparse.
  pose proof (boba_log_statistics_same fault refs s1) as Hsame.
  pose proof (boba_log_statistics_settled fault refs s1 (conj Hfl Hn)) as Hset.
  destruct (Boba.log_statistics fault refs s1) as [[[]|e] s2];
    cbn [snd] in Hsame, Hset; unfold committed_same in Hsame.
  - exists true, s2. destruct Hset as [Hf2 Hn2]. auto.
  - exists false. eexists. split; [reflexivity|].
    cbn [flushed new committed]. auto.
Qed.

(** A well-formed document, when the store does not raise: the final
    commit makes durable what the loop left. *)
Lemma boba_parse_written events s :
  let cache := Boba.build_cache (Boba.organization_types refs) in
  exists sl b s',
    for_each events (Boba.record_step fault int_eq_text refs cache)
             (snd (query fault Boba.assign_id s)) = (Ok tt, sl)
    /\ Boba.parse_xml_to_db fault int_eq_text refs (Xml events true) s
       = (Ok b, s')
    /\ flushed s' = [] /\ new s' = []
    /\ committed s' = written Boba.assign_id sl.
Proof.
  intros cache.
  destruct (boba_loop_written cache events
              (snd (query fault Boba.assign_id s))) as (sl & El & _).
  destruct (boba_parse_after_commit events s
              (mk_session (written Boba.assign_id sl) [] [] (S (ops sl))
                          (rollbacks sl)))
    as (b & s' & E & Hf & Hn & Hc); [|reflexivity|reflexivity|].
  { fold cache. unfold bind.
    destruct (query fault Boba.assign_id s) as [[rows|e] s0] eqn:Eq.
    - cbn [snd] in El. rewrite El.
      apply commit_ok_written, no_fault.
    - rewrite query_eq in Eq by exact no_fault. discriminate Eq. }
  exists sl, b, s'. split; [exact El|]. split; [exact E|]. auto.
Qed.
End BobaDocument.

(** X14: in boba.py, on a well-formed document and when the store does not
    raise, [parse_xml_to_db] leaves nothing pending, and whether it answers
    [True] or [False] the committed rows are exactly these: the rows the
    store held before, pending ones written, and after them, for each
    Certificate element whose organization is built and passes the filter,
    in document order, the row of the organization, under a new key and
    linked to the first organization that the parent query matches when it
    is a branch, followed by one row for each of its programs, keyed in
    order and pointing to that key; nothing for any other element.  So the
    rows held before stay in place at the front, the number of rows added
    is one for each kept organization and one for each of its programs,
    and the organizations among the rows are each kept organization
    once. *)
Theorem boba_rows_conserved
    (fault : nat -> bool) (int_eq_text : Z -> str -> bool) (refs : Boba.Refs)
    (events : list Element) (s : Session Boba.Row) :
  (forall n, fault n = false) ->
  let cache := Boba.build_cache (Boba.organization_types refs) in
  let held := written Boba.assign_id s in
  let rows := foldl (boba_store_rows int_eq_text refs cache) held events in
  (exists b s',
     Boba.parse_xml_to_db fault int_eq_text refs (Xml events true) s
     = (Ok b, s')
     /\ flushed s' = [] /\ new s' = []
     /\ committed s' = rows)
  /\ held `prefix_of` rows
  /\ length rows
     = (length held + sum_list_with (boba_rows_of_record cache) events)%nat
  /\ Boba.orgs_of rows
     = foldl (boba_store_org int_eq_text cache) (Boba.orgs_of held) events.
Proof.
  intros Hf cache held rows.
  destruct (boba_parse_written fault int_eq_text refs Hf events s)
    as (sl & b & s' & El & E & Hfl & Hn & Hc).
  destruct (boba_loop_written fault int_eq_text refs Hf cache events
              (snd (query fault Boba.assign_id s)))
    as (sl' & El' & Hp & Hl & Ho & Hr).
  fold cache in El. rewrite El in El'. injection El' as <-.
  rewrite (query_written fault Boba.assign_id s) in Hp, Hl, Ho, Hr.
  fold held in Hp, Hl, Ho, Hr. fold rows in Hr. rewrite Hr in Hp, Hl, Ho, Hc.
  split; [exists b, s'; auto|]. auto.
Qed.

(** X14 at work: a university, a college that the filter drops and the
    university with its two programs give four rows; the two organizations
    are stored under the keys 1 and 2, and the two programs under the keys
    1 and 2 of their table, both pointing to the organization 2. *)
Lemma boba_rows_conserved_witness :
  exists b s',
    Boba.parse_xml_to_db Sample.no_fault Sample.int_eq_text Sample.refs
      (Xml [Sample.university "7701"; Sample.college; Fixture.with_programs]
           true)
      Sample.boba_session
    = (Ok b, s')
    /\ flushed s' = [] /\ new s' = []
    /\ length (committed s') = 4%nat
    /\ map Sample.brief (Boba.orgs_of (committed s'))
       = [ (Some 1%Z, [55; 55; 48; 49], [], None);
           (Some 2%Z, [55; 55; 48; 49], [], None) ]
    /\ map (fun p => (Boba.p_id p, Boba.p_organization_id p))
           (Boba.progs_of (committed s'))
       = [ (Some 1%Z, Some 2%Z); (Some 2%Z, Some 2%Z) ].
Proof.
  destruct (boba_rows_conserved Sample.no_fault Sample.int_eq_text Sample.refs
              [Sample.university "7701"; Sample.college;
               Fixture.with_programs]
              Sample.boba_session (fun _ => eq_refl))
    as ((b & s' & E & Hf & Hn & Hc) & _).
  exists b, s'. split; [exact E|]. split; [exact Hf|]. split; [exact Hn|].
  rewrite Hc. repeat split; vm_compute; reflexivity.
Defined.

(** ** The parent of a branch, to the end of the run *)

(** C4, amended: in boba.py, when the store does not raise and the document
    is well formed.  A record whose organization is built and flagged
    IsBranch = true is never rejected: its turn of the loop ends well, the
    organization is stored under a new key [i], whether or not a parent was
    found, and at the end of [parse_xml_to_db] that row is committed, with
    its parent link, whatever comes before and after the record in the
    document.  The parent link is the key of the first organization, in
    row order, among those the store holds once the branch is flushed (the
    branch itself is the last of them), whose key, compared with the text,
    or whose INN equals the branch's declared head identifier: one parent
    at most; no link when none matches; and that organization's key when
    it is the only one that matches. *)
Theorem branch_parent_is_first_match
    (fault : nat -> bool) (int_eq_text : Z -> str -> bool) (refs : Boba.Refs)
    (events_before events_after : list Element) (elem : Element)
    (org : Boba.Organization) (s : Session Boba.Row) :
  (forall n, fault n = false) ->
  endswith (u "Certificate") (tag elem) = true ->
  let cache := Boba.build_cache (Boba.organization_types refs) in
  Boba.process_organization elem cache (Boba.programs_of_record elem)
    = Some org ->
  Boba.o_IsBranch org = Some true ->
  let step := Boba.record_step fault int_eq_text refs cache in
  let reached :=
    snd (for_each events_before step (snd (query fault Boba.assign_id s))) in
  let held := written Boba.assign_id reached in
  let i := Boba.next_id (Boba.org_ids held) in
  let candidates := Boba.orgs_of held ++ [Boba.set_org_id i org] in
  let head := Boba.o_HeadEduOrgId org in
  let matches := fun o =>
    (match Boba.o_id o with
     | Some key => int_eq_text key head
     | None => false
     end) || str_eqb (Boba.o_INN o) head in
  let parent := List.find matches candidates in
  let row := Boba.OrgRow (Boba.stored_org i (parent ≫= Boba.o_id) org) in
  let s_end :=
    snd (Boba.parse_xml_to_db fault int_eq_text refs
           (Xml (events_before ++ elem :: events_after) true) s) in
  (exists s', step elem reached = (Ok tt, s') /\ row ∈ visible s')
  /\ row ∈ committed s_end
  /\ (i ∉ Boba.org_ids held)
  /\ match parent with
     | Some p =>
         exists earlier later,
           candidates = earlier ++ p :: later /\ matches p = true
           /\ Forall (fun o => matches o = false) earlier
     | None => Forall (fun o => matches o = false) candidates
     end
  /\ (forall p, p ∈ candidates -> matches p = true ->
        (forall q, q ∈ candidates -> matches q = true -> q = p) ->
        parent = Some p).
Proof.
  intros Hfault Htag cache Horg Hbranch step reached held i candidates head
         matches parent row s_end.
  assert (Hrec : boba_org_of_record cache elem = Some org).
  { unfold boba_org_of_record. rewrite Htag, Horg.
    unfold Boba.kept_by_filter. rewrite Hbranch. cbn [Boba.truthy].
    rewrite orb_true_r. reflexivity. }
  assert (Hlink : parent_link int_eq_text (Boba.orgs_of held) i org
                  = parent ≫= Boba.o_id).
  { unfold parent_link. rewrite Hbranch. reflexivity. }
  (* the loop up to the record, the record, the rest of the loop *)
  set (s0 := snd (query fault Boba.assign_id s)).
  destruct (boba_loop_written fault int_eq_text refs Hfault cache
              events_before s0) as (sb & Eb & _).
  assert (Hreached : reached = sb).
  { unfold reached, step. fold s0. rewrite Eb. reflexivity. }
  destruct (boba_record_step_written fault int_eq_text refs Hfault cache
              elem sb) as (s2 & E2 & H2).
  rewrite Hrec in H2. cbv zeta in H2. rewrite <- Hreached in H2.
  fold held in H2. fold i in H2. rewrite Hlink in H2. fold row in H2.
  destruct H2 as (Hvis & more & Hw & _ & _).
  destruct (boba_loop_written fault int_eq_text refs Hfault cache
              events_after s2) as (s3 & E3 & [k Hk] & _).
  split; [exists s2; rewrite Hreached; auto|].
  split.
  { destruct (boba_parse_written fault int_eq_text refs Hfault
                (events_before ++ elem :: events_after) s)
      as (sl & b & s' & El & E & _ & _ & Hc).
    fold cache in El. fold s0 in El.
    rewrite for_each_app, Eb in El. cbn [for_each] in El.
    unfold bind in El. rewrite E2, E3 in El.
    injection El as <-.
    unfold s_end. rewrite E. cbn [snd]. rewrite Hc, Hk, Hw.
    rewrite !elem_of_app, elem_of_cons. auto. }
  split; [apply next_id_fresh|]. split.
  - apply find_first_match.
  - intros p Hp Hm Huniq.
    pose proof (find_first_match matches candidates) as Hf.
    fold parent in Hf. destruct parent as [q|].
    + destruct Hf as (earlier & later & Hc & Hq & _).
      f_equal. apply Huniq; [|exact Hq].
      rewrite Hc, elem_of_app, elem_of_cons. auto.
    + rewrite Forall_forall in Hf. rewrite (Hf p Hp) in Hm. discriminate.
Qed.

(** C4 at work, after one university with key 1 and INN "7701" and before a
    college: the branch that names "7701", the university's INN, and the
    branch that names "1", the university's key, are each committed under
    key 2 and linked to key 1. *)
Lemma branch_parent_is_first_match_witness :
  Boba.OrgRow (Boba.stored_org 2 (Some 1%Z) Sample.branch_org)
    ∈ committed
        (snd (Boba.parse_xml_to_db Sample.no_fault Sample.int_eq_text
                Sample.refs
                (Xml ([Sample.university "7701"]
                      ++ Sample.branch "7701" :: [Sample.college]) true)
                Sample.boba_session))
  /\ Boba.OrgRow (Boba.stored_org 2 (Some 1%Z) Sample.branch_org_by_key)
       ∈ committed
           (snd (Boba.parse_xml_to_db Sample.no_fault Sample.int_eq_text
                   Sample.refs
                   (Xml ([Sample.university "7701"]
                         ++ Sample.branch "1" :: [Sample.college]) true)
                   Sample.boba_session)).
Proof.
  split.
  - destruct (branch_parent_is_first_match Sample.no_fault Sample.int_eq_text
                Sample.refs [Sample.university "7701"] [Sample.college]
                (Sample.branch "7701") Sample.branch_org Sample.boba_session
                (fun _ => eq_refl)
                ltac:(vm_compute; reflexivity)
                ltac:(vm_compute; reflexivity)
                ltac:(vm_compute; reflexivity))
      as (_ & H & _).
    vm_compute in H. vm_compute. exact H.
  - destruct (branch_parent_is_first_match Sample.no_fault Sample.int_eq_text
                Sample.refs [Sample.university "7701"] [Sample.college]
                (Sample.branch "1") Sample.branch_org_by_key
                Sample.boba_session
                (fun _ => eq_refl)
                ltac:(vm_compute; reflexivity)
                ltac:(vm_compute; reflexivity)
                ltac:(vm_compute; reflexivity))
      as (_ & H & _).
    vm_compute in H. vm_compute. exact H.
Defined.
